(** * daily_analysis: market review and analyzer, verified against their specification

    A shallow embedding of the three Python sources

      - [market_analyzer.py]        (the copy at the repository root),
      - [src/market_analyzer.py]    (the copy inside the [src] package),
      - [analyzer.py]               (the LLM analyzer, root copy),

    followed by the theorems that settle the specification's claims, and by
    further properties of the code: the market data path, the construction
    of the analyzer, the news search, the margin balances and the daily
    review of the package copy.

    Conventions of the embedding.
      - Python [float] is IEEE binary64, modelled by [spec_float] of the
        standard library with [prec = 53] and [emax = 1024]; comparisons with
        NaN are false, as in Python and numpy.
      - Python [int] is [Z]; [str] is [string] (UTF-8 bytes).
      - External collaborators (akshare, the LLM SDKs, the clock) are fields of
        the class [Externals]: state transformers on an abstract state of the
        outside world that may return a value or raise.
      - Effects are explicit: a computation of type [M A] maps a [World] (outside
        state and an event trace) to a result or a raised exception, and the
        next [World].  [try]/[except Exception] is [catch]. *)

From Stdlib Require Import ZArith List String Ascii Lia Bool Permutation Sorted.
From Stdlib Require Import Floats.SpecFloat DecimalString.
Import ListNotations.
Open Scope Z_scope.
Open Scope string_scope.

Set Implicit Arguments.

(* ===================================================================== *)
(** * Python values: floats, integers and strings *)
(* ===================================================================== *)

Module Float64.

Definition float := spec_float.

Definition prec : Z := 53.
Definition emax : Z := 1024.

Definition nan : float := S754_nan.
Definition zero : float := S754_zero false.

(** [float(n)] for a Python int [n]. *)
Definition of_Z (n : Z) : float := binary_normalize prec emax n 0 false.

Definition add (x y : float) : float := SFadd prec emax x y.
Definition sub (x y : float) : float := SFsub prec emax x y.
Definition mul (x y : float) : float := SFmul prec emax x y.
Definition div (x y : float) : float := SFdiv prec emax x y.
Definition opp (x : float) : float := SFopp x.
Definition abs (x : float) : float := SFabs x.

(** The decimal literal [n / 10^k] (correctly rounded; [n] and [10^k] are
    exact in binary64 for the literals of the sources). *)
Definition dec (n : Z) (k : nat) : float := div (of_Z n) (of_Z (10 ^ Z.of_nat k)).

(** [x < y], [x <= y], [x == y], [x > y], [x >= y]; all false on NaN. *)
Definition ltb (x y : float) : bool := SFltb x y.
Definition leb (x y : float) : bool := SFleb x y.
Definition eqb (x y : float) : bool := SFeqb x y.
Definition gtb (x y : float) : bool := SFltb y x.
Definition geb (x y : float) : bool := SFleb y x.

Definition is_nan (x : float) : bool :=
  match x with S754_nan => true | _ => false end.

(** Truth value of a float: [bool(x)] is false exactly for [0.0] and [-0.0]. *)
Definition truthy (x : float) : bool :=
  match x with S754_zero _ => false | _ => true end.

End Float64.

Import Float64.

(** ** Strings *)

Definition nl : string := String (ascii_of_nat 10) EmptyString.

(** [str(n)] for a Python int. *)
Definition str_of_int (n : Z) : string := NilZero.string_of_int (Z.to_int n).

Fixpoint replicate_char (n : nat) (c : ascii) : string :=
  match n with
  | O => EmptyString
  | S n' => String c (replicate_char n' c)
  end.

(** Decimal digits of [n >= 0], left-padded with zeros to [width]. *)
Definition zero_pad (width : nat) (n : Z) : string :=
  let s := str_of_int n in
  replicate_char (width - String.length s) "0"%char ++ s.

(** [sep.join(items)]. *)
Fixpoint join (sep : string) (items : list string) : string :=
  match items with
  | [] => EmptyString
  | [x] => x
  | x :: rest => x ++ sep ++ join sep rest
  end.

(** [s.startswith(p)]. *)
Definition startswith (s p : string) : bool := String.prefix p s.

(** [p in s] for strings (also [str.contains] for a literal pattern). *)
Fixpoint str_contains (s p : string) : bool :=
  String.prefix p s ||
  match s with
  | EmptyString => false
  | String _ s' => str_contains s' p
  end.

(** [s.lower()] on the ASCII letters. *)
Definition lower_ascii (c : ascii) : ascii :=
  let n := nat_of_ascii c in
  if (Nat.leb 65 n && Nat.leb n 90)%bool then ascii_of_nat (n + 32) else c.

Fixpoint lower (s : string) : string :=
  match s with
  | EmptyString => EmptyString
  | String c s' => String (lower_ascii c) (lower s')
  end.

(** Truth value of a string: non-empty. *)
Definition nonempty (s : string) : bool :=
  match s with EmptyString => false | _ => true end.

(** ** Formatting floats: the format specs [.Nf] and [+.Nf]

    Python prints the exact binary value rounded to [N] decimals, ties to
    even, with [inf] and [nan] spelled out. *)

Definition round_half_even (n d : Z) : Z :=
  let q := n / d in
  let r := n mod d in
  match Z.compare (2 * r) d with
  | Lt => q
  | Gt => q + 1
  | Eq => if Z.even q then q else q + 1
  end.

(** [round (m * 2^e * 10^digits)] for a positive mantissa. *)
Definition scaled_round (digits : nat) (m : positive) (e : Z) : Z :=
  let n := Zpos m * 10 ^ Z.of_nat digits in
  if (0 <=? e)%Z then n * 2 ^ e else round_half_even n (2 ^ (- e)).

Definition fixed_digits (digits : nat) (v : Z) : string :=
  match digits with
  | O => str_of_int v
  | S _ =>
      let p := 10 ^ Z.of_nat digits in
      str_of_int (v / p) ++ "." ++ zero_pad digits (v mod p)
  end.

Definition sign_text (plus negative : bool) : string :=
  if negative then "-" else if plus then "+" else "".

Definition format_f (plus : bool) (digits : nat) (x : float) : string :=
  match x with
  | S754_nan => sign_text plus false ++ "nan"
  | S754_infinity s => sign_text plus s ++ "inf"
  | S754_zero s => sign_text plus s ++ fixed_digits digits 0
  | S754_finite s m e => sign_text plus s ++ fixed_digits digits (scaled_round digits m e)
  end.

(** Wall-clock reading, as much of [datetime.now()] as the sources print. *)
Record datetime := mkDatetime {
  dt_year : Z; dt_month : Z; dt_day : Z; dt_hour : Z; dt_minute : Z
}.

(** [strftime('%Y-%m-%d')] and [strftime('%H:%M')]. *)
Definition strftime_Ymd (d : datetime) : string :=
  zero_pad 4 (dt_year d) ++ "-" ++ zero_pad 2 (dt_month d) ++ "-" ++ zero_pad 2 (dt_day d).

Definition strftime_HM (d : datetime) : string :=
  zero_pad 2 (dt_hour d) ++ ":" ++ zero_pad 2 (dt_minute d).

(* ===================================================================== *)
(** * Exceptions, events and provider tables *)
(* ===================================================================== *)

(** The exception classes the sources raise or single out; everything else a
    library raises is [OtherError].  All of them derive from [Exception]. *)
Inductive exn_class :=
| ImportError | ValueError | KeyError | AttributeError | PlainException | OtherError.

Record exn := mkExn { exn_kind : exn_class; exn_text : string }.

Definition result (A : Type) : Type := (exn + A)%type.

Inductive level := DEBUG | INFO | WARNING | ERROR.

(** What a run leaves behind, in order: calls of external operations,
    completed sleeps and log records (level, subject, attached error). *)
Inductive event :=
| Invoke (name : string)
| Sleep (seconds : Z)
| Log (lvl : level) (subject : string) (err : option exn).

(** A cell of a provider table: a number (also a numeric string), an empty
    value ([None] or the empty string), or text that is not a number. *)
Inductive cell :=
| Num (x : float)
| Blank
| Junk (s : string).

(** [pd.to_numeric(column, errors='coerce')], cell by cell. *)
Definition to_numeric (c : cell) : float :=
  match c with
  | Num x => x
  | Blank => nan
  | Junk _ => nan
  end.

(** A table with the rows typed by the endpoint that returns it. *)
Record DataFrame (R : Type) := mkDataFrame {
  columns : list string;
  rows : list R
}.

Definition has_column {R} (df : DataFrame R) (c : string) : bool :=
  existsb (String.eqb c) (columns df).

(** [df.empty]: no rows or no columns. *)
Definition empty {R} (df : DataFrame R) : bool :=
  match rows df, columns df with
  | [], _ => true
  | _, [] => true
  | _, _ => false
  end.

(** Index quotes ([stock_zh_index_spot_sina]): the code column and the
    other columns by name. *)
Record IndexRow := mkIndexRow {
  row_code : string;
  row_fields : list (string * cell)
}.

(** Full-market quotes ([stock_zh_a_spot_em]): the two columns the code reads. *)
Record SpotRow := mkSpotRow {
  spot_change_pct : cell;
  spot_amount : cell
}.

(** Sector quotes ([stock_board_industry_name_em]). *)
Record SectorRow := mkSectorRow {
  sector_name : string;
  sector_change_pct : cell
}.

Definition col_code : string := "代码".
Definition col_change_pct : string := "涨跌幅".
Definition col_amount : string := "成交额".
Definition col_sector_name : string := "板块名称".

(** ** Records of the data model *)

Module MarketIndex.
Record t := mk {
  code : string;
  name : string;
  current : float;
  change : float;
  change_pct : float;
  open : float;
  high : float;
  low : float;
  prev_close : float;
  volume : float;
  amount : float;
  amplitude : float
}.
End MarketIndex.

(** An entry of [top_sectors] / [bottom_sectors]: the dict
    [{'name': ..., 'change_pct': ...}]. *)
Module Sector.
Record t := mk { name : string; change_pct : float }.
End Sector.

Module MarketOverview.
Record t := mk {
  date : string;
  indices : list MarketIndex.t;
  up_count : Z;
  down_count : Z;
  flat_count : Z;
  limit_up_count : Z;
  limit_down_count : Z;
  total_amount : float;
  north_flow : float;
  top_sectors : list Sector.t;
  bottom_sectors : list Sector.t
}.

(** [MarketOverview(date=today)]: every other field at its default. *)
Definition init (today : string) : t :=
  mk today [] 0 0 0 0 0 zero zero [] [].

Definition set_indices (o : t) (v : list MarketIndex.t) : t :=
  mk (date o) v (up_count o) (down_count o) (flat_count o) (limit_up_count o)
     (limit_down_count o) (total_amount o) (north_flow o) (top_sectors o) (bottom_sectors o).

Definition set_breadth (o : t) (up down flat lup ldown : Z) : t :=
  mk (date o) (indices o) up down flat lup ldown
     (total_amount o) (north_flow o) (top_sectors o) (bottom_sectors o).

Definition set_total_amount (o : t) (v : float) : t :=
  mk (date o) (indices o) (up_count o) (down_count o) (flat_count o) (limit_up_count o)
     (limit_down_count o) v (north_flow o) (top_sectors o) (bottom_sectors o).

Definition set_top_sectors (o : t) (v : list Sector.t) : t :=
  mk (date o) (indices o) (up_count o) (down_count o) (flat_count o) (limit_up_count o)
     (limit_down_count o) (total_amount o) (north_flow o) v (bottom_sectors o).

Definition set_bottom_sectors (o : t) (v : list Sector.t) : t :=
  mk (date o) (indices o) (up_count o) (down_count o) (flat_count o) (limit_up_count o)
     (limit_down_count o) (total_amount o) (north_flow o) (top_sectors o) v.
End MarketOverview.

(** A news item ([SearchResult]): the two fields the prompt reads. *)
Record SearchResult := mkSearchResult { title : string; snippet : string }.

(** ** The LLM side *)

(** The settings [get_config()] returns, as far as the sources read them
    (the module [config] is not part of the sources). *)
Record Config := mkConfig {
  gemini_api_key : option string;
  gemini_model : string;
  gemini_model_fallback : string;
  gemini_max_retries : Z;
  gemini_retry_delay : Z;
  openai_api_key : option string;
  openai_base_url : option string;
  openai_model : string
}.

(** The dict [generation_config]; a key may be absent. *)
Record GenerationConfig := mkGenerationConfig {
  temperature : option float;
  max_output_tokens : option Z
}.

(** A [genai.GenerativeModel] and an [OpenAI] client, by what they were built from. *)
Record Model := mkModel { model_name : string; system_instruction : string }.
Record Client := mkClient { client_api_key : string; client_base_url : option string }.

(** What [generate_content] returns: [None], or a response whose [text]
    property yields a string, [None], or raises. *)
Inductive GeminiResponse :=
| NoResponse
| Response (text : result (option string)).

(** What [chat.completions.create] returns: [None], or a completion with
    the [message.content] of each choice. *)
Inductive ChatCompletion :=
| NoCompletion
| Completion (choices : list (option string)).

(** An external operation: reads and changes the outside world, then returns or raises. *)
Definition Op (S A : Type) : Type := S -> result A * S.

Class Externals := {
  Ext : Type;
  datetime_now : Ext -> datetime;
  after_sleep : Z -> Ext -> Ext;
  get_config : Config;
  (* akshare *)
  stock_zh_index_spot_sina : Op Ext (DataFrame IndexRow);
  stock_zh_a_spot_em : Op Ext (DataFrame SpotRow);
  stock_board_industry_name_em : Op Ext (DataFrame SectorRow);
  (* pandas: [Series.sum()], NaN skipped; the order of additions is the library's *)
  series_sum : list float -> float;
  (* google.generativeai *)
  import_genai : Op Ext unit;
  genai_configure : string -> Op Ext unit;
  genai_GenerativeModel : string -> string -> Op Ext unit;
  generate_content : Model -> string -> GenerationConfig -> Op Ext GeminiResponse;
  (* openai *)
  import_openai : Op Ext unit;
  OpenAI : string -> option string -> Op Ext unit;
  chat_completions_create :
    Client -> option string -> string -> string -> float -> Z -> Op Ext ChatCompletion;
  (* str.strip(), repr of a list of news items, the class constant SYSTEM_PROMPT *)
  str_strip : string -> string;
  repr_news : list SearchResult -> string;
  SYSTEM_PROMPT : string
}.

(* ===================================================================== *)
(** * Computations *)
(* ===================================================================== *)

Section Program.
Context {X : Externals}.

Record World := mkWorld { ext : Ext; trace : list event }.

Definition M (A : Type) : Type := World -> result A * World.

Definition ret {A} (a : A) : M A := fun w => (inr a, w).

Definition raise {A} (e : exn) : M A := fun w => (inl e, w).

Definition bind {A B} (c : M A) (k : A -> M B) : M B :=
  fun w =>
    match c w with
    | (inl e, w') => (inl e, w')
    | (inr a, w') => k a w'
    end.

(** [try: c  except Exception as e: h e]. *)
Definition catch {A} (c : M A) (h : exn -> M A) : M A :=
  fun w =>
    match c w with
    | (inl e, w') => h e w'
    | (inr a, w') => (inr a, w')
    end.

Definition emit (ev : event) : M unit :=
  fun w => (inr tt, mkWorld (ext w) (trace w ++ [ev])).

Definition log (lvl : level) (subject : string) (err : option exn) : M unit :=
  emit (Log lvl subject err).

(** Calling an external operation: the call is recorded, its outcome passed on. *)
Definition invoke {A} (name : string) (op : Op Ext A) : M A :=
  fun w =>
    let (r, x') := op (ext w) in
    (r, mkWorld x' (trace w ++ [Invoke name])).

(** [time.sleep(seconds)]: a negative length raises [ValueError]. *)
Definition sleep (seconds : Z) : M unit :=
  if (seconds <? 0)%Z
  then raise (mkExn ValueError "sleep length must be non-negative")
  else fun w => (inr tt, mkWorld (after_sleep seconds (ext w)) (trace w ++ [Sleep seconds])).

Definition lift {A} (r : result A) : M A := fun w => (r, w).

Definition now : M datetime := fun w => (inr (datetime_now (ext w)), w).

End Program.

Declare Scope monad_scope.
Notation "x <- c ;; k" := (bind c (fun x => k))
  (at level 61, c at next level, right associativity) : monad_scope.
Notation "c ;; k" := (bind c (fun _ => k))
  (at level 61, right associativity) : monad_scope.
Open Scope monad_scope.

(* ===================================================================== *)
(** * analyzer.py: class GeminiAnalyzer *)
(* ===================================================================== *)

Module GeminiAnalyzer.
Record t := mk {
  _api_key : option string;
  _model : option Model;
  _current_model_name : option string;
  _using_fallback : bool;
  _use_openai : bool;
  _openai_client : option Client
}.

Definition set_model (a : t) (m : option Model) : t :=
  mk (_api_key a) m (_current_model_name a) (_using_fallback a) (_use_openai a) (_openai_client a).

Definition set_gemini (a : t) (m : Model) (model : string) (fallback : bool) : t :=
  mk (_api_key a) (Some m) (Some model) fallback (_use_openai a) (_openai_client a).

Definition set_openai (a : t) (c : Client) (model : string) : t :=
  mk (_api_key a) (_model a) (Some model) (_using_fallback a) true (Some c).
End GeminiAnalyzer.

Import GeminiAnalyzer.

(** A key counts as configured when it is set, is not a [your_...]
    placeholder and is longer than 10 characters. *)
Definition key_valid (key : option string) : bool :=
  match key with
  | None => false
  | Some k => nonempty k && negb (startswith k "your_") && (10 <? Z.of_nat (String.length k))%Z
  end.

(** [response and response.choices and response.choices[0].message.content]. *)
Definition completion_content (r : ChatCompletion) : option string :=
  match r with
  | Completion (Some s :: _) => if nonempty s then Some s else None
  | _ => None
  end.

(** ['429' in error_str or 'rate' in error_str.lower() or 'quota' in error_str.lower()]. *)
Definition is_rate_limit (e : exn) : bool :=
  let error_str := exn_text e in
  str_contains error_str "429" || str_contains (lower error_str) "rate"
  || str_contains (lower error_str) "quota".

Section Analyzer.
Context {X : Externals}.

(** [is_available]. *)
Definition is_available (self : GeminiAnalyzer.t) : bool :=
  match _model self, _openai_client self with
  | None, None => false
  | _, _ => true
  end.

(** [_init_openai_fallback]. *)
Definition _init_openai_fallback (self : GeminiAnalyzer.t) : M GeminiAnalyzer.t :=
  let config := get_config in
  if negb (key_valid (openai_api_key config)) then
    log DEBUG "OpenAI 兼容 API 未配置或配置无效" None ;; ret self
  else
    imported <- catch (invoke "from openai import OpenAI" import_openai ;; ret true)
                      (fun e => match exn_kind e with
                                | ImportError => log ERROR "未安装 openai 库" (Some e) ;; ret false
                                | _ => raise e
                                end) ;;
    if negb imported then ret self
    else
      catch
        (let api_key := match openai_api_key config with Some k => k | None => "" end in
         let base_url :=
           match openai_base_url config with
           | Some u => if nonempty u && startswith u "http" then Some u else None
           | None => None
           end in
         invoke "OpenAI" (OpenAI api_key base_url) ;;
         let self' := set_openai self (mkClient api_key base_url) (openai_model config) in
         log INFO "OpenAI 兼容 API 初始化成功" None ;;
         ret self')
        (fun e => log ERROR "OpenAI 兼容 API 初始化失败" (Some e) ;; ret self).

(** [_init_model]: the outer [try] swallows every exception and leaves
    [_model = None]. *)
Definition _init_model (self : GeminiAnalyzer.t) : M GeminiAnalyzer.t :=
  catch
    (invoke "import google.generativeai" import_genai ;;
     invoke "genai.configure"
       (genai_configure (match _api_key self with Some k => k | None => "" end)) ;;
     let config := get_config in
     let model_name := gemini_model config in
     let fallback_model := gemini_model_fallback config in
     catch
       (invoke "genai.GenerativeModel" (genai_GenerativeModel model_name SYSTEM_PROMPT) ;;
        let self' := set_gemini self (mkModel model_name SYSTEM_PROMPT) model_name false in
        log INFO "Gemini 模型初始化成功" None ;;
        ret self')
       (fun model_error =>
          log WARNING "主模型初始化失败，尝试备选模型" (Some model_error) ;;
          invoke "genai.GenerativeModel" (genai_GenerativeModel fallback_model SYSTEM_PROMPT) ;;
          let self' := set_gemini self (mkModel fallback_model SYSTEM_PROMPT) fallback_model true in
          log INFO "Gemini 备选模型初始化成功" None ;;
          ret self'))
    (fun e =>
       log ERROR "Gemini 模型初始化失败" (Some e) ;;
       ret (set_model self None)).

(** [__init__]. *)
Definition __init__ (api_key : option string) : M GeminiAnalyzer.t :=
  let config := get_config in
  let key := match api_key with
             | Some k => if nonempty k then Some k else gemini_api_key config
             | None => gemini_api_key config
             end in
  let self := GeminiAnalyzer.mk key None None false false None in
  let gemini_key_valid := key_valid key in
  self <- (if gemini_key_valid then
             catch (_init_model self)
                   (fun e =>
                      log WARNING "Gemini 初始化失败，尝试 OpenAI 兼容 API" (Some e) ;;
                      _init_openai_fallback self)
           else
             log INFO "Gemini API Key 未配置，尝试使用 OpenAI 兼容 API" None ;;
             _init_openai_fallback self) ;;
  (if negb (is_available self)
   then log WARNING "未配置任何 AI API Key，AI 分析功能将不可用" None
   else ret tt) ;;
  ret self.

(** The [try] block of one pass of the loop of [_call_openai_api]. *)
Definition _call_openai_api_try (self : GeminiAnalyzer.t) (prompt : string)
    (generation_config : GenerationConfig) (base_delay attempt : Z) : M string :=
  (if (0 <? attempt)%Z then
     let delay := base_delay * 2 ^ (attempt - 1) in
     let delay := Z.min delay 60 in
     log INFO "[OpenAI] 重试，等待" None ;;
     sleep delay
   else ret tt) ;;
  client <- match _openai_client self with
            | Some c => ret c
            | None => raise (mkExn AttributeError "'NoneType' object has no attribute 'chat'")
            end ;;
  response <- invoke "chat.completions.create"
                (chat_completions_create client (_current_model_name self)
                   SYSTEM_PROMPT prompt
                   (match temperature generation_config with
                    | Some t => t | None => dec 7 1 end)
                   (match max_output_tokens generation_config with
                    | Some n => n | None => 8192 end)) ;;
  match completion_content response with
  | Some content => ret content
  | None => raise (mkExn ValueError "OpenAI API 返回空响应")
  end.

(** The loop of [_call_openai_api] from [attempt] on, with [remaining]
    passes of [range(max_retries)] left. *)
Fixpoint _call_openai_api_loop (self : GeminiAnalyzer.t) (prompt : string)
    (generation_config : GenerationConfig) (max_retries base_delay : Z)
    (remaining : nat) (attempt : Z) : M string :=
  match remaining with
  | O => raise (mkExn PlainException "OpenAI API 调用失败，已达最大重试次数")
  | S remaining' =>
      catch
        (_call_openai_api_try self prompt generation_config base_delay attempt)
        (fun e =>
           (if is_rate_limit e
            then log WARNING "[OpenAI] API 限流" (Some e)
            else log WARNING "[OpenAI] API 调用失败" (Some e)) ;;
           if (attempt =? max_retries - 1)%Z then raise e
           else _call_openai_api_loop self prompt generation_config max_retries base_delay
                  remaining' (attempt + 1))
  end.

(** [_call_openai_api]. *)
Definition _call_openai_api (self : GeminiAnalyzer.t) (prompt : string)
    (generation_config : GenerationConfig) : M string :=
  let config := get_config in
  let max_retries := gemini_max_retries config in
  let base_delay := gemini_retry_delay config in
  _call_openai_api_loop self prompt generation_config max_retries base_delay
    (Z.to_nat max_retries) 0.

End Analyzer.

(* ===================================================================== *)
(** * market_analyzer.py: data fetch (both copies) *)
(* ===================================================================== *)

(** [MAIN_INDICES], in insertion order. *)
Definition MAIN_INDICES : list (string * string) :=
  [ ("sh000001", "上证指数");
    ("sz399001", "深证成指");
    ("sz399006", "创业板指");
    ("sh000688", "科创50");
    ("sh000016", "上证50");
    ("sh000300", "沪深300") ].

(** [row.get(key, 0)]: [None] here stands for the default [0]. *)
Fixpoint row_get (fields : list (string * cell)) (key : string) : option cell :=
  match fields with
  | [] => None
  | (k, c) :: rest => if String.eqb k key then Some c else row_get rest key
  end.

(** [float(row.get(key, 0) or 0)]. *)
Definition float_field (row : IndexRow) (key : string) : result float :=
  match row_get (row_fields row) key with
  | None => inr zero
  | Some (Num x) => inr (if truthy x then x else zero)
  | Some Blank => inr zero
  | Some (Junk s) => inl (mkExn ValueError ("could not convert string to float: " ++ s))
  end.

Definition and_then {A B} (r : result A) (k : A -> result B) : result B :=
  match r with
  | inl e => inl e
  | inr a => k a
  end.

(** The row of [code]: an exact match on the code column, else the first
    row whose code contains it; [KeyError] without a code column. *)
Definition find_index_row (df : DataFrame IndexRow) (code : string) : result (option IndexRow) :=
  if negb (has_column df col_code) then inl (mkExn KeyError col_code)
  else
    match filter (fun r => String.eqb (row_code r) code) (rows df) with
    | r :: _ => inr (Some r)
    | [] =>
        match filter (fun r => str_contains (row_code r) code) (rows df) with
        | r :: _ => inr (Some r)
        | [] => inr None
        end
    end.

(** The [MarketIndex] built from a row, amplitude included. *)
Definition index_of_row (code name : string) (row : IndexRow) : result MarketIndex.t :=
  and_then (float_field row "最新价") (fun current =>
  and_then (float_field row "涨跌额") (fun change =>
  and_then (float_field row "涨跌幅") (fun change_pct =>
  and_then (float_field row "今开") (fun open =>
  and_then (float_field row "最高") (fun high =>
  and_then (float_field row "最低") (fun low =>
  and_then (float_field row "昨收") (fun prev_close =>
  and_then (float_field row "成交量") (fun volume =>
  and_then (float_field row "成交额") (fun amount =>
    let amplitude :=
      if gtb prev_close (of_Z 0)
      then mul (div (sub high low) prev_close) (of_Z 100)
      else zero in
    inr (MarketIndex.mk code name current change change_pct open high low
           prev_close volume amount amplitude)))))))))).

(** The [for code, name in MAIN_INDICES.items()] loop: the list built so
    far and the exception that stopped the loop, if one did. *)
Fixpoint collect_indices (df : DataFrame IndexRow) (items : list (string * string))
    (indices : list MarketIndex.t) : list MarketIndex.t * option exn :=
  match items with
  | [] => (indices, None)
  | (code, name) :: rest =>
      match find_index_row df code with
      | inl e => (indices, Some e)
      | inr None => collect_indices df rest indices
      | inr (Some row) =>
          match index_of_row code name row with
          | inl e => (indices, Some e)
          | inr index => collect_indices df rest (indices ++ [index])%list
          end
      end
  end.

(** [len(df[cond])]. *)
Definition count_rows (cond : float -> bool) (xs : list float) : Z :=
  Z.of_nat (List.length (filter cond xs)).

(** Stable insertion sort: [x], which stood before all of [l], goes
    before the first element that is not strictly ahead of it. *)
Fixpoint insert_by {A} (ahead : A -> A -> bool) (x : A) (l : list A) : list A :=
  match l with
  | [] => [x]
  | y :: l' => if ahead y x then y :: insert_by ahead x l' else x :: y :: l'
  end.

Definition sort_by {A} (ahead : A -> A -> bool) (l : list A) : list A :=
  fold_right (insert_by ahead) [] l.

(** [df.nlargest(n, col)] and [df.nsmallest(n, col)] with the default
    [keep='first']: the first [n] rows of the table ordered by the column,
    descending resp. ascending, equal values in row order. *)
Definition by_fall (y x : Sector.t) : bool := gtb (Sector.change_pct y) (Sector.change_pct x).
Definition by_rise (y x : Sector.t) : bool := ltb (Sector.change_pct y) (Sector.change_pct x).

Definition nlargest (n : nat) (l : list Sector.t) : list Sector.t :=
  firstn n (sort_by by_fall l).

Definition nsmallest (n : nat) (l : list Sector.t) : list Sector.t :=
  firstn n (sort_by by_rise l).

(** The rows of the sector table after [to_numeric] and [dropna]. *)
Definition numeric_sector_rows (df : DataFrame SectorRow) : list Sector.t :=
  filter (fun s => negb (is_nan (Sector.change_pct s)))
    (map (fun r => Sector.mk (sector_name r) (to_numeric (sector_change_pct r))) (rows df)).

(** The list comprehension over [iterrows()]: reading the name column of
    a row raises [KeyError] when the table has no such column. *)
Definition sector_entries (df : DataFrame SectorRow) (selected : list Sector.t)
    : result (list Sector.t) :=
  match selected with
  | [] => inr []
  | _ :: _ => if has_column df col_sector_name then inr selected
              else inl (mkExn KeyError col_sector_name)
  end.

Section DataFetch.
Context {X : Externals}.

(** The [attempts] argument of the three fetch steps: 2 in
    [market_analyzer.py], 9 in [src/market_analyzer.py]. *)
Variable fetch_attempts : Z.

(** The loop of [_call_akshare_with_retry] from [attempt] on, with
    [remaining] passes left. *)
Fixpoint _call_akshare_with_retry_loop {A} (fn : Op Ext A) (name : string) (attempts : Z)
    (remaining : nat) (attempt : Z) (last_error : option exn) : M (option A) :=
  match remaining with
  | O =>
      log ERROR name last_error ;;
      ret None
  | S remaining' =>
      catch
        (v <- invoke name fn ;; ret (Some v))
        (fun e =>
           log WARNING name (Some e) ;;
           (if (attempt <? attempts)%Z then sleep (Z.min (2 ^ attempt) 5) else ret tt) ;;
           _call_akshare_with_retry_loop fn name attempts remaining' (attempt + 1) (Some e))
  end.

(** [_call_akshare_with_retry]. *)
Definition _call_akshare_with_retry {A} (fn : Op Ext A) (name : string) (attempts : Z)
    : M (option A) :=
  _call_akshare_with_retry_loop fn name attempts (Z.to_nat attempts) 1 None.

(** [_get_main_indices]. *)
Definition _get_main_indices : M (list MarketIndex.t) :=
  catch
    (log INFO "[大盘] 获取主要指数实时行情..." None ;;
     df <- _call_akshare_with_retry stock_zh_index_spot_sina "指数行情" fetch_attempts ;;
     match df with
     | Some df =>
         if negb (empty df) then
           match collect_indices df MAIN_INDICES [] with
           | (indices, Some e) => log ERROR "[大盘] 获取指数行情失败" (Some e) ;; ret indices
           | (indices, None) => log INFO "[大盘] 获取到指数行情" None ;; ret indices
           end
         else ret []
     | None => ret []
     end)
    (fun e => log ERROR "[大盘] 获取指数行情失败" (Some e) ;; ret []).

(** The counts and the turnover [_get_market_statistics] writes for a
    non-empty table. *)
Definition with_breadth (df : DataFrame SpotRow) (overview : MarketOverview.t) : MarketOverview.t :=
  if has_column df col_change_pct then
    let xs := map (fun r => to_numeric (spot_change_pct r)) (rows df) in
    MarketOverview.set_breadth overview
      (count_rows (fun x => gtb x (of_Z 0)) xs)
      (count_rows (fun x => ltb x (of_Z 0)) xs)
      (count_rows (fun x => eqb x (of_Z 0)) xs)
      (count_rows (fun x => geb x (dec 99 1)) xs)
      (count_rows (fun x => leb x (opp (dec 99 1))) xs)
  else overview.

Definition with_total_amount (df : DataFrame SpotRow) (overview : MarketOverview.t)
    : MarketOverview.t :=
  if has_column df col_amount then
    let xs := map (fun r => to_numeric (spot_amount r)) (rows df) in
    MarketOverview.set_total_amount overview (div (series_sum xs) (of_Z 100000000))
  else overview.

(** [_get_market_statistics]. *)
Definition _get_market_statistics (overview : MarketOverview.t) : M MarketOverview.t :=
  catch
    (log INFO "[大盘] 获取市场涨跌统计..." None ;;
     df <- _call_akshare_with_retry stock_zh_a_spot_em "A股实时行情" fetch_attempts ;;
     match df with
     | Some df =>
         if negb (empty df) then
           let overview := with_total_amount df (with_breadth df overview) in
           log INFO "[大盘] 涨跌统计" None ;;
           ret overview
         else ret overview
     | None => ret overview
     end)
    (fun e => log ERROR "[大盘] 获取涨跌统计失败" (Some e) ;; ret overview).

(** [_get_sector_rankings].  An exception leaves the overview as it
    was when it was raised: before or after [top_sectors] was assigned. *)
Definition _get_sector_rankings (overview : MarketOverview.t) : M MarketOverview.t :=
  catch
    (log INFO "[大盘] 获取板块涨跌榜..." None ;;
     df <- _call_akshare_with_retry stock_board_industry_name_em "行业板块行情" fetch_attempts ;;
     match df with
     | Some df =>
         if negb (empty df) && has_column df col_change_pct then
           let numeric := numeric_sector_rows df in
           match sector_entries df (nlargest 5 numeric) with
           | inl e => log ERROR "[大盘] 获取板块涨跌榜失败" (Some e) ;; ret overview
           | inr top =>
               let overview := MarketOverview.set_top_sectors overview top in
               match sector_entries df (nsmallest 5 numeric) with
               | inl e => log ERROR "[大盘] 获取板块涨跌榜失败" (Some e) ;; ret overview
               | inr bottom =>
                   let overview := MarketOverview.set_bottom_sectors overview bottom in
                   log INFO "[大盘] 领涨板块" None ;;
                   log INFO "[大盘] 领跌板块" None ;;
                   ret overview
               end
           end
         else ret overview
     | None => ret overview
     end)
    (fun e => log ERROR "[大盘] 获取板块涨跌榜失败" (Some e) ;; ret overview).

(** [get_market_overview]. *)
Definition get_market_overview : M MarketOverview.t :=
  today <- now ;;
  let overview := MarketOverview.init (strftime_Ymd today) in
  indices <- _get_main_indices ;;
  let overview := MarketOverview.set_indices overview indices in
  overview <- _get_market_statistics overview ;;
  overview <- _get_sector_rankings overview ;;
  ret overview.

End DataFetch.

(* ===================================================================== *)
(** * market_analyzer.py: report generation *)
(* ===================================================================== *)

Record MarketAnalyzer := mkMarketAnalyzer {
  analyzer : option GeminiAnalyzer.t
}.

(** ** The copy at the repository root

    The body of [class MarketAnalyzer] ends with the second definition of
    [_build_review_prompt]; the next [def], [_generate_template_review],
    starts at column 0 and is a function of the module. *)
Module Root.

(** The names the class body binds. *)
Definition class_attributes : list string :=
  [ "MAIN_INDICES"; "__init__"; "get_market_overview";
    "_call_akshare_with_retry"; "_get_main_indices"; "_get_market_statistics";
    "_get_sector_rankings"; "search_market_news"; "generate_market_review";
    "_build_review_prompt" ].

(** [_generate_template_review] (module level). *)
Definition _generate_template_review (overview : MarketOverview.t) (news : list SearchResult)
    : string :=
  let mood :=
    if (60 <? MarketOverview.limit_up_count overview)%Z
       && (MarketOverview.limit_down_count overview <? 5)%Z
    then "情绪亢奋，满仓猛干"
    else if (15 <? MarketOverview.limit_down_count overview)%Z
    then "核按钮频现，退潮预警"
    else if ltb (MarketOverview.total_amount overview) (of_Z 8000)
    then "存量博弈，只有局部龙头能活"
    else "混沌震荡，只看核心辨识度" in
  let conclusion :=
    if (MarketOverview.down_count overview <? MarketOverview.up_count overview)%Z
    then "赚钱效应回暖，资金在试错新方向"
    else "面效应扩散，杂毛票不要碰" in
  "# 🐉 "
    ++ MarketOverview.date overview
    ++ " 小群复盘 (模板版)

### 一、情绪定位
**当前状态**："
    ++ mood
    ++ "
两市成交量 **"
    ++ format_f false 0 (MarketOverview.total_amount overview)
    ++ "亿**。没量就没审美，这种行情只适合在绝对龙头上抱团。

### 二、龙虎榜数据
- **上涨**: "
    ++ str_of_int (MarketOverview.up_count overview)
    ++ " | **下跌**: "
    ++ str_of_int (MarketOverview.down_count overview)
    ++ "
- **涨停/高度**: "
    ++ str_of_int (MarketOverview.limit_up_count overview)
    ++ "家 | **跌停/大面**: "
    ++ str_of_int (MarketOverview.limit_down_count overview)
    ++ "家
- **结论**: "
    ++ conclusion
    ++ "

### 三、领涨板块点睛
- **核心逻辑**: "
    ++ join ", " (map Sector.name (firstn 2 (MarketOverview.top_sectors overview)))
    ++ "。
- **点评**: 这里面只有带头的大哥有辨识度，其他的都是跟随者，切忌追高跟风票。

### 四、明日纪律
1. **只做龙头**：不去碰没地位的票。
2. **严防核按钮**：如果高标明天不能超预期开盘，直接兑现。
3. **空仓也是战斗**：看不懂的时候，守住本金就是赢。

---
*复盘席位：中国银河大连黄河路*
".

Section RootPrompt.
Context {X : Externals}.

(** [_build_review_prompt] (defined twice in the class body, with the same text). *)
Definition _build_review_prompt (overview : MarketOverview.t) (news : list SearchResult)
    : string :=
  let indices_text :=
    String.concat ""
      (map (fun idx => "- " ++ MarketIndex.name idx ++ ": "
                       ++ format_f false 2 (MarketIndex.current idx)
                       ++ " (" ++ format_f true 2 (MarketIndex.change_pct idx) ++ "%)" ++ nl)
           (MarketOverview.indices overview)) in
  let sentiment_data :=
    "
- 两市成交: "
    ++ format_f false 0 (MarketOverview.total_amount overview)
    ++ "亿 (缩量还是放量？决定了有没有大行情)
- 涨跌家数: "
    ++ str_of_int (MarketOverview.up_count overview)
    ++ "比"
    ++ str_of_int (MarketOverview.down_count overview)
    ++ " (市场合力方向)
- 连板/涨停: "
    ++ str_of_int (MarketOverview.limit_up_count overview)
    ++ "家 (赚钱效应的试金石)
- 跌停/核按钮: "
    ++ str_of_int (MarketOverview.limit_down_count overview)
    ++ "家 (大面源头，退潮信号)
" in
  "你现在是A股顶级新生代游资“陈小群”。请站在“银河大连黄河路”席位主力的视角，对今日市场进行复盘。

### 你的核心思维：
1. **情绪周期**：判断市场是在“冰点、发酵、高潮、分歧、退潮”的哪个阶段？
2. **绝对龙头**：只看核心辨识度标的，无视杂毛。
3. **暴力美学**：分析资金的合力与博弈，关注跌停板反核、缩量加速、高位强分歧等极端审美。
4. **席位动态**：你会关注黄河路、金马路等兄弟席位的进出，思考他们是在锁仓还是砸盘。

### 输入数据：
【今日指数】
"
    ++ indices_text
    ++ "

【情绪面数据】
"
    ++ sentiment_data
    ++ "

【板块与新闻】
领涨："
    ++ join ", " (map Sector.name (firstn 3 (MarketOverview.top_sectors overview)))
    ++ "
领跌："
    ++ join ", " (map Sector.name (firstn 3 (MarketOverview.bottom_sectors overview)))
    ++ "
市场传闻："
    ++ repr_news (firstn 5 news)
    ++ "

---

### 输出要求（纯 Markdown，陈小群语气）：

# 🐉 "
    ++ MarketOverview.date overview
    ++ " 小群实战复盘

## 一、情绪周期定位
（用一句话给今天定性：是该猛干还是该空仓？目前处于什么周期？）

## 二、大盘与合力分析
（从成交量、两市表现看大资金的真实意图。3000亿成交量干不出牛市，只有合力才有主升。）

## 三、核心标的与审美（重点！）
（结合板块和涨停数，点评当前市场的“灵魂龙头”是谁。谁在带节奏？谁是跟风杂毛？有没有出现“核按钮”或“反核”？）

## 四、席位与战法博弈
（从大连黄河路的视角，点评当下的博弈难点。如果是你，你会选择在哪个点位切入？是去打板确认，还是低吸反核？）

## 五、明日推演（冷酷纪律）
（明天高标如果断板，市场会崩吗？如果分歧转一致，哪个方向有辨识度？给兄弟们指个路。）

## 六、小群语录
（一句话犀利点评：例如“平庸是亏损的根源”或“空仓也是一种战斗”。）

---
注意：禁止使用券商分析师那种中庸、死板的话术，说话要直接、犀利、带江湖气息！
".

End RootPrompt.
End Root.

(** ** The copy in the [src] package *)
Module Pkg.

Definition class_attributes : list string :=
  [ "get_margin_data"; "MAIN_INDICES"; "__init__"; "get_market_overview";
    "_call_akshare_with_retry"; "_get_main_indices"; "_get_market_statistics";
    "_get_sector_rankings"; "search_market_news"; "generate_market_review";
    "_build_review_prompt"; "_generate_template_review"; "run_daily_review" ].

(** [next((idx for idx in overview.indices if idx.code == '000001'), None)]. *)
Definition sh_index (overview : MarketOverview.t) : option MarketIndex.t :=
  find (fun idx => String.eqb (MarketIndex.code idx) "000001") (MarketOverview.indices overview).

Definition market_mood (overview : MarketOverview.t) : string :=
  match sh_index overview with
  | Some sh_index =>
      if gtb (MarketIndex.change_pct sh_index) (of_Z 1) then "强势上涨"
      else if gtb (MarketIndex.change_pct sh_index) (of_Z 0) then "小幅上涨"
      else if gtb (MarketIndex.change_pct sh_index) (of_Z (-1)) then "小幅下跌"
      else "明显下跌"
  | None => "震荡整理"
  end.

Definition direction (idx : MarketIndex.t) : string :=
  if gtb (MarketIndex.change_pct idx) (of_Z 0) then "↑"
  else if ltb (MarketIndex.change_pct idx) (of_Z 0) then "↓"
  else "-".

Definition indices_text (overview : MarketOverview.t) : string :=
  String.concat ""
    (map (fun idx => "- **" ++ MarketIndex.name idx ++ "**: "
                     ++ format_f false 2 (MarketIndex.current idx)
                     ++ " (" ++ direction idx
                     ++ format_f false 2 (abs (MarketIndex.change_pct idx)) ++ "%)" ++ nl)
         (firstn 4 (MarketOverview.indices overview))).

(** The report text, given the reading of the clock. *)
Definition template_text (overview : MarketOverview.t) (clock : datetime) : string :=
  let market_mood := market_mood overview in
  let indices_text := indices_text overview in
  let top_text := join "、" (map Sector.name (firstn 3 (MarketOverview.top_sectors overview))) in
  let bottom_text := join "、" (map Sector.name (firstn 3 (MarketOverview.bottom_sectors overview))) in
  "## 📊 "
    ++ MarketOverview.date overview
    ++ " 大盘复盘

### 一、市场总结
今日A股市场整体呈现**"
    ++ market_mood
    ++ "**态势。

### 二、主要指数
"
    ++ indices_text
    ++ "

### 三、涨跌统计
| 指标 | 数值 |
|------|------|
| 上涨家数 | "
    ++ str_of_int (MarketOverview.up_count overview)
    ++ " |
| 下跌家数 | "
    ++ str_of_int (MarketOverview.down_count overview)
    ++ " |
| 涨停 | "
    ++ str_of_int (MarketOverview.limit_up_count overview)
    ++ " |
| 跌停 | "
    ++ str_of_int (MarketOverview.limit_down_count overview)
    ++ " |
| 两市成交额 | "
    ++ format_f false 0 (MarketOverview.total_amount overview)
    ++ "亿 |
| 北向资金 | "
    ++ format_f true 2 (MarketOverview.north_flow overview)
    ++ "亿 |

### 四、板块表现
- **领涨**: "
    ++ top_text
    ++ "
- **领跌**: "
    ++ bottom_text
    ++ "

### 五、风险提示
市场有风险，投资需谨慎。以上数据仅供参考，不构成投资建议。

---
*复盘时间: "
    ++ strftime_HM clock
    ++ "*
".

Section PkgTemplate.
Context {X : Externals}.

(** [_generate_template_review] (a method of the class): the report ends
    with [datetime.now().strftime('%H:%M')]. *)
Definition _generate_template_review (overview : MarketOverview.t) (news : list SearchResult)
    : M string :=
  clock <- now ;;
  ret (template_text overview clock).

End PkgTemplate.
End Pkg.

(** ** [generate_market_review], the same text in both copies *)

Section GenerateMarketReview.
Context {X : Externals}.

(** What the class of [self] binds and what the two helper names stand for. *)
Variable class_attributes : list string.
Variable _build_review_prompt : MarketOverview.t -> list SearchResult -> M string.
Variable _generate_template_review : MarketOverview.t -> list SearchResult -> M string.

(** [self.name]: the attribute if the class binds it, else [AttributeError]. *)
Definition getattr_self {A} (name : string) (value : A) : M A :=
  if existsb (String.eqb name) class_attributes then ret value
  else raise (mkExn AttributeError
                ("'MarketAnalyzer' object has no attribute '" ++ name ++ "'")).

Definition template_review (overview : MarketOverview.t) (news : list SearchResult) : M string :=
  f <- getattr_self "_generate_template_review" _generate_template_review ;;
  f overview news.

(** [response.text.strip() if response and response.text else None]. *)
Definition gemini_review (response : GeminiResponse) : M (option string) :=
  match response with
  | NoResponse => ret None
  | Response text =>
      t <- lift text ;;
      match t with
      | Some s => if nonempty s then ret (Some (str_strip s)) else ret None
      | None => ret None
      end
  end.

Definition generate_market_review (self : MarketAnalyzer) (overview : MarketOverview.t)
    (news : list SearchResult) : M string :=
  match analyzer self with
  | None =>
      log WARNING "[大盘] AI分析器未配置或不可用，使用模板生成报告" None ;;
      template_review overview news
  | Some llm =>
      if negb (is_available llm) then
        log WARNING "[大盘] AI分析器未配置或不可用，使用模板生成报告" None ;;
        template_review overview news
      else
        build <- getattr_self "_build_review_prompt" _build_review_prompt ;;
        prompt <- build overview news ;;
        catch
          (log INFO "[大盘] 调用大模型生成复盘报告..." None ;;
           let generation_config := mkGenerationConfig (Some (dec 7 1)) (Some 2048) in
           review <- (if _use_openai llm then
                        r <- _call_openai_api llm prompt generation_config ;;
                        ret (Some r)
                      else
                        model <- match _model llm with
                                 | Some m => ret m
                                 | None => raise (mkExn AttributeError
                                     "'NoneType' object has no attribute 'generate_content'")
                                 end ;;
                        response <- invoke "generate_content"
                                      (generate_content model prompt generation_config) ;;
                        gemini_review response) ;;
           match review with
           | Some r =>
               if nonempty r then
                 log INFO "[大盘] 复盘报告生成成功" None ;;
                 ret r
               else
                 log WARNING "[大盘] 大模型返回为空" None ;;
                 template_review overview news
           | None =>
               log WARNING "[大盘] 大模型返回为空" None ;;
               template_review overview news
           end)
          (fun e =>
             log ERROR "[大盘] 大模型生成复盘报告失败" (Some e) ;;
             template_review overview news)
  end.

End GenerateMarketReview.

(** The two instances of [generate_market_review]. *)
Section Copies.
Context {X : Externals}.

Definition Root_generate_market_review : MarketAnalyzer -> MarketOverview.t ->
    list SearchResult -> M string :=
  generate_market_review Root.class_attributes
    (fun overview news => ret (Root._build_review_prompt overview news))
    (fun overview news => ret (Root._generate_template_review overview news)).

End Copies.

(* ===================================================================== *)
(** * Vocabulary of the statements *)
(* ===================================================================== *)

Section Vocabulary.
Context {X : Externals}.

(** An operation that raises at every call. *)
Definition always_raises {A} (fn : Op Ext A) : Prop :=
  forall x, exists e x', fn x = (inl e, x').

(** A completion call that fails at every call: it raises or its
    completion carries no content. *)
Definition always_fails_completion (fn : Op Ext ChatCompletion) : Prop :=
  forall x, exists x',
    (exists e, fn x = (inl e, x')) \/
    (exists r, fn x = (inr r, x') /\ completion_content r = None).

(** A computation that returns in every world. *)
Definition never_raises {A} (c : M A) : Prop :=
  forall w, exists a w', c w = (inr a, w').

(** No AI provider: the analyzer is absent or not available. *)
Definition no_provider (self : MarketAnalyzer) : Prop :=
  match analyzer self with
  | None => True
  | Some llm => is_available llm = false
  end.

(** A report: a computation that returns non-empty text in every world. *)
Definition yields_report (c : M string) : Prop :=
  forall w, exists s w', c w = (inr s, w') /\ nonempty s = true.

Definition outcome {A} (c : M A) (w : World) : result A := fst (c w).
Definition world_after {A} (c : M A) (w : World) : World := snd (c w).

(** The fetch of [fn] through the retry wrapper, started in the outside
    state [x], returns [v], at the first attempt or at a later one. *)
Definition fetch_succeeds {A} (fn : Op Ext A) (name : string) (attempts : Z) (x : Ext) (v : A)
    : Prop :=
  forall t, outcome (_call_akshare_with_retry fn name attempts) (mkWorld x t) = inr (Some v).

End Vocabulary.

Definition is_invoke (ev : event) : bool :=
  match ev with Invoke _ => true | _ => false end.

(** Number of calls of external operations in a list of events. *)
Definition calls (evs : list event) : Z := Z.of_nat (List.length (filter is_invoke evs)).

(** The calls and sleeps of a list of events, in order. *)
Definition timing (evs : list event) : list event :=
  filter (fun ev => match ev with Invoke _ | Sleep _ => true | Log _ _ _ => false end) evs.

(** The delay the specification gives for retry attempt [k >= 2]. *)
Definition backoff (base_delay cap_seconds k : Z) : Z :=
  Z.min (base_delay * 2 ^ (k - 2)) cap_seconds.

(** Attempts [k], [k+1], ... ([n] of them), each after its delay. *)
Fixpoint retries (name : string) (base_delay cap_seconds k : Z) (n : nat) : list event :=
  match n with
  | O => []
  | S n' => Sleep (backoff base_delay cap_seconds k) :: Invoke name
            :: retries name base_delay cap_seconds (k + 1) n'
  end.

(** The calls and sleeps of a retry sequence of [j] attempts: the first
    attempt at once, every later one after its delay. *)
Definition timeline (name : string) (base_delay cap_seconds : Z) (j : nat) : list event :=
  match j with
  | O => []
  | S j' => Invoke name :: retries name base_delay cap_seconds 2 j'
  end.

(** Position of a float that is not NaN in the order of [SFcompare]:
    sign class, then exponent, then mantissa. *)
Definition rank (x : float) : Z * Z * Z :=
  match x with
  | S754_nan => (0, 0, 0)
  | S754_zero _ => (0, 0, 0)
  | S754_infinity true => (-2, 0, 0)
  | S754_infinity false => (2, 0, 0)
  | S754_finite true m e => (-1, - e, - Zpos m)
  | S754_finite false m e => (1, e, Zpos m)
  end.

Definition lex_lt (p q : Z * Z * Z) : Prop :=
  let '(a, b, c) := p in
  let '(a', b', c') := q in
  a < a' \/ (a = a' /\ (b < b' \/ (b = b' /\ c < c'))).

(** Orders on sector entries by [change_pct]. *)
Definition falls (a b : Sector.t) : Prop := by_fall a b = true.
Definition rises (a b : Sector.t) : Prop := by_rise a b = true.

Definition numeric (s : Sector.t) : Prop := is_nan (Sector.change_pct s) = false.

(** No two entries at different positions have equal [change_pct]. *)
Definition distinct_changes (l : list Sector.t) : Prop :=
  ForallOrdPairs (fun a b => eqb (Sector.change_pct a) (Sector.change_pct b) = false) l.

(** The entries whose [change_pct] equals [v], in list order. *)
Definition ties (v : float) (l : list Sector.t) : list Sector.t :=
  filter (fun s => eqb (Sector.change_pct s) v) l.

Definition MAIN_INDEX_CODES : list string := map fst MAIN_INDICES.

(** What [self._generate_template_review] raises where the class does not bind the name. *)
Definition no_template_attribute : exn :=
  mkExn AttributeError "'MarketAnalyzer' object has no attribute '_generate_template_review'".

(** Whether a list of events holds a step of the OpenAI-compatible
    initialization: the import of the SDK or the construction of a client. *)
Definition openai_tried (evs : list event) : bool :=
  existsb (fun ev => match ev with
                     | Invoke name => String.eqb name "from openai import OpenAI"
                                      || String.eqb name "OpenAI"
                     | _ => false
                     end) evs.

(** ** The events of the two retry loops *)

(** The events of a run of [_call_akshare_with_retry] from attempt
    [attempt] on: [errs] are the errors of the failed attempts, in order;
    [ok] tells whether the attempt after them succeeded. *)
Fixpoint akshare_events (name : string) (attempts attempt : Z) (errs : list exn) (ok : bool)
    (last_error : option exn) : list event :=
  match errs with
  | [] => if ok then [Invoke name] else [Log ERROR name last_error]
  | e :: rest =>
      ([Invoke name; Log WARNING name (Some e)]
       ++ (if (attempt <? attempts)%Z then [Sleep (Z.min (2 ^ attempt) 5)] else [])
       ++ akshare_events name attempts (attempt + 1) rest ok (Some e))%list
  end.

Definition openai_call : string := "chat.completions.create".

Definition openai_warning (e : exn) : event :=
  Log WARNING (if is_rate_limit e then "[OpenAI] API 限流" else "[OpenAI] API 调用失败") (Some e).

Definition openai_wait (base_delay attempt : Z) : list event :=
  if (0 <? attempt)%Z
  then [Log INFO "[OpenAI] 重试，等待" None; Sleep (Z.min (base_delay * 2 ^ (attempt - 1)) 60)]
  else [].

(** The same for the loop of [_call_openai_api], attempts counted from 0. *)
Fixpoint openai_events (base_delay attempt : Z) (errs : list exn) (ok : bool) : list event :=
  match errs with
  | [] => if ok then (openai_wait base_delay attempt ++ [Invoke openai_call])%list else []
  | e :: rest =>
      (openai_wait base_delay attempt ++ [Invoke openai_call; openai_warning e]
       ++ openai_events base_delay (attempt + 1) rest ok)%list
  end.

Definition exhausted_error : exn :=
  mkExn PlainException "OpenAI API 调用失败，已达最大重试次数".

(* ===================================================================== *)
(** * Sample worlds *)
(* ===================================================================== *)

Module Sample.

Definition throttled : exn := mkExn OtherError "HTTP 429 Too Many Requests".

(** The outside world: the clock and the number of calls the index
    endpoint will still refuse. *)
Record state := mkState { refusals_left : nat; clock : datetime }.

(** An endpoint is down, serves a table, or recovers after its refusals. *)
Definition down {A} : Op state A := fun x => (inl throttled, x).
Definition serves {A} (v : A) : Op state A := fun x => (inr v, x).
Definition recovers {A} (v : A) : Op state A :=
  fun x =>
    match refusals_left x with
    | O => (inr v, x)
    | S n => (inl throttled, mkState n (clock x))
    end.

Definition config : Config :=
  mkConfig (Some "AIzaSy-sample-key-000001") "gemini-3-flash-preview" "gemini-2.5-flash"
           3 5 (Some "sk-sample-key-0000001") (Some "https://api.deepseek.com/v1")
           "deepseek-chat".

Definition quote (code : string) (price change pct prev : Z) : IndexRow :=
  mkIndexRow code
    [ ("最新价", Num (dec price 2)); ("涨跌额", Num (dec change 2));
      ("涨跌幅", Num (dec pct 2)); ("今开", Num (dec prev 2));
      ("最高", Num (dec (price + 500) 2)); ("最低", Num (dec (prev - 500) 2));
      ("昨收", Num (dec prev 2)); ("成交量", Num (of_Z 312000000));
      ("成交额", Num (of_Z 410000000000)) ].

(** Shanghai up 2.50%, Shenzhen down 0.40%. *)
Definition index_table : DataFrame IndexRow :=
  mkDataFrame
    [ "代码"; "名称"; "最新价"; "涨跌额"; "涨跌幅"; "昨收"; "今开"; "最高"; "最低";
      "成交量"; "成交额" ]
    [ quote "sh000001" 338250 8250 250 330000;
      quote "sz399001" 1095600 (-4400) (-40) 1100000 ].

(** The breadth example of the specification. *)
Definition spot_table : DataFrame SpotRow :=
  mkDataFrame [ "代码"; "涨跌幅"; "成交额" ]
    [ mkSpotRow (Num (of_Z 10)) (Num (of_Z 300000000));
      mkSpotRow (Num (opp (dec 995 2))) (Num (of_Z 200000000));
      mkSpotRow (Num zero) Blank;
      mkSpotRow (Num (of_Z 5)) (Num (of_Z 500000000));
      mkSpotRow (Num (opp (of_Z 11))) (Junk "-") ].

(** Seven sectors with distinct changes. *)
Definition sector_table : DataFrame SectorRow :=
  mkDataFrame [ "板块名称"; "涨跌幅" ]
    [ mkSectorRow "半导体" (Num (dec 312 2));
      mkSectorRow "银行" (Num (opp (dec 45 2)));
      mkSectorRow "煤炭" (Num (opp (dec 210 2)));
      mkSectorRow "军工" (Num (dec 150 2));
      mkSectorRow "白酒" (Num (dec 5 2));
      mkSectorRow "房地产" (Num (opp (dec 330 2)));
      mkSectorRow "光伏" (Num (dec 480 2)) ].

Definition sum_skipna (xs : list float) : float :=
  fold_left add (filter (fun x => negb (is_nan x)) xs) zero.

(** The index quotes come after the refusals, the full-market quotes at
    once; the sector endpoint is an argument; no Gemini model can be built,
    an OpenAI client can, and the completion endpoint is throttled. *)
Definition externals (sectors : Op state (DataFrame SectorRow)) : Externals :=
  {| Ext := state;
     datetime_now := clock;
     after_sleep := fun _ x => x;
     get_config := config;
     stock_zh_index_spot_sina := recovers index_table;
     stock_zh_a_spot_em := serves spot_table;
     stock_board_industry_name_em := sectors;
     series_sum := sum_skipna;
     import_genai := serves tt;
     genai_configure := fun _ => serves tt;
     genai_GenerativeModel := fun _ _ => down;
     generate_content := fun _ _ _ => down;
     import_openai := serves tt;
     OpenAI := fun _ _ => serves tt;
     chat_completions_create := fun _ _ _ _ _ _ => down;
     str_strip := fun s => s;
     repr_news := fun _ => "[]";
     SYSTEM_PROMPT := "你现在是顶级新生代游资" |}.

Definition sectors_down : Externals := externals down.
Definition sectors_up : Externals := externals (serves sector_table).

Definition morning : datetime := mkDatetime 2026 1 5 9 30.
Definition afternoon : datetime := mkDatetime 2026 1 5 15 0.

Definition morning_state : state := mkState 0 morning.

(** A morning on which the index endpoint refuses its first call. *)
Definition flaky_morning : state := mkState 1 morning.

Definition start (X : Externals) (x : @Ext X) : @World X := mkWorld x [].

Definition openai_analyzer : GeminiAnalyzer.t :=
  GeminiAnalyzer.mk None None (Some "deepseek-chat") false true
    (Some (mkClient "sk-sample-key-0000001" (Some "https://api.deepseek.com/v1"))).

Definition overview : MarketOverview.t :=
  MarketOverview.mk "2026-01-05" [] 3120 1890 241 72 3 (of_Z 12345) zero
    [Sector.mk "光伏" (dec 480 2); Sector.mk "半导体" (dec 312 2)]
    [Sector.mk "房地产" (opp (dec 330 2))].

End Sample.

(* ===================================================================== *)
(** * Cost of a computation *)
(* ===================================================================== *)

Open Scope Z_scope.

(** Seconds slept in a list of events. *)
Definition slept (evs : list event) : Z :=
  fold_right (fun ev s => match ev with Sleep d => d + s | _ => s end) 0 evs.

(** [c] adds at most [n] calls of external operations and [s] seconds of
    sleep to the trace, in every world and whether it returns or raises. *)
Definition within {X : Externals} {A} (n s : Z) (c : M A) : Prop :=
  forall w, exists evs,
    trace (world_after c w) = (trace w ++ evs)%list /\ calls evs <= n /\ slept evs <= s.

(* ===================================================================== *)
(** * More vocabulary of the statements *)
(* ===================================================================== *)

(** An operation that returns at every call. *)
Definition always_returns {X : Externals} {A} (fn : Op Ext A) : Prop :=
  forall x, exists v x', fn x = (inr v, x').

(** Whether a list of events holds a call of the Gemini SDK. *)
Definition gemini_tried (evs : list event) : bool :=
  existsb (fun ev => match ev with
                     | Invoke name => String.eqb name "import google.generativeai"
                                      || String.eqb name "genai.configure"
                                      || String.eqb name "genai.GenerativeModel"
                     | _ => false
                     end) evs.

(** The [base_url] handed to the OpenAI client: the configured one when
    it starts with [http]. *)
Definition client_url (cfg : Config) : option string :=
  match openai_base_url cfg with
  | Some u => if nonempty u && startswith u "http" then Some u else None
  | None => None
  end.

(** [l1] is [l2] with some elements left out. *)
Inductive subsequence {A : Type} : list A -> list A -> Prop :=
| subsequence_nil : forall l, subsequence [] l
| subsequence_take : forall x l1 l2, subsequence l1 l2 -> subsequence (x :: l1) (x :: l2)
| subsequence_skip : forall x l1 l2, subsequence l1 l2 -> subsequence l1 (x :: l2).

(** The key and the name of an index, as an item of [MAIN_INDICES]. *)
Definition index_item (idx : MarketIndex.t) : string * string :=
  (MarketIndex.code idx, MarketIndex.name idx).

(* ===================================================================== *)
(** * The analyzer: switching to the fallback model *)
(* ===================================================================== *)

Section Switch.
Context {X : Externals}.

(** [_switch_to_fallback_model]: the returned flag and the analyzer after the call. *)
Definition _switch_to_fallback_model (self : GeminiAnalyzer.t) : M (bool * GeminiAnalyzer.t) :=
  catch
    (invoke "import google.generativeai" import_genai ;;
     let config := get_config in
     let fallback_model := gemini_model_fallback config in
     log WARNING "[LLM] 切换到备选模型" None ;;
     invoke "genai.GenerativeModel" (genai_GenerativeModel fallback_model SYSTEM_PROMPT) ;;
     let self' := set_gemini self (mkModel fallback_model SYSTEM_PROMPT) fallback_model true in
     log INFO "[LLM] 备选模型初始化成功" None ;;
     ret (true, self'))
    (fun e =>
       log ERROR "[LLM] 切换备选模型失败" (Some e) ;;
       ret (false, self)).

(** The provider attributes of an analyzer agree: a Gemini model, an
    OpenAI client or neither, never both, with the flags and the model name
    that go with it. *)
Definition coherent (self : GeminiAnalyzer.t) : Prop :=
  match _model self, _openai_client self with
  | Some m, None =>
      _use_openai self = false
      /\ _current_model_name self = Some (model_name m)
      /\ system_instruction m = SYSTEM_PROMPT
      /\ model_name m = (if _using_fallback self then gemini_model_fallback get_config
                         else gemini_model get_config)
  | None, Some c =>
      _use_openai self = true
      /\ _using_fallback self = false
      /\ _current_model_name self = Some (openai_model get_config)
      /\ Some (client_api_key c) = openai_api_key get_config
  | None, None =>
      _use_openai self = false /\ _using_fallback self = false
      /\ _current_model_name self = None
  | Some _, Some _ => False
  end.

End Switch.

(* ===================================================================== *)
(** * The news search *)
(* ===================================================================== *)

(** [c.isspace()] for an ASCII character. *)
Definition is_space (c : ascii) : bool :=
  let n := nat_of_ascii c in
  (Nat.leb 9 n && Nat.leb n 13) || (Nat.leb 28 n && Nat.leb n 32).

(** [s.split()]: the words between runs of whitespace.  Whitespace is
    ASCII whitespace here; the strings the sources split hold no other. *)
Fixpoint split_from (s : string) (word : string) : list string :=
  match s with
  | EmptyString => if nonempty word then [word] else []
  | String c s' =>
      if is_space c
      then (if nonempty word then word :: split_from s' "" else split_from s' "")
      else split_from s' (word ++ String c "")
  end.

Definition str_split (s : string) : list string := split_from s "".

(** What [search_stock_news] returns: [None], or a response with its results. *)
Record SearchResponse := mkSearchResponse { results : list SearchResult }.

Section News.
Context {X : Externals}.

(** The search service, by its method
    [search_stock_news(stock_code, stock_name, max_results, focus_keywords)]. *)
Definition SearchService : Type :=
  string -> string -> Z -> list string -> Op Ext (option SearchResponse).

(** The three queries of [search_market_news]. *)
Definition search_queries (today : datetime) : list string :=
  let month_str := str_of_int (dt_year today) ++ "年" ++ str_of_int (dt_month today) ++ "月" in
  [ "A股 大盘 复盘 " ++ month_str;
    "股市 行情 分析 今日 " ++ month_str;
    "A股 市场 热点 板块 " ++ month_str ].

(** The [for query in search_queries] loop: the news gathered so far and
    the exception that stopped the loop, if one did. *)
Fixpoint search_loop (search : SearchService) (queries : list string)
    (all_news : list SearchResult) : M (list SearchResult * option exn) :=
  match queries with
  | [] => ret (all_news, None)
  | query :: rest =>
      r <- catch (response <- invoke "search_stock_news"
                                (search "market" "大盘" 3 (str_split query)) ;;
                  ret (inr response))
                 (fun e => ret (inl e)) ;;
      match r with
      | inl e => ret (all_news, Some e)
      | inr (Some response) =>
          match results response with
          | [] => search_loop search rest all_news
          | _ :: _ =>
              log INFO "[大盘] 搜索获取结果" None ;;
              search_loop search rest (all_news ++ results response)
          end
      | inr None => search_loop search rest all_news
      end
  end.

(** [search_market_news], with [self.search_service] as its argument. *)
Definition search_market_news (search_service : option SearchService)
    : M (list SearchResult) :=
  match search_service with
  | None =>
      log WARNING "[大盘] 搜索服务未配置，跳过新闻搜索" None ;;
      ret []
  | Some search =>
      today <- now ;;
      let search_queries := search_queries today in
      log INFO "[大盘] 开始搜索市场新闻..." None ;;
      r <- search_loop search search_queries [] ;;
      match r with
      | (all_news, None) =>
          log INFO "[大盘] 共获取市场新闻" None ;;
          ret all_news
      | (all_news, Some e) =>
          log ERROR "[大盘] 搜索市场新闻失败" (Some e) ;;
          ret all_news
      end
  end.

(** The results of the queries the service answers, query by query, up to
    the first call that raises. *)
Fixpoint answered (search : SearchService) (queries : list string) (x : Ext)
    : list (list SearchResult) :=
  match queries with
  | [] => []
  | query :: rest =>
      match search "market" "大盘" 3 (str_split query) x with
      | (inl _, _) => []
      | (inr response, x') =>
          match response with
          | Some r => results r
          | None => []
          end :: answered search rest x'
      end
  end.

End News.

(* ===================================================================== *)
(** * The margin balances, the prompt and the daily review of the package copy *)
(* ===================================================================== *)

(** ** More of Python's strings and dates *)

(** A byte that continues a UTF-8 character. *)
Definition is_continuation (c : ascii) : bool :=
  let n := nat_of_ascii c in Nat.leb 128 n && Nat.ltb n 192.

(** [s[:n]]: the first [n] characters of a (UTF-8) string. *)
Fixpoint take_chars (n : nat) (s : string) : string :=
  match s with
  | EmptyString => EmptyString
  | String c s' =>
      if is_continuation c then String c (take_chars n s')
      else match n with
           | O => EmptyString
           | S n' => String c (take_chars n' s')
           end
  end.

(** [s.replace("-", "")]. *)
Fixpoint remove_dashes (s : string) : string :=
  match s with
  | EmptyString => EmptyString
  | String c s' => if Ascii.eqb c "-"%char then remove_dashes s' else String c (remove_dashes s')
  end.

(** [enumerate(items, start)]. *)
Fixpoint enumerate {A} (start : Z) (items : list A) : list (Z * A) :=
  match items with
  | [] => []
  | x :: rest => (start, x) :: enumerate (start + 1) rest
  end.

(** The thousands separators of the format spec [,]: a comma before
    every group of three digits but the first. *)
Fixpoint group_thousands (digits : string) : string :=
  match digits with
  | EmptyString => EmptyString
  | String c rest =>
      let r := Z.of_nat (String.length rest) in
      String c (if (r mod 3 =? 0)%Z && (0 <? r)%Z then "," ++ group_thousands rest
                else group_thousands rest)
  end.

Definition grouped_digits (digits : nat) (v : Z) : string :=
  match digits with
  | O => group_thousands (str_of_int v)
  | S _ =>
      let p := 10 ^ Z.of_nat digits in
      group_thousands (str_of_int (v / p)) ++ "." ++ zero_pad digits (v mod p)
  end.

(** The format spec [,.Nf]. *)
Definition format_grouped (digits : nat) (x : float) : string :=
  match x with
  | S754_nan => "nan"
  | S754_infinity s => sign_text false s ++ "inf"
  | S754_zero s => sign_text false s ++ grouped_digits digits 0
  | S754_finite s m e => sign_text false s ++ grouped_digits digits (scaled_round digits m e)
  end.

(** Day numbers of the proleptic Gregorian calendar, as [datetime] counts
    them: day 1 is 0001-01-01. *)
Definition is_leap (year : Z) : bool :=
  (year mod 4 =? 0) && (negb (year mod 100 =? 0) || (year mod 400 =? 0)).

Definition DAYS_IN_MONTH (month : Z) : Z :=
  nth (Z.to_nat month) [-1; 31; 28; 31; 30; 31; 30; 31; 31; 30; 31; 30; 31] (-1).

Definition DAYS_BEFORE_MONTH (month : Z) : Z :=
  nth (Z.to_nat month) [-1; 0; 31; 59; 90; 120; 151; 181; 212; 243; 273; 304; 334] (-1).

Definition days_before_year (year : Z) : Z :=
  let y := year - 1 in y * 365 + y / 4 - y / 100 + y / 400.

Definition days_before_month (year month : Z) : Z :=
  DAYS_BEFORE_MONTH month + (if (2 <? month) && is_leap year then 1 else 0).

Definition ymd2ord (year month day : Z) : Z :=
  days_before_year year + days_before_month year month + day.

Definition ord2ymd (n : Z) : Z * Z * Z :=
  let n := n - 1 in
  let n400 := n / 146097 in
  let n := n mod 146097 in
  let year := n400 * 400 + 1 in
  let n100 := n / 36524 in
  let n := n mod 36524 in
  let n4 := n / 1461 in
  let n := n mod 1461 in
  let n1 := n / 365 in
  let n := n mod 365 in
  let year := year + n100 * 100 + n4 * 4 + n1 in
  if (n1 =? 4) || (n100 =? 4) then (year - 1, 12, 31)
  else
    let leapyear := (n1 =? 3) && (negb (n4 =? 24) || (n100 =? 3)) in
    let month := Z.shiftr (n + 50) 5 in
    let preceding := DAYS_BEFORE_MONTH month + (if (2 <? month) && leapyear then 1 else 0) in
    if n <? preceding then
      let month := month - 1 in
      let preceding :=
        preceding - (DAYS_IN_MONTH month + (if (month =? 2) && leapyear then 1 else 0)) in
      (year, month, n - preceding + 1)
    else (year, month, n - preceding + 1).

Definition toordinal (d : datetime) : Z := ymd2ord (dt_year d) (dt_month d) (dt_day d).

(** [d - timedelta(days=n)]: [OverflowError] before 0001-01-01. *)
Definition minus_days (d : datetime) (n : Z) : result datetime :=
  let ordinal := toordinal d - n in
  if ordinal <? 1 then inl (mkExn OtherError "date value out of range")
  else
    let '(y, m, day) := ord2ymd ordinal in
    inr (mkDatetime y m day (dt_hour d) (dt_minute d)).

(** [strftime("%Y%m%d")]. *)
Definition strftime_compact (d : datetime) : string :=
  zero_pad 4 (dt_year d) ++ zero_pad 2 (dt_month d) ++ zero_pad 2 (dt_day d).

(** ** The margin tables *)

(** A value in a cell of a margin table. *)
Inductive pyval :=
| PyStr (s : string)
| PyFloat (x : float)
| PyInt (n : Z)
| PyNone.

(** A row, by column name. *)
Definition Row : Type := list (string * pyval).

Fixpoint row_value (row : Row) (column : string) : option pyval :=
  match row with
  | [] => None
  | (k, v) :: rest => if String.eqb k column then Some v else row_value rest column
  end.

(** [row[column]]. *)
Definition getitem (row : Row) (column : string) : result pyval :=
  match row_value row column with
  | Some v => inr v
  | None => inl (mkExn KeyError column)
  end.

(** The margin endpoints of akshare, and what the code leaves to pandas
    and to the built-in [float]. *)
Class MarginData {X : Externals} := {
  stock_margin_sse : string -> string -> Op Ext (DataFrame Row);
  stock_margin_szse : string -> Op Ext (DataFrame Row);
  (* [df.sort_values(by=column, ascending=False)], on the rows; the
     order of rows with equal keys is the library's *)
  sort_values_descending : string -> list Row -> list Row;
  (* [float(s)] for a string, [None] where it raises [ValueError] *)
  float_of_str : string -> option float
}.

Module PkgReview.

Section Margin.
Context {X : Externals} {MD : MarginData}.

(** [float(v)]. *)
Definition to_float (v : pyval) : result float :=
  match v with
  | PyFloat x => inr x
  | PyInt n =>
      match of_Z n with
      | S754_infinity _ => inl (mkExn OtherError "int too large to convert to float")
      | x => inr x
      end
  | PyStr s =>
      match float_of_str s with
      | Some x => inr x
      | None => inl (mkExn ValueError ("could not convert string to float: " ++ s))
      end
  | PyNone => inl (mkExn OtherError "float() argument must be a string or a real number")
  end.

(** [v.replace("-", "")]: only a string has the method. *)
Definition replace_dashes (v : pyval) : result string :=
  match v with
  | PyStr s => inr (remove_dashes s)
  | _ => inl (mkExn AttributeError "object has no attribute 'replace'")
  end.

Definition no_margin_data : string :=
  "> 📊 **融资余额统计**：由于交易所连接限制，暂未获取到最新数据" ++ nl.

Definition margin_parse_error : string :=
  "> 📊 **融资余额统计**：数据解析异常" ++ nl.

(** The first loop of [get_margin_data]: [df_sse] after it.  What is
    printed goes to the standard output, which the trace does not record. *)
Fixpoint sse_loop (start_date end_date : string) (remaining : nat)
    (df_sse : option (DataFrame Row)) : M (option (DataFrame Row)) :=
  match remaining with
  | O => ret df_sse
  | S remaining' =>
      r <- catch (df <- invoke "stock_margin_sse" (stock_margin_sse start_date end_date) ;;
                  ret (inr df))
                 (fun e => ret (inl e)) ;;
      match r with
      | inr df =>
          if negb (empty df) then ret (Some df)
          else sse_loop start_date end_date remaining' (Some df)
      | inl e =>
          sleep 2 ;;
          sse_loop start_date end_date remaining' df_sse
      end
  end.

(** The second loop: [szse_val_yuan] after it. *)
Fixpoint szse_loop (trade_date : string) (remaining : nat) : M float :=
  match remaining with
  | O => ret zero
  | S remaining' =>
      r <- catch (df_szse <- invoke "stock_margin_szse" (stock_margin_szse trade_date) ;;
                  if negb (empty df_szse) then
                    let col_name := if has_column df_szse "rzbal" then "rzbal" else "融资余额" in
                    first <- lift (match rows df_szse with
                                   | row :: _ => inr row
                                   | [] => inl (mkExn OtherError "single positional indexer is out-of-bounds")
                                   end) ;;
                    v <- lift (and_then (getitem first col_name) to_float) ;;
                    ret (inr (Some (mul v (of_Z 100000000))))
                  else ret (inr None))
                 (fun e => ret (inl e)) ;;
      match r with
      | inr (Some szse_val_yuan) => ret szse_val_yuan
      | inr None => szse_loop trade_date remaining'
      | inl e =>
          sleep 20 ;;
          szse_loop trade_date remaining'
      end
  end.

(** [get_margin_data]. *)
Definition get_margin_data : M string :=
  let max_retries := 9%nat in
  today <- now ;;
  let end_date := strftime_compact today in
  today <- now ;;
  earlier <- lift (minus_days today 10) ;;
  let start_date := strftime_compact earlier in
  df_sse <- sse_loop start_date end_date max_retries None ;;
  match df_sse with
  | None => ret no_margin_data
  | Some df_sse =>
      if empty df_sse then ret no_margin_data
      else
        catch
          (sorted <- lift (if has_column df_sse "信用交易日期"
                           then inr (sort_values_descending "信用交易日期" (rows df_sse))
                           else inl (mkExn KeyError "信用交易日期")) ;;
           last_sse <- lift (match sorted with
                             | row :: _ => inr row
                             | [] => inl (mkExn OtherError
                                            "single positional indexer is out-of-bounds")
                             end) ;;
           sse_val <- lift (and_then (getitem last_sse "融资余额") to_float) ;;
           trade_date <- lift (and_then (getitem last_sse "信用交易日期") replace_dashes) ;;
           szse_val_yuan <- szse_loop trade_date max_retries ;;
           let total_val := add sse_val szse_val_yuan in
           ret ("**融资余额统计 (" ++ trade_date ++ ")**：" ++ nl
                ++ "- 沪深两市合计：" ++ format_grouped 2 total_val ++ " 元" ++ nl
                ++ "- 沪市融资余额：" ++ format_grouped 2 sse_val ++ " 元" ++ nl
                ++ "- 深市融资余额：" ++ format_grouped 2 szse_val_yuan ++ " 元" ++ nl))
          (fun e => ret margin_parse_error)
  end.

(** ** [_build_review_prompt] of [src/market_analyzer.py] *)

Definition prompt_indices_text (overview : MarketOverview.t) : string :=
  String.concat ""
    (map (fun idx => "- " ++ MarketIndex.name idx ++ ": "
                     ++ format_f false 2 (MarketIndex.current idx)
                     ++ " (" ++ Pkg.direction idx
                     ++ format_f false 2 (abs (MarketIndex.change_pct idx)) ++ "%)" ++ nl)
         (MarketOverview.indices overview)).

Definition sectors_text (sectors : list Sector.t) : string :=
  join ", " (map (fun s => Sector.name s ++ "(" ++ format_f true 2 (Sector.change_pct s) ++ "%)")
               (firstn 3 sectors)).

(** The numbered news items; a news item is a [SearchResult] object. *)
Definition news_text (news : list SearchResult) : string :=
  String.concat ""
    (map (fun item : Z * SearchResult =>
            let (i, n) := item in
            str_of_int i ++ ". " ++ take_chars 50 (title n) ++ nl
            ++ "   " ++ take_chars 100 (snippet n) ++ nl)
         (enumerate 1 (firstn 6 news))).

Definition prompt_text (overview : MarketOverview.t) (news : list SearchResult)
    (margin_info : string) : string :=
  let indices_text := prompt_indices_text overview in
  let top_sectors_text := sectors_text (MarketOverview.top_sectors overview) in
  let bottom_sectors_text := sectors_text (MarketOverview.bottom_sectors overview) in
  let news_text := news_text news in
  "你现在是A股顶级新生代游资“陈小群”。请站在“银河大连黄河路”席位主力的视角，对今日市场进行复盘。

【重要】输出要求：
- 必须输出纯 Markdown 文本格式
- 禁止输出 JSON 格式
- 禁止输出代码块
- emoji 仅在标题处少量使用（每个标题最多1个）

### 你的核心思维：
1. **情绪周期**：判断市场是在“冰点、发酵、高潮、分歧、退潮”的哪个阶段？
2. **绝对龙头**：只看核心辨识度标的，无视杂毛。
3. **暴力美学**：分析资金的合力与博弈，关注跌停板反核、缩量加速、高位强分歧等极端审美。
4. **席位动态**：你会关注黄河路、金马路等兄弟席位的进出，思考他们是在锁仓还是砸盘。
---

# 今日市场数据

## 日期
"
  ++ MarketOverview.date overview
  ++ "

## 主要指数
"
  ++ indices_text
  ++ "

## 市场概况
- 上涨: "
  ++ str_of_int (MarketOverview.up_count overview)
  ++ " 家 | 下跌: "
  ++ str_of_int (MarketOverview.down_count overview)
  ++ " 家 | 平盘: "
  ++ str_of_int (MarketOverview.flat_count overview)
  ++ " 家
- 涨停: "
  ++ str_of_int (MarketOverview.limit_up_count overview)
  ++ " 家 | 跌停: "
  ++ str_of_int (MarketOverview.limit_down_count overview)
  ++ " 家
- 两市成交额: "
  ++ format_f false 0 (MarketOverview.total_amount overview)
  ++ " 亿元
- 北向资金: "
  ++ format_f true 2 (MarketOverview.north_flow overview)
  ++ " 亿元

## 板块表现
领涨: "
  ++ top_sectors_text
  ++ "
领跌: "
  ++ bottom_sectors_text
  ++ "

## 市场新闻
"
  ++ (if nonempty news_text then news_text else "暂无相关新闻")
  ++ "

## 两融余额
"
  ++ margin_info
  ++ "
---

# 输出要求（请严格按纯 Markdown，陈小群思维语气）：

## 📊 "
  ++ MarketOverview.date overview
  ++ " 大盘复盘

## 一、情绪周期定位
（用一句话给今天定性：是该猛干还是该空仓？目前处于什么周期？）

## 二、大盘与合力分析
（从成交量、两市表现、当前沪深两市两融余额看大资金的真实意图。3000亿成交量干不出牛市，只有合力才有主升。）

## 三、核心标的与审美（重点！）
（结合板块和涨停数，点评当前市场的“灵魂龙头”是谁。谁在带节奏？谁是跟风杂毛？有没有出现“核按钮”或“反核”？）

## 四、席位与战法博弈
（从大连黄河路的视角，点评当下的博弈难点。如果是你，你会选择在哪个点位切入？是去打板确认，还是低吸反核？）

## 五、明日推演（冷酷纪律）
（明天高标如果断板，市场会崩吗？如果分歧转一致，哪个方向有辨识度？给兄弟们指个路。）

## 六、陈小群语录
（一句话犀利点评：例如“平庸是亏损的根源”或“空仓也是一种战斗”。）

## 七、陈小群推荐
（联网搜索陈小群现持有的所有股票，按照陈小群选股操作思路推荐最优的股票代码附带中文名，推荐数量不限。）

---

注意：禁止使用券商分析师那种中庸、死板的话术，说话要直接、犀利、带江湖气息！
".

Definition _build_review_prompt (overview : MarketOverview.t) (news : list SearchResult)
    : M string :=
  margin_info <- get_margin_data ;;
  ret (prompt_text overview news margin_info).

(** [generate_market_review] of [src/market_analyzer.py]. *)
Definition generate_market_review : MarketAnalyzer -> MarketOverview.t -> list SearchResult
    -> M string :=
  generate_market_review Pkg.class_attributes _build_review_prompt
    Pkg._generate_template_review.

(** [run_daily_review]; the attributes of [self] are its arguments. *)
Definition run_daily_review (self : MarketAnalyzer) (search_service : option SearchService)
    : M string :=
  log INFO "========== 开始大盘复盘分析 ==========" None ;;
  overview <- get_market_overview 9 ;;
  news <- search_market_news search_service ;;
  report <- generate_market_review self overview news ;;
  log INFO "========== 大盘复盘分析完成 ==========" None ;;
  ret report.

End Margin.
End PkgReview.

(** The clock never reads a date before 0001-01-11, ten days after the
    first day [datetime] can hold. *)
Definition clock_in_range {X : Externals} : Prop :=
  forall x, 11 <= toordinal (datetime_now x).

(* ===================================================================== *)
(** * More sample worlds *)
(* ===================================================================== *)

Module SampleMarket.

(** A world with the three akshare endpoints given, otherwise as [Sample.externals]. *)
Definition market (index : Op Sample.state (DataFrame IndexRow))
    (spot : Op Sample.state (DataFrame SpotRow))
    (sectors : Op Sample.state (DataFrame SectorRow)) : Externals :=
  {| Ext := Sample.state;
     datetime_now := Sample.clock;
     after_sleep := fun _ x => x;
     get_config := Sample.config;
     stock_zh_index_spot_sina := index;
     stock_zh_a_spot_em := spot;
     stock_board_industry_name_em := sectors;
     series_sum := Sample.sum_skipna;
     import_genai := Sample.serves tt;
     genai_configure := fun _ => Sample.serves tt;
     genai_GenerativeModel := fun _ _ => Sample.down;
     generate_content := fun _ _ _ => Sample.down;
     import_openai := Sample.serves tt;
     OpenAI := fun _ _ => Sample.serves tt;
     chat_completions_create := fun _ _ _ _ _ _ => Sample.down;
     str_strip := fun s => s;
     repr_news := fun _ => "[]";
     SYSTEM_PROMPT := "你现在是顶级新生代游资" |}.

(** Every akshare endpoint is down. *)
Definition outage : Externals := market Sample.down Sample.down Sample.down.

(** The index table without its code column. *)
Definition index_table_without_codes : DataFrame IndexRow :=
  mkDataFrame [ "名称"; "最新价"; "涨跌幅" ] (rows Sample.index_table).

Definition without_codes : Externals :=
  market (Sample.serves index_table_without_codes) (Sample.serves Sample.spot_table)
         (Sample.serves Sample.sector_table).

(** Three sectors, and the seven of the sample with three more. *)
Definition three_sectors : DataFrame SectorRow :=
  mkDataFrame [ "板块名称"; "涨跌幅" ]
    [ mkSectorRow "银行" (Num (opp (dec 45 2)));
      mkSectorRow "光伏" (Num (dec 480 2));
      mkSectorRow "军工" (Num (dec 150 2)) ].

Definition ten_sectors : DataFrame SectorRow :=
  mkDataFrame [ "板块名称"; "涨跌幅" ]
    (rows Sample.sector_table ++
     [ mkSectorRow "医药" (Num (dec 87 2));
       mkSectorRow "钢铁" (Num (opp (dec 120 2)));
       mkSectorRow "汽车" (Num (dec 233 2)) ]).

(** A flat day: ten sectors, all unchanged. *)
Definition flat_sectors : DataFrame SectorRow :=
  mkDataFrame [ "板块名称"; "涨跌幅" ]
    (map (fun n => mkSectorRow n (Num zero))
       [ "半导体"; "银行"; "煤炭"; "军工"; "白酒"; "房地产"; "光伏"; "医药"; "钢铁"; "汽车" ]).

(** The sector table with the name column under another header. *)
Definition unnamed_sectors : DataFrame SectorRow :=
  mkDataFrame [ "名称"; "涨跌幅" ] (rows Sample.sector_table).

Definition with_sectors (df : DataFrame SectorRow) : Externals :=
  market (Sample.recovers Sample.index_table) (Sample.serves Sample.spot_table)
         (Sample.serves df).

End SampleMarket.

Module SampleProviders.

(** A world with the LLM side given: the settings, the import of the
    openai package, the Gemini model constructor and the completion endpoint. *)
Definition providers (cfg : Config) (openai_package : Op Sample.state unit)
    (model : string -> Op Sample.state unit)
    (chat : Op Sample.state ChatCompletion) : Externals :=
  {| Ext := Sample.state;
     datetime_now := Sample.clock;
     after_sleep := fun _ x => x;
     get_config := cfg;
     stock_zh_index_spot_sina := Sample.recovers Sample.index_table;
     stock_zh_a_spot_em := Sample.serves Sample.spot_table;
     stock_board_industry_name_em := Sample.serves Sample.sector_table;
     series_sum := Sample.sum_skipna;
     import_genai := Sample.serves tt;
     genai_configure := fun _ => Sample.serves tt;
     genai_GenerativeModel := fun name _ => model name;
     generate_content := fun _ _ _ => Sample.down;
     import_openai := openai_package;
     OpenAI := fun _ _ => Sample.serves tt;
     chat_completions_create := fun _ _ _ _ _ _ => chat;
     str_strip := fun s => s;
     repr_news := fun _ => "[]";
     SYSTEM_PROMPT := "你现在是顶级新生代游资" |}.

(** Only the fallback model can be built. *)
Definition fallback_only (name : string) : Op Sample.state unit :=
  if String.eqb name "gemini-2.5-flash" then Sample.serves tt else Sample.down.

Definition gemini_up : Externals :=
  providers Sample.config (Sample.serves tt) (fun _ => Sample.serves tt) Sample.down.

Definition gemini_fallback_up : Externals :=
  providers Sample.config (Sample.serves tt) fallback_only Sample.down.

(** The Gemini key left at its placeholder. *)
Definition openai_config : Config :=
  mkConfig (Some "your_gemini_api_key_here") "gemini-3-flash-preview" "gemini-2.5-flash"
           3 5 (Some "sk-sample-key-0000001") (Some "https://api.deepseek.com/v1")
           "deepseek-chat".

Definition answer : ChatCompletion := Completion [Some "## 大盘复盘"].

Definition openai_up : Externals :=
  providers openai_config (Sample.serves tt) (fun _ => Sample.down) (Sample.serves answer).

(** No retries configured. *)
Definition no_retries_config : Config :=
  mkConfig None "gemini-3-flash-preview" "gemini-2.5-flash"
           0 5 (Some "sk-sample-key-0000001") None "deepseek-chat".

Definition no_retries : Externals :=
  providers no_retries_config (Sample.serves tt) (fun _ => Sample.down) (Sample.serves answer).

End SampleProviders.

Module SampleSearch.

Definition headline (n : string) : SearchResult := mkSearchResult n "摘要".

(** A service that answers the first call with two items, raises at the
    second, and would answer a third. *)
Definition flaky_search : SearchService (X:=Sample.sectors_up) :=
  fun _ _ _ keywords x =>
    match Sample.refusals_left x with
    | O => (inr (Some (mkSearchResponse [headline "沪指收涨"; headline "两市放量"])),
            Sample.mkState 1 (Sample.clock x))
    | S _ => (inl Sample.throttled, Sample.mkState 0 (Sample.clock x))
    end.

(** A service that answers every call with the keywords it was given. *)
Definition echo_search : SearchService (X:=Sample.sectors_up) :=
  fun _ _ _ keywords x => (inr (Some (mkSearchResponse (map headline keywords))), x).

End SampleSearch.

Module SampleMargin.

(** A world whose clock stands at the sample morning in every state; the
    data sources answer as in [Sample.sectors_up]. *)
Definition steady : Externals :=
  {| Ext := Sample.state;
     datetime_now := fun _ => Sample.morning;
     after_sleep := fun _ x => x;
     get_config := Sample.config;
     stock_zh_index_spot_sina := Sample.recovers Sample.index_table;
     stock_zh_a_spot_em := Sample.serves Sample.spot_table;
     stock_board_industry_name_em := Sample.serves Sample.sector_table;
     series_sum := Sample.sum_skipna;
     import_genai := Sample.serves tt;
     genai_configure := fun _ => Sample.serves tt;
     genai_GenerativeModel := fun _ _ => Sample.down;
     generate_content := fun _ _ _ => Sample.down;
     import_openai := Sample.serves tt;
     OpenAI := fun _ _ => Sample.serves tt;
     chat_completions_create := fun _ _ _ _ _ _ => Sample.down;
     str_strip := fun s => s;
     repr_news := fun _ => "[]";
     SYSTEM_PROMPT := "你现在是顶级新生代游资" |}.

(** Two days of Shanghai margin balances, the later one second. *)
Definition sse_table : DataFrame Row :=
  mkDataFrame [ "信用交易日期"; "融资余额" ]
    [ [ ("信用交易日期", PyStr "2025-12-31"); ("融资余额", PyInt 1250000000000) ];
      [ ("信用交易日期", PyStr "2026-01-05"); ("融资余额", PyInt 1260000000000) ] ].

(** Shenzhen reports in units of 10^8 yuan. *)
Definition szse_table : DataFrame Row :=
  mkDataFrame [ "rzbal" ] [ [ ("rzbal", PyFloat (dec 1185050 2)) ] ].

Definition date_of (row : Row) : string :=
  match row_value row "信用交易日期" with
  | Some (PyStr s) => s
  | _ => ""
  end.

(** Rows by falling date, compared as strings of equal length. *)
Definition later (a b : Row) : bool :=
  match String.compare (date_of a) (date_of b) with
  | Gt => true
  | _ => false
  end.

Definition margin (sse : Op Sample.state (DataFrame Row))
    (szse : Op Sample.state (DataFrame Row)) : MarginData (X:=steady) :=
  @Build_MarginData steady
    (fun _ _ => sse)
    (fun _ => szse)
    (fun _ rows => sort_by later rows)
    (fun _ => None).

Definition margin_up : MarginData (X:=steady) :=
  margin (Sample.serves sse_table) (Sample.serves szse_table).

Definition sse_down : MarginData (X:=steady) :=
  margin Sample.down (Sample.serves szse_table).

Definition szse_down : MarginData (X:=steady) :=
  margin (Sample.serves sse_table) Sample.down.

End SampleMargin.

(* ===================================================================== *)
(** * Proofs: computations step by step *)
(* ===================================================================== *)

Open Scope Z_scope.

Section Steps.
Context {X : Externals}.

Lemma bind_ok {A B} {c : M A} (k : A -> M B) {w a w1} :
  c w = (inr a, w1) -> bind c k w = k a w1.
Proof. intros H. unfold bind. rewrite H. reflexivity. Qed.

Lemma bind_raise {A B} {c : M A} (k : A -> M B) {w e w1} :
  c w = (inl e, w1) -> bind c k w = (inl e, w1).
Proof. intros H. unfold bind. rewrite H. reflexivity. Qed.

Lemma catch_ok {A} {c : M A} (h : exn -> M A) {w a w1} :
  c w = (inr a, w1) -> catch c h w = (inr a, w1).
Proof. intros H. unfold catch. rewrite H. reflexivity. Qed.

Lemma catch_raise {A} {c : M A} (h : exn -> M A) {w e w1} :
  c w = (inl e, w1) -> catch c h w = h e w1.
Proof. intros H. unfold catch. rewrite H. reflexivity. Qed.

Lemma invoke_ok {A} name {op : Op Ext A} {w v x'} :
  op (ext w) = (inr v, x') -> invoke name op w = (inr v, mkWorld x' (trace w ++ [Invoke name])).
Proof. intros H. unfold invoke. rewrite H. reflexivity. Qed.

Lemma invoke_raise {A} name {op : Op Ext A} {w e x'} :
  op (ext w) = (inl e, x') -> invoke name op w = (inl e, mkWorld x' (trace w ++ [Invoke name])).
Proof. intros H. unfold invoke. rewrite H. reflexivity. Qed.

Lemma sleep_nonneg (d : Z) (w : World) :
  0 <= d -> sleep d w = (inr tt, mkWorld (after_sleep d (ext w)) (trace w ++ [Sleep d])).
Proof.
  intros H. unfold sleep. destruct (d <? 0) eqn:E; [apply Z.ltb_lt in E; lia | reflexivity].
Qed.

Lemma data_delay_nonneg (attempt : Z) : 0 <= Z.min (2 ^ attempt) 5.
Proof. apply Z.min_glb; [apply Z.pow_nonneg|]; lia. Qed.

Lemma akshare_step_ok {A} (fn : Op Ext A) name attempts n attempt last w v x' :
  fn (ext w) = (inr v, x') ->
  _call_akshare_with_retry_loop fn name attempts (S n) attempt last w
  = (inr (Some v), mkWorld x' (trace w ++ [Invoke name])).
Proof.
  intros Hx. cbn [_call_akshare_with_retry_loop]. unfold catch, bind, invoke.
  rewrite Hx. reflexivity.
Qed.

Lemma akshare_step_fail {A} (fn : Op Ext A) name attempts n attempt last w e x' :
  fn (ext w) = (inl e, x') ->
  exists w1,
    _call_akshare_with_retry_loop fn name attempts (S n) attempt last w
    = _call_akshare_with_retry_loop fn name attempts n (attempt + 1) (Some e) w1
    /\ trace w1 = (trace w ++ [Invoke name; Log WARNING name (Some e)]
                   ++ (if attempt <? attempts then [Sleep (Z.min (2 ^ attempt) 5)] else []))%list
    /\ ((attempt <? attempts) = false -> ext w1 = x').
Proof.
  intros Hx. cbn [_call_akshare_with_retry_loop]. unfold catch, bind at 1, invoke.
  rewrite Hx. cbn [fst snd]. unfold bind at 1, log, emit. cbn [ext trace].
  destruct (attempt <? attempts) eqn:E.
  - unfold bind. rewrite sleep_nonneg by apply data_delay_nonneg. cbn [ext trace].
    eexists. split; [reflexivity|]. cbn [trace]. split; [|discriminate].
    rewrite <- !app_assoc. reflexivity.
  - unfold bind, ret. eexists. split; [reflexivity|]. cbn [trace ext]. split; [|reflexivity].
    rewrite <- !app_assoc. rewrite app_nil_r. reflexivity.
Qed.

(** Every run of the loop, event by event. *)
Lemma akshare_run {A} (fn : Op Ext A) name attempts :
  forall n attempt last w,
  exists errs ok r w',
    _call_akshare_with_retry_loop fn name attempts n attempt last w = (r, w')
    /\ trace w' = (trace w ++ akshare_events name attempts attempt errs ok last)%list
    /\ (if ok then (List.length errs < n)%nat /\ exists v, r = inr (Some v)
        else List.length errs = n /\ r = inr None)
    /\ (always_raises fn -> ok = false)
    /\ (ok = false -> attempt + Z.of_nat n = attempts + 1 ->
        match rev errs with
        | [] => True
        | e :: _ => exists x, fn x = (inl e, ext w')
        end).
Proof.
  induction n as [|n IH]; intros attempt last w.
  - exists [], false, (inr None), (mkWorld (ext w) (trace w ++ [Log ERROR name last])).
    cbn. repeat split; auto.
  - destruct (fn (ext w)) as [[e|v] x'] eqn:Hx.
    + destruct (@akshare_step_fail _ fn name attempts n attempt last w e x' Hx) as (w1 & Hstep & Htr & Hext).
      destruct (IH (attempt + 1) (Some e) w1) as (errs & ok & r & w' & Hrun & Htr' & Hres & Hall & Hlast).
      exists (e :: errs), ok, r, w'. rewrite Hstep, Hrun. split; [reflexivity|].
      split.
      { rewrite Htr', Htr. cbn [akshare_events]. rewrite <- !app_assoc. reflexivity. }
      split.
      { destruct ok; cbn [List.length]; destruct Hres as [H1 H2]; split; auto; lia. }
      split; [exact Hall|].
      intros Hok Hn. specialize (Hlast Hok).
      cbn [rev]. destruct (rev errs) as [|e' l] eqn:Hr.
      * cbn. assert (errs = []) by (apply (f_equal (@rev exn)) in Hr; rewrite rev_involutive in Hr; exact Hr).
        subst errs ok. destruct Hres as [Hlen _]. cbn in Hlen. subst n.
        assert (Hlt : (attempt <? attempts) = false) by (apply Z.ltb_ge; lia).
        specialize (Hext Hlt).
        cbn in Hrun. unfold bind, log, emit, ret in Hrun. cbn in Hrun. inversion Hrun; subst.
        cbn [ext]. exists (ext w). exact Hx.
      * cbn. apply Hlast. lia.
    + exists [], true, (inr (Some v)), (mkWorld x' (trace w ++ [Invoke name])).
      rewrite (@akshare_step_ok _ fn name attempts n attempt last w v x' Hx).
      cbn. split; [reflexivity|]. split; [reflexivity|]. split; [split; [lia|eauto]|].
      split; [|discriminate].
      intros Hf. destruct (Hf (ext w)) as (e & x'' & He). congruence.
Qed.

Lemma gen_delay_nonneg (base_delay attempt : Z) :
  0 <= base_delay -> 0 <= Z.min (base_delay * 2 ^ (attempt - 1)) 60.
Proof.
  intros H. apply Z.min_glb; [|lia]. apply Z.mul_nonneg_nonneg; [lia|]. apply Z.pow_nonneg. lia.
Qed.

(** The wait before an attempt, as a step of the world. *)
Lemma openai_wait_step (base_delay attempt : Z) (w : World) :
  0 <= base_delay ->
  exists w1,
    (if (0 <? attempt)%Z then
       let delay := base_delay * 2 ^ (attempt - 1) in
       let delay := Z.min delay 60 in
       log INFO "[OpenAI] 重试，等待" None ;; sleep delay
     else ret tt) w = (inr tt, w1)
    /\ trace w1 = (trace w ++ openai_wait base_delay attempt)%list.
Proof.
  intros Hb. unfold openai_wait. destruct (0 <? attempt).
  - cbn zeta. unfold bind, log, emit. rewrite sleep_nonneg by (apply gen_delay_nonneg; exact Hb).
    eexists. split; [reflexivity|]. cbn [trace]. rewrite <- app_assoc. reflexivity.
  - eexists. split; [reflexivity|]. rewrite app_nil_r. reflexivity.
Qed.


(** The [try] block: it waits, calls once, and returns content or raises. *)
Lemma openai_try (self : GeminiAnalyzer.t) (client : Client) prompt gc base_delay attempt w :
  _openai_client self = Some client ->
  0 <= base_delay ->
  exists r w1,
    _call_openai_api_try self prompt gc base_delay attempt w = (r, w1)
    /\ trace w1 = (trace w ++ openai_wait base_delay attempt ++ [Invoke openai_call])%list
    /\ match r with
       | inr s => nonempty s = true
                  /\ ~ (forall model sys usr t mt, always_fails_completion
                          (chat_completions_create client model sys usr t mt))
       | inl _ => True
       end.
Proof.
  intros Hc Hb.
  destruct (@openai_wait_step base_delay attempt w Hb) as (w1 & Hw & Htr1).
  unfold _call_openai_api_try. rewrite Hc. rewrite (bind_ok _ Hw).
  rewrite (@bind_ok _ _ (ret client) _ w1 client w1 eq_refl).
  match goal with |- context [invoke _ ?o] => set (op := o) end.
  assert (Htr : forall x', trace (mkWorld x' (trace w1 ++ [Invoke openai_call]))
                = (trace w ++ openai_wait base_delay attempt ++ [Invoke openai_call])%list).
  { intros x'. cbn [trace]. rewrite Htr1, <- app_assoc. reflexivity. }
  destruct (op (ext w1)) as [[e|resp] x'] eqn:Hx.
  - erewrite bind_raise; [|apply invoke_raise; exact Hx]. eauto.
  - erewrite bind_ok; [|apply invoke_ok; exact Hx].
    destruct (completion_content resp) as [s|] eqn:Hr.
    + exists (inr s). eexists. split; [reflexivity|]. split; [apply Htr|]. split.
      * destruct resp as [|[|[c|] l]]; cbn in Hr; try discriminate.
        destruct (nonempty c) eqn:Hc'; inversion Hr; subst; exact Hc'.
      * intros Hall. destruct (Hall (_current_model_name self) SYSTEM_PROMPT prompt
            (match temperature gc with Some t => t | None => dec 7 1 end)
            (match max_output_tokens gc with Some m => m | None => 8192 end) (ext w1))
          as (x'' & [(e & He) | (r & He & Hr')]); fold op in He; congruence.
    + eexists (inl _). eexists. split; [reflexivity|]. split; [apply Htr|exact I].
Qed.

(** One pass of the loop: it returns content, or fails with some [e],
    logs it, and raises it or enters the next pass. *)
Lemma openai_pass (self : GeminiAnalyzer.t) (client : Client) prompt gc max_retries base_delay
    n attempt w :
  _openai_client self = Some client ->
  0 <= base_delay ->
  (exists s w1,
     _call_openai_api_loop self prompt gc max_retries base_delay (S n) attempt w = (inr s, w1)
     /\ nonempty s = true
     /\ trace w1 = (trace w ++ openai_wait base_delay attempt ++ [Invoke openai_call])%list
     /\ ~ (forall model sys usr t mt, always_fails_completion
             (chat_completions_create client model sys usr t mt)))
  \/
  (exists e w2,
     trace w2 = (trace w ++ openai_wait base_delay attempt
                 ++ [Invoke openai_call; openai_warning e])%list /\
     _call_openai_api_loop self prompt gc max_retries base_delay (S n) attempt w
     = if (attempt =? max_retries - 1)%Z then (inl e, w2)
       else _call_openai_api_loop self prompt gc max_retries base_delay n (attempt + 1) w2).
Proof.
  intros Hc Hb.
  destruct (@openai_try self client prompt gc base_delay attempt w Hc Hb) as ([e|s] & w1 & Hrun & Htr & Hr).
  - right. exists e, (mkWorld (ext w1) (trace w1 ++ [openai_warning e])). split.
    + cbn [trace]. rewrite Htr, <- !app_assoc. reflexivity.
    + cbn [_call_openai_api_loop]. rewrite (catch_raise _ Hrun).
      unfold openai_warning.
      destruct (is_rate_limit e), (attempt =? max_retries - 1)%Z; reflexivity.
  - left. exists s, w1. destruct Hr as [Hs Hnot].
    cbn [_call_openai_api_loop]. rewrite (catch_ok _ Hrun). auto.
Qed.

Lemma openai_run (self : GeminiAnalyzer.t) (client : Client) prompt gc max_retries base_delay :
  _openai_client self = Some client ->
  0 <= base_delay ->
  forall n attempt w,
  attempt + Z.of_nat n = max_retries ->
  exists errs ok r w',
    _call_openai_api_loop self prompt gc max_retries base_delay n attempt w = (r, w')
    /\ trace w' = (trace w ++ openai_events base_delay attempt errs ok)%list
    /\ (if ok then (List.length errs < n)%nat /\ exists s, r = inr s /\ nonempty s = true
        else List.length errs = n /\ r = inl (last errs exhausted_error))
    /\ ((forall model sys usr t mt, always_fails_completion
           (chat_completions_create client model sys usr t mt)) -> ok = false).
Proof.
  intros Hc Hb. induction n as [|n IH]; intros attempt w Hn.
  - exists [], false, (inl exhausted_error), w. cbn. rewrite app_nil_r. auto.
  - destruct (@openai_pass self client prompt gc max_retries base_delay n attempt w Hc Hb)
      as [(s & w1 & Hrun & Hs & Htr & Hnot) | (e & w2 & Hf & Hrun)].
    + exists [], true, (inr s), w1. cbn [openai_events List.length].
      split; [exact Hrun|]. split; [exact Htr|]. split; [split; [lia|eauto]|].
      intros Hall. contradiction.
    + destruct (attempt =? max_retries - 1)%Z eqn:Hlast.
      * apply Z.eqb_eq in Hlast. assert (n = O) by lia. subst n.
        exists [e], false, (inl e), w2. cbn [openai_events List.length last].
        split; [exact Hrun|]. split; [|auto].
        rewrite Hf. reflexivity.
      * apply Z.eqb_neq in Hlast.
        destruct (IH (attempt + 1) w2) as (errs & ok & r & w' & Hrun' & Htr' & Hres & Hall); [lia|].
        exists (e :: errs), ok, r, w'. rewrite Hrun, Hrun'. split; [reflexivity|]. split.
        { rewrite Htr', Hf. cbn [openai_events]. rewrite <- !app_assoc. reflexivity. }
        split; [|exact Hall].
        destruct ok; cbn [List.length]; destruct Hres as [H1 H2]; split; try lia; auto.
        destruct errs as [|e' errs]; [cbn in H1; lia|]. exact H2.
Qed.

End Steps.

(** ** Counting and timing the events of a run *)

Lemma calls_app (a b : list event) : calls (a ++ b) = calls a + calls b.
Proof. unfold calls. rewrite filter_app, length_app. lia. Qed.

Lemma timing_app (a b : list event) : timing (a ++ b) = (timing a ++ timing b)%list.
Proof. apply filter_app. Qed.

Lemma akshare_events_calls name attempts errs :
  forall attempt ok last,
    calls (akshare_events name attempts attempt errs ok last)
    = Z.of_nat (List.length errs) + (if ok then 1 else 0).
Proof.
  induction errs as [|e rest IH]; intros attempt ok last.
  - destruct ok; reflexivity.
  - cbn [akshare_events List.length]. rewrite !calls_app, IH, Nat2Z.inj_succ.
    destruct (attempt <? attempts); unfold calls; cbn [filter is_invoke List.length]; lia.
Qed.

Lemma openai_events_calls base_delay errs :
  forall attempt ok,
    calls (openai_events base_delay attempt errs ok)
    = Z.of_nat (List.length errs) + (if ok then 1 else 0).
Proof.
  induction errs as [|e rest IH]; intros attempt ok.
  - unfold openai_events, openai_wait. destruct ok, (0 <? attempt); reflexivity.
  - cbn [openai_events List.length]. rewrite !calls_app, IH, Nat2Z.inj_succ.
    unfold openai_wait, openai_warning.
    destruct (0 <? attempt); unfold calls; cbn [filter is_invoke List.length]; lia.
Qed.

Lemma pow2_step (a : Z) : 1 <= a -> 2 ^ a = 2 * 2 ^ (a + 1 - 2).
Proof.
  intros H. replace (a + 1 - 2) with (a - 1) by lia.
  rewrite <- Z.pow_succ_r by lia. f_equal. lia.
Qed.

(** Calls and sleeps of the data-fetch loop from attempt [attempt >= 1]:
    a call, then every further attempt after its delay. *)
Lemma akshare_events_timing name attempts errs :
  forall attempt (ok : bool) last,
    1 <= attempt ->
    (if ok then attempt + Z.of_nat (List.length errs) <= attempts
     else attempt + Z.of_nat (List.length errs) = attempts + 1) ->
    timing (akshare_events name attempts attempt errs ok last)
    = match (List.length errs + (if ok then 1 else 0))%nat with
      | O => @nil event
      | S j => Invoke name :: retries name 2 5 (attempt + 1) j
      end.
Proof.
  induction errs as [|e rest IH]; intros attempt ok last Ha Hlen.
  - destruct ok; reflexivity.
  - cbn [akshare_events List.length]. rewrite !timing_app.
    rewrite IH by (destruct ok; cbn [List.length] in Hlen; lia).
    cbn [timing filter app plus].
    destruct (List.length rest + (if ok then 1 else 0))%nat as [|j] eqn:Hj.
    + assert (Hr : List.length rest = O) by lia.
      assert (ok = false) by (destruct ok; [lia|reflexivity]). subst ok.
      cbn [List.length] in Hlen. rewrite Hr in *.
      replace (attempt <? attempts) with false by (symmetry; apply Z.ltb_ge; lia).
      reflexivity.
    + replace (attempt <? attempts) with true
        by (symmetry; apply Z.ltb_lt; destruct ok; cbn [List.length] in Hlen; lia).
      cbn [retries filter app]. unfold backoff. rewrite <- pow2_step by lia. reflexivity.
Qed.

Lemma openai_wait_timing base_delay attempt :
  1 <= attempt ->
  timing (openai_wait base_delay attempt) = [Sleep (backoff base_delay 60 (attempt + 1))].
Proof.
  intros H. unfold openai_wait, backoff.
  replace (0 <? attempt) with true by (symmetry; apply Z.ltb_lt; lia).
  replace (attempt + 1 - 2) with (attempt - 1) by lia. reflexivity.
Qed.

Lemma openai_events_timing_later base_delay errs :
  forall attempt ok,
    1 <= attempt ->
    timing (openai_events base_delay attempt errs ok)
    = retries openai_call base_delay 60 (attempt + 1)
        (List.length errs + (if ok then 1 else 0)).
Proof.
  induction errs as [|e rest IH]; intros attempt ok Ha.
  - cbn [openai_events]. destruct ok; [|reflexivity].
    rewrite timing_app, openai_wait_timing by lia. reflexivity.
  - cbn [openai_events List.length]. rewrite !timing_app, openai_wait_timing by lia.
    rewrite IH by lia. reflexivity.
Qed.

(** Calls and sleeps of the generation loop from its first attempt. *)
Lemma openai_events_timing base_delay errs ok :
  timing (openai_events base_delay 0 errs ok)
  = timeline openai_call base_delay 60 (List.length errs + (if ok then 1 else 0)).
Proof.
  destruct errs as [|e rest].
  - destruct ok; reflexivity.
  - cbn [openai_events List.length]. rewrite !timing_app.
    rewrite openai_events_timing_later by lia. reflexivity.
Qed.

(** An exhausted data-fetch run ends with the last call, its warning and
    the final error record, both carrying the last error. *)
Lemma akshare_events_exhausted name attempts errs :
  forall attempt last e l,
    rev errs = e :: l ->
    attempt + Z.of_nat (List.length errs) = attempts + 1 ->
    exists pre,
      akshare_events name attempts attempt errs false last
      = (pre ++ [Invoke name; Log WARNING name (Some e); Log ERROR name (Some e)])%list.
Proof.
  induction errs as [|e0 rest IH]; intros attempt last e l Hrev Hlen.
  - discriminate.
  - cbn [akshare_events]. destruct rest as [|e1 rest'].
    + cbn in Hrev. inversion Hrev; subst. cbn [List.length] in Hlen.
      replace (attempt <? attempts) with false by (symmetry; apply Z.ltb_ge; lia).
      exists []. reflexivity.
    + assert (Hrev' : exists l', rev (e1 :: rest') = e :: l').
      { cbn [rev] in Hrev. destruct (rev rest' ++ [e1])%list as [|a l'] eqn:E.
        - destruct (rev rest'); discriminate.
        - cbn in Hrev. inversion Hrev; subst. eauto. }
      destruct Hrev' as (l' & Hrev').
      destruct (IH (attempt + 1) (Some e0) e l' Hrev') as (pre & Hpre).
      { cbn [List.length] in *. lia. }
      rewrite Hpre. eexists. rewrite !app_assoc. reflexivity.
Qed.

(* ===================================================================== *)
(** * The resilient provider call *)
(* ===================================================================== *)

(** C2 (retry bound).  An operation that fails at every call is called
    exactly [attempts] times by the data-fetch wrapper, which then returns
    [None], and exactly [gemini_max_retries] times by the generation
    wrapper, which then raises. *)
Theorem retry_bound {X : Externals} (A : Type) (fn : Op Ext A) (name : string)
    (attempts : Z) (self : GeminiAnalyzer.t) (client : Client) (prompt : string)
    (gc : GenerationConfig) (w : World) :
  0 <= attempts ->
  always_raises fn ->
  _openai_client self = Some client ->
  0 <= gemini_max_retries get_config ->
  0 <= gemini_retry_delay get_config ->
  (forall model sys usr t mt,
      always_fails_completion (chat_completions_create client model sys usr t mt)) ->
  (exists w' evs,
      _call_akshare_with_retry fn name attempts w = (inr None, w')
      /\ trace w' = (trace w ++ evs)%list
      /\ calls evs = attempts)
  /\
  (exists e w' evs,
      _call_openai_api self prompt gc w = (inl e, w')
      /\ trace w' = (trace w ++ evs)%list
      /\ calls evs = gemini_max_retries get_config).
Proof.
  intros Ha Hfn Hc Hmax Hdelay Hfail. split.
  - destruct (akshare_run fn name attempts (Z.to_nat attempts) 1 None w)
      as (errs & ok & r & w' & Hrun & Htr & Hres & Hall & _).
    rewrite (Hall Hfn) in *. destruct Hres as [Hlen Hr]. subst r.
    exists w', (akshare_events name attempts 1 errs false None).
    split; [exact Hrun|]. split; [exact Htr|].
    rewrite akshare_events_calls, Hlen. lia.
  - unfold _call_openai_api.
    destruct (@openai_run X self client prompt gc (gemini_max_retries get_config)
                (gemini_retry_delay get_config) Hc Hdelay
                (Z.to_nat (gemini_max_retries get_config)) 0 w)
      as (errs & ok & r & w' & Hrun & Htr & Hres & Hall); [lia|].
    rewrite (Hall Hfail) in *. destruct Hres as [Hlen Hr]. subst r.
    exists (last errs exhausted_error), w',
      (openai_events (gemini_retry_delay get_config) 0 errs false).
    split; [exact Hrun|]. split; [exact Htr|].
    rewrite openai_events_calls, Hlen. lia.
Qed.

Lemma retry_bound_witness :
  (exists w' evs,
      _call_akshare_with_retry (X:=Sample.sectors_down) (A:=DataFrame SectorRow)
        Sample.down "行业板块行情" 2 (Sample.start Sample.sectors_down Sample.morning_state)
      = (inr None, w')
      /\ trace w' = (trace (Sample.start Sample.sectors_down Sample.morning_state) ++ evs)%list
      /\ calls evs = 2)
  /\
  (exists e w' evs,
      _call_openai_api (X:=Sample.sectors_down) Sample.openai_analyzer "复盘"
        (mkGenerationConfig None None) (Sample.start Sample.sectors_down Sample.morning_state)
      = (inl e, w')
      /\ trace w' = (trace (Sample.start Sample.sectors_down Sample.morning_state) ++ evs)%list
      /\ calls evs = 3).
Proof.
  apply (@retry_bound Sample.sectors_down (DataFrame SectorRow) Sample.down "行业板块行情" 2
           Sample.openai_analyzer
           (mkClient "sk-sample-key-0000001" (Some "https://api.deepseek.com/v1"))
           "复盘" (mkGenerationConfig None None)
           (Sample.start Sample.sectors_down Sample.morning_state)).
  - lia.
  - intros x. exists Sample.throttled, x. reflexivity.
  - reflexivity.
  - vm_compute. discriminate.
  - vm_compute. discriminate.
  - intros model sys usr t mt x. exists x. left. exists Sample.throttled. reflexivity.
Defined.

(** C3 (backoff growth).  In every run of either wrapper the first call
    is made at once and attempt [k >= 2] follows a sleep of
    [min (base_delay * 2^(k-2)) cap]: base 2 and cap 5 on the data path,
    the configured base and cap 60 on the generation path.  When every
    attempt fails the run has all its attempts. *)
Theorem backoff_schedule {X : Externals} (A : Type) (fn : Op Ext A) (name : string)
    (attempts : Z) (self : GeminiAnalyzer.t) (client : Client) (prompt : string)
    (gc : GenerationConfig) (w : World) :
  _openai_client self = Some client ->
  0 <= gemini_retry_delay get_config ->
  (exists evs j,
      trace (world_after (_call_akshare_with_retry fn name attempts) w) = (trace w ++ evs)%list
      /\ timing evs = timeline name 2 5 j
      /\ (j <= Z.to_nat attempts)%nat
      /\ (always_raises fn -> j = Z.to_nat attempts))
  /\
  (exists evs j,
      trace (world_after (_call_openai_api self prompt gc) w) = (trace w ++ evs)%list
      /\ timing evs = timeline openai_call (gemini_retry_delay get_config) 60 j
      /\ (j <= Z.to_nat (gemini_max_retries get_config))%nat
      /\ ((forall model sys usr t mt,
              always_fails_completion (chat_completions_create client model sys usr t mt)) ->
          j = Z.to_nat (gemini_max_retries get_config))).
Proof.
  intros Hc Hdelay. split.
  - unfold world_after.
    destruct (akshare_run fn name attempts (Z.to_nat attempts) 1 None w)
      as (errs & ok & r & w' & Hrun & Htr & Hres & Hall & _).
    unfold _call_akshare_with_retry. rewrite Hrun. cbn [snd].
    exists (akshare_events name attempts 1 errs ok None),
           (List.length errs + (if ok then 1 else 0))%nat.
    split; [exact Htr|]. split; [|split].
    + destruct errs as [|e rest].
      * destruct ok; reflexivity.
      * rewrite akshare_events_timing; [reflexivity|lia|].
        destruct ok; destruct Hres as [Hlen _]; cbn [List.length] in *; lia.
    + destruct ok; destruct Hres as [Hlen _]; lia.
    + intros Hfn. rewrite (Hall Hfn) in *. destruct Hres as [Hlen _]. lia.
  - unfold world_after, _call_openai_api.
    destruct (Z_le_gt_dec 0 (gemini_max_retries get_config)) as [Hmax|Hmax].
    + destruct (@openai_run X self client prompt gc (gemini_max_retries get_config)
                  (gemini_retry_delay get_config) Hc Hdelay
                  (Z.to_nat (gemini_max_retries get_config)) 0 w)
        as (errs & ok & r & w' & Hrun & Htr & Hres & Hall); [lia|].
      rewrite Hrun. cbn [snd].
      exists (openai_events (gemini_retry_delay get_config) 0 errs ok),
             (List.length errs + (if ok then 1 else 0))%nat.
      split; [exact Htr|]. split; [apply openai_events_timing|]. split.
      * destruct ok; destruct Hres as [Hlen _]; lia.
      * intros Hfail. rewrite (Hall Hfail) in *. destruct Hres as [Hlen _]. lia.
    + replace (Z.to_nat (gemini_max_retries get_config)) with O by lia.
      exists [], O. cbn. rewrite app_nil_r. auto.
Qed.

Lemma backoff_schedule_witness :
  (exists evs j,
      trace (world_after
               (_call_akshare_with_retry (X:=Sample.sectors_down) (A:=DataFrame SectorRow)
                  Sample.down "行业板块行情" 9)
               (Sample.start Sample.sectors_down Sample.morning_state))
      = (trace (Sample.start Sample.sectors_down Sample.morning_state) ++ evs)%list
      /\ timing evs = timeline "行业板块行情" 2 5 j
      /\ (j <= Z.to_nat 9)%nat
      /\ (always_raises (X:=Sample.sectors_down) (A:=DataFrame SectorRow) Sample.down
          -> j = Z.to_nat 9))
  /\
  (exists evs j,
      trace (world_after
               (_call_openai_api (X:=Sample.sectors_down) Sample.openai_analyzer "复盘"
                  (mkGenerationConfig None None))
               (Sample.start Sample.sectors_down Sample.morning_state))
      = (trace (Sample.start Sample.sectors_down Sample.morning_state) ++ evs)%list
      /\ timing evs = timeline openai_call 5 60 j
      /\ (j <= Z.to_nat 3)%nat
      /\ ((forall model sys usr t mt,
              always_fails_completion (X:=Sample.sectors_down)
                (chat_completions_create
                   (mkClient "sk-sample-key-0000001" (Some "https://api.deepseek.com/v1"))
                   model sys usr t mt)) ->
          j = Z.to_nat 3)).
Proof.
  apply (@backoff_schedule Sample.sectors_down (DataFrame SectorRow) Sample.down
           "行业板块行情" 9 Sample.openai_analyzer
           (mkClient "sk-sample-key-0000001" (Some "https://api.deepseek.com/v1"))
           "复盘" (mkGenerationConfig None None)
           (Sample.start Sample.sectors_down Sample.morning_state)).
  - reflexivity.
  - vm_compute. discriminate.
Defined.

(** The calls and sleeps of the two sample runs, read off. *)
Example sample_retry_runs :
  timing (trace (world_after
                   (_call_akshare_with_retry (X:=Sample.sectors_down) (A:=DataFrame SectorRow)
                      Sample.down "f" 4)
                   (Sample.start Sample.sectors_down Sample.morning_state)))
  = [Invoke "f"; Sleep 2; Invoke "f"; Sleep 4; Invoke "f"; Sleep 5; Invoke "f"]
  /\
  timing (trace (world_after
                   (_call_openai_api (X:=Sample.sectors_down) Sample.openai_analyzer "复盘"
                      (mkGenerationConfig None None))
                   (Sample.start Sample.sectors_down Sample.morning_state)))
  = [Invoke openai_call; Sleep 5; Invoke openai_call; Sleep 10; Invoke openai_call].
Proof. split; vm_compute; reflexivity. Qed.

(** C4, as amended.  When every attempt raised, the data-fetch wrapper
    raises nothing: it returns [None], and the last call, its warning and
    the closing error record end the trace, the two records carrying the
    error of that last call. *)
Theorem exhausted_fetch_returns_none {X : Externals} (A : Type) (fn : Op Ext A)
    (name : string) (attempts : Z) (w : World) :
  1 <= attempts ->
  always_raises fn ->
  exists w' e x pre,
    _call_akshare_with_retry fn name attempts w = (inr None, w')
    /\ fn x = (inl e, ext w')
    /\ trace w' = (trace w ++ pre
                   ++ [Invoke name; Log WARNING name (Some e); Log ERROR name (Some e)])%list.
Proof.
  intros Ha Hfn.
  destruct (akshare_run fn name attempts (Z.to_nat attempts) 1 None w)
    as (errs & ok & r & w' & Hrun & Htr & Hres & Hall & Hlast).
  rewrite (Hall Hfn) in *. destruct Hres as [Hlen Hr]. subst r.
  specialize (Hlast eq_refl).
  destruct (rev errs) as [|e l] eqn:Hrev.
  - apply (f_equal (@List.length exn)) in Hrev. rewrite length_rev in Hrev.
    cbn in Hrev. lia.
  - destruct Hlast as (x & Hx); [lia|].
    destruct (@akshare_events_exhausted name attempts errs 1 None e l Hrev) as (pre & Hpre); [lia|].
    exists w', e, x, pre. split; [exact Hrun|]. split; [exact Hx|].
    rewrite Htr, Hpre. reflexivity.
Qed.

Lemma exhausted_fetch_returns_none_witness :
  exists w' e x pre,
    _call_akshare_with_retry (X:=Sample.sectors_down) (A:=DataFrame SectorRow)
      Sample.down "行业板块行情" 2 (Sample.start Sample.sectors_down Sample.morning_state)
    = (inr None, w')
    /\ Sample.down (A:=DataFrame SectorRow) x = (inl e, ext w')
    /\ trace w' = (trace (Sample.start Sample.sectors_down Sample.morning_state) ++ pre
                   ++ [Invoke "行业板块行情"; Log WARNING "行业板块行情" (Some e);
                       Log ERROR "行业板块行情" (Some e)])%list.
Proof.
  apply (@exhausted_fetch_returns_none Sample.sectors_down (DataFrame SectorRow) Sample.down
           "行业板块行情" 2 (Sample.start Sample.sectors_down Sample.morning_state)).
  - lia.
  - intros x. exists Sample.throttled, x. reflexivity.
Defined.

(** C4 as stated fails: with the sector endpoint down at both attempts,
    the wrapper returns [None]; the error is not raised to the caller. *)
Lemma exhausted_fetch_does_not_propagate :
  outcome (_call_akshare_with_retry (X:=Sample.sectors_down)
             (stock_board_industry_name_em (Externals:=Sample.sectors_down)) "行业板块行情" 2)
          (Sample.start Sample.sectors_down Sample.morning_state)
  = inr None
  /\
  outcome (_call_akshare_with_retry (X:=Sample.sectors_down)
             (stock_board_industry_name_em (Externals:=Sample.sectors_down)) "行业板块行情" 2)
          (Sample.start Sample.sectors_down Sample.morning_state)
  <> inl Sample.throttled.
Proof. split; [vm_compute; reflexivity | vm_compute; discriminate]. Qed.

(* ===================================================================== *)
(** * Numbers and rankings *)
(* ===================================================================== *)

(** ** The order of binary64 *)

Ltac float_cases :=
  repeat match goal with
         | s : bool |- _ => destruct s
         end;
  cbn; try (split; [ intros; try discriminate; try lia; repeat split; try reflexivity; lia
                   | intros; try reflexivity; try lia; intuition (try discriminate; try lia) ]).

Lemma ltb_rank (x y : float) :
  ltb x y = true <-> is_nan x = false /\ is_nan y = false /\ lex_lt (rank x) (rank y).
Proof.
  unfold ltb, SFltb, SFcompare, lex_lt.
  destruct x as [s| s | |s m e], y as [s'| s' | |s' m' e'];
    try (float_cases; fail).
  destruct s, s'; cbn.
  - rewrite Pos.compare_cont_spec. cbn.
    destruct (Z.compare_spec e e'), (Pos.compare_spec m m'); cbn;
      split; intros; try discriminate; try (repeat split; try reflexivity; lia);
      intuition (try discriminate; try lia).
  - split; intros; [repeat split; try reflexivity; lia | reflexivity].
  - split; intros; [discriminate | intuition (try discriminate; try lia)].
  - rewrite Pos.compare_cont_spec. cbn.
    destruct (Z.compare_spec e e'), (Pos.compare_spec m m'); cbn;
      split; intros; try discriminate; try (repeat split; try reflexivity; lia);
      intuition (try discriminate; try lia).
Qed.

Lemma eqb_rank (x y : float) :
  eqb x y = true <-> is_nan x = false /\ is_nan y = false /\ rank x = rank y.
Proof.
  unfold eqb, SFeqb, SFcompare.
  destruct x as [s| s | |s m e], y as [s'| s' | |s' m' e'];
    try (repeat match goal with s : bool |- _ => destruct s end; cbn;
         split; intros; try discriminate; try (repeat split; reflexivity);
         intuition (try discriminate; try congruence); fail).
  destruct s, s'; cbn.
  - rewrite Pos.compare_cont_spec. cbn.
    destruct (Z.compare_spec e e'), (Pos.compare_spec m m'); cbn;
      split; intros Hx; try discriminate;
      try (repeat split; try reflexivity; f_equal; f_equal; try lia; congruence);
      destruct Hx as (_ & _ & Hx); inversion Hx; lia.
  - split; intros H; [discriminate | destruct H as (_ & _ & H); inversion H].
  - split; intros H; [discriminate | destruct H as (_ & _ & H); inversion H].
  - rewrite Pos.compare_cont_spec. cbn.
    destruct (Z.compare_spec e e'), (Pos.compare_spec m m'); cbn;
      split; intros Hx; try discriminate;
      try (repeat split; try reflexivity; f_equal; f_equal; try lia; congruence);
      destruct Hx as (_ & _ & Hx); inversion Hx; lia.
Qed.

Lemma ltb_trans (x y z : float) : ltb x y = true -> ltb y z = true -> ltb x z = true.
Proof.
  rewrite !ltb_rank. unfold lex_lt.
  destruct (rank x) as [[a b] c], (rank y) as [[a' b'] c'], (rank z) as [[a'' b''] c''].
  intuition lia.
Qed.

(** Two numbers that are not equal are ordered one way or the other. *)
Lemma ltb_total (x y : float) :
  is_nan x = false -> is_nan y = false -> eqb x y = false ->
  ltb x y = true \/ ltb y x = true.
Proof.
  intros Hx Hy He.
  assert (Hne : rank x <> rank y).
  { intros Hr. assert (eqb x y = true) by (apply eqb_rank; auto). congruence. }
  assert (L : lex_lt (rank x) (rank y) \/ lex_lt (rank y) (rank x)).
  { unfold lex_lt. destruct (rank x) as [[a b] c], (rank y) as [[a' b'] c'].
    assert (a <> a' \/ b <> b' \/ c <> c').
    { destruct (Z.eq_dec a a'), (Z.eq_dec b b'), (Z.eq_dec c c'); subst; auto;
        exfalso; apply Hne; reflexivity. }
    lia. }
  rewrite !ltb_rank. tauto.
Qed.

(** Equal numbers are not ordered. *)
Lemma eqb_not_ltb (x y v : float) :
  eqb x v = true -> eqb y v = true -> ltb y x = false.
Proof.
  intros Hx Hy. apply eqb_rank in Hx, Hy.
  destruct (ltb y x) eqn:E; [|reflexivity].
  apply ltb_rank in E. unfold lex_lt in E.
  destruct Hx as (_ & _ & Hx), Hy as (_ & _ & Hy).
  rewrite Hx, Hy in E. destruct (rank v) as [[a b] c]. intuition lia.
Qed.

(** Among numbers, "not strictly ahead" is transitive. *)
Lemma not_ltb_trans (x y z : float) :
  is_nan x = false -> is_nan y = false -> is_nan z = false ->
  ltb y x = false -> ltb z y = false -> ltb z x = false.
Proof.
  intros Hx Hy Hz H1 H2. destruct (ltb z x) eqn:E; [|reflexivity].
  apply ltb_rank in E. unfold lex_lt in E.
  assert (N1 : ~ lex_lt (rank y) (rank x)).
  { intros L. assert (ltb y x = true) by (apply ltb_rank; auto). congruence. }
  assert (N2 : ~ lex_lt (rank z) (rank y)).
  { intros L. assert (ltb z y = true) by (apply ltb_rank; auto). congruence. }
  unfold lex_lt in N1, N2.
  destruct (rank x) as [[a b] c], (rank y) as [[a' b'] c'], (rank z) as [[a'' b''] c''].
  exfalso. intuition lia.
Qed.

(** A limit-down row is a falling row and a limit-up row a rising one. *)
Lemma leb_rank (x y : float) :
  leb x y = true <->
  is_nan x = false /\ is_nan y = false /\ (lex_lt (rank x) (rank y) \/ rank x = rank y).
Proof.
  unfold leb, SFleb, SFcompare, lex_lt.
  destruct x as [s| s | |s m e], y as [s'| s' | |s' m' e'];
    try (repeat match goal with s : bool |- _ => destruct s end; cbn;
         split; intros Hx; try discriminate; try reflexivity;
         try (repeat split; try reflexivity; (left; lia) || (right; reflexivity));
         destruct Hx as (? & ? & [Hx|Hx]); try discriminate; try lia; fail).
  destruct s, s'; cbn.
  - rewrite Pos.compare_cont_spec. cbn.
    destruct (Z.compare_spec e e'), (Pos.compare_spec m m'); cbn;
      split; intros Hx; try discriminate; try reflexivity;
      try (repeat split; try reflexivity; (left; lia) || (right; f_equal; f_equal; lia));
      destruct Hx as (_ & _ & [Hx|Hx]); try lia; inversion Hx; lia.
  - split; intros Hx; [repeat split; try reflexivity; left; lia | reflexivity].
  - split; intros Hx; [discriminate | destruct Hx as (_ & _ & [Hx|Hx]); [lia|inversion Hx]].
  - rewrite Pos.compare_cont_spec. cbn.
    destruct (Z.compare_spec e e'), (Pos.compare_spec m m'); cbn;
      split; intros Hx; try discriminate; try reflexivity;
      try (repeat split; try reflexivity; (left; lia) || (right; f_equal; f_equal; lia));
      destruct Hx as (_ & _ & [Hx|Hx]); try lia; inversion Hx; lia.
Qed.

Lemma limit_down_is_down (x : float) :
  leb x (opp (dec 99 1)) = true -> ltb x (of_Z 0) = true.
Proof.
  rewrite leb_rank, ltb_rank.
  change (rank (opp (dec 99 1))) with (-1, 49, -5573204538870989).
  change (rank (of_Z 0)) with (0, 0, 0).
  intros (Hx & _ & H). split; [exact Hx|]. split; [reflexivity|].
  unfold lex_lt in *. destruct (rank x) as [[a b] c].
  destruct H as [H|H]; [lia|]. inversion H; subst. lia.
Qed.

Lemma limit_up_is_up (x : float) :
  geb x (dec 99 1) = true -> gtb x (of_Z 0) = true.
Proof.
  unfold geb, gtb. fold (leb (dec 99 1) x). fold (ltb (of_Z 0) x).
  rewrite leb_rank, ltb_rank.
  change (rank (dec 99 1)) with (1, -49, 5573204538870989).
  change (rank (of_Z 0)) with (0, 0, 0).
  intros (_ & Hx & H). split; [reflexivity|]. split; [exact Hx|].
  unfold lex_lt in *. destruct (rank x) as [[a b] c].
  destruct H as [H|H]; [lia|]. inversion H; subst. lia.
Qed.

(** ** Stable insertion sort *)

Section SortBy.
Variable A : Type.
Variable ahead : A -> A -> bool.

Lemma insert_by_perm (x : A) (l : list A) : Permutation (x :: l) (insert_by ahead x l).
Proof.
  induction l as [|y l IH]; cbn; [reflexivity|].
  destruct (ahead y x); [|reflexivity].
  rewrite perm_swap. apply perm_skip. exact IH.
Qed.

Lemma sort_by_perm (l : list A) : Permutation l (sort_by ahead l).
Proof.
  induction l as [|x l IH]; [constructor|].
  change (sort_by ahead (x :: l)) with (insert_by ahead x (sort_by ahead l)).
  rewrite <- insert_by_perm. apply perm_skip. exact IH.
Qed.

Lemma sort_by_length (l : list A) : List.length (sort_by ahead l) = List.length l.
Proof. symmetry. apply Permutation_length, sort_by_perm. Qed.

(** Rows that are pairwise strictly ordered come out strictly ordered. *)
Hypothesis ahead_trans :
  forall a b c, ahead a b = true -> ahead b c = true -> ahead a c = true.

Lemma insert_by_strict (x : A) (l : list A) :
  StronglySorted (fun a b => ahead a b = true) l ->
  Forall (fun y => ahead x y = true \/ ahead y x = true) l ->
  StronglySorted (fun a b => ahead a b = true) (insert_by ahead x l).
Proof.
  induction l as [|y l IH]; intros Hs Hc; cbn.
  - repeat constructor.
  - inversion Hs as [|? ? Hs' Hy]; subst. inversion Hc as [|? ? Hxy Hc']; subst.
    destruct (ahead y x) eqn:E.
    + constructor; [apply IH; assumption|].
      rewrite <- insert_by_perm. constructor; assumption.
    + destruct Hxy as [Hxy|Hxy]; [|congruence].
      constructor; [exact Hs|]. constructor; [exact Hxy|].
      eapply Forall_impl; [|exact Hy]. intros z Hz. eapply ahead_trans; eassumption.
Qed.

Lemma sort_by_strict (l : list A) :
  ForallOrdPairs (fun a b => ahead a b = true \/ ahead b a = true) l ->
  StronglySorted (fun a b => ahead a b = true) (sort_by ahead l).
Proof.
  induction l as [|x l IH]; intros Hp; [constructor|].
  change (sort_by ahead (x :: l)) with (insert_by ahead x (sort_by ahead l)).
  inversion Hp as [|? ? Hx Hp']; subst.
  apply insert_by_strict; [apply IH; exact Hp'|].
  rewrite <- sort_by_perm. exact Hx.
Qed.

(** In general no row stands behind a row that is strictly ahead of it. *)
Variable P : A -> Prop.
Hypothesis not_ahead_trans :
  forall a b c, P a -> P b -> P c ->
    ahead b a = false -> ahead c b = false -> ahead c a = false.
Hypothesis ahead_asym : forall a b, ahead a b = true -> ahead b a = false.

Lemma insert_by_sorted (x : A) (l : list A) :
  P x -> Forall P l ->
  StronglySorted (fun a b => ahead b a = false) l ->
  StronglySorted (fun a b => ahead b a = false) (insert_by ahead x l).
Proof.
  induction l as [|y l IH]; intros Hx Hl Hs; cbn.
  - repeat constructor.
  - inversion Hs as [|? ? Hs' Hy]; subst. inversion Hl as [|? ? Py Pl]; subst.
    destruct (ahead y x) eqn:E.
    + constructor; [apply IH; assumption|].
      rewrite <- insert_by_perm. constructor; [apply ahead_asym; exact E|exact Hy].
    + constructor; [exact Hs|]. constructor; [exact E|].
      rewrite Forall_forall in *. intros z Hz.
      apply (@not_ahead_trans x y z); auto.
Qed.

Lemma sort_by_sorted (l : list A) :
  Forall P l -> StronglySorted (fun a b => ahead b a = false) (sort_by ahead l).
Proof.
  induction l as [|x l IH]; intros Hl; [constructor|].
  change (sort_by ahead (x :: l)) with (insert_by ahead x (sort_by ahead l)).
  inversion Hl; subst. apply insert_by_sorted; auto.
  rewrite <- sort_by_perm. assumption.
Qed.

(** Stability: the rows of a class no two members of which are ordered
    keep their order. *)
Lemma insert_by_filter (p : A -> bool) (x : A) (l : list A) :
  (forall a b, p a = true -> p b = true -> ahead b a = false) ->
  filter p (insert_by ahead x l) = filter p (x :: l).
Proof.
  intros Hp. induction l as [|y l IH]; [reflexivity|].
  cbn [insert_by]. destruct (ahead y x) eqn:E; [|reflexivity].
  cbn [filter] in *. rewrite IH.
  destruct (p x) eqn:Px, (p y) eqn:Py; try reflexivity.
  rewrite (Hp x y Px Py) in E. discriminate.
Qed.

Lemma sort_by_filter (p : A -> bool) (l : list A) :
  (forall a b, p a = true -> p b = true -> ahead b a = false) ->
  filter p (sort_by ahead l) = filter p l.
Proof.
  intros Hp. induction l as [|x l IH]; [reflexivity|].
  change (sort_by ahead (x :: l)) with (insert_by ahead x (sort_by ahead l)).
  rewrite insert_by_filter by exact Hp. cbn [filter]. rewrite IH. reflexivity.
Qed.

End SortBy.

Lemma ltb_asym (x y : float) : ltb x y = true -> ltb y x = false.
Proof.
  intros H. destruct (ltb y x) eqn:E; [|reflexivity].
  apply ltb_rank in H, E. unfold lex_lt in *.
  destruct (rank x) as [[a b] c], (rank y) as [[a' b'] c']. exfalso. intuition lia.
Qed.

Lemma ForallOrdPairs_impl_on {A} (P : A -> Prop) (R1 R2 : A -> A -> Prop) (l : list A) :
  (forall a b, P a -> P b -> R1 a b -> R2 a b) ->
  Forall P l -> ForallOrdPairs R1 l -> ForallOrdPairs R2 l.
Proof.
  intros Himp Hl Hp. induction Hp as [|a l Ha Hp IH]; [constructor|].
  inversion Hl as [|? ? Pa Pl]; subst. constructor; [|apply IH; exact Pl].
  rewrite Forall_forall in *. intros b Hb. apply Himp; auto.
Qed.

(** ** Ranking sector rows *)

Lemma numeric_sector_rows_numeric (df : DataFrame SectorRow) :
  Forall numeric (numeric_sector_rows df).
Proof.
  unfold numeric_sector_rows. apply Forall_forall. intros s Hs.
  apply filter_In in Hs. destruct Hs as [_ Hs]. unfold numeric.
  destruct (is_nan (Sector.change_pct s)); [discriminate|reflexivity].
Qed.

(** The ranked table behind [nlargest] and [nsmallest]: a permutation of
    the rows, none behind a row strictly ahead of it, ties in row order. *)
Lemma ranked_rows (ahead : Sector.t -> Sector.t -> bool) (l : list Sector.t) :
  ahead = by_fall \/ ahead = by_rise ->
  Forall numeric l ->
  Permutation l (sort_by ahead l)
  /\ StronglySorted (fun a b => ahead b a = false) (sort_by ahead l)
  /\ (forall v, ties v (sort_by ahead l) = ties v l).
Proof.
  intros Hahead Hl. split; [apply sort_by_perm|]. split.
  - apply sort_by_sorted with (P := numeric); [| |exact Hl].
    + intros a b c Pa Pb Pc. destruct Hahead; subst ahead; unfold by_fall, by_rise, gtb.
      * intros H1 H2. apply (@not_ltb_trans (Sector.change_pct c) (Sector.change_pct b)); auto.
      * intros H1 H2. apply (@not_ltb_trans (Sector.change_pct a) (Sector.change_pct b)); auto.
    + intros a b. destruct Hahead; subst ahead; unfold by_fall, by_rise, gtb; apply ltb_asym.
  - intros v. unfold ties. apply sort_by_filter. intros a b Ha Hb.
    destruct Hahead; subst ahead; unfold by_fall, by_rise, gtb; eapply eqb_not_ltb; eassumption.
Qed.

(** With distinct changes the ranked table is strictly ordered. *)
Lemma ranked_rows_strict (ahead : Sector.t -> Sector.t -> bool) (l : list Sector.t) :
  ahead = by_fall \/ ahead = by_rise ->
  Forall numeric l ->
  distinct_changes l ->
  StronglySorted (fun a b => ahead a b = true) (sort_by ahead l).
Proof.
  intros Hahead Hl Hd. apply sort_by_strict.
  - intros a b c. destruct Hahead; subst ahead; unfold by_fall, by_rise, gtb; intros H1 H2.
    + eapply ltb_trans; eassumption.
    + eapply ltb_trans; eassumption.
  - eapply ForallOrdPairs_impl_on with (P := numeric); [|exact Hl|exact Hd].
    intros a b Pa Pb He. cbn beta in He.
    destruct (@ltb_total (Sector.change_pct a) (Sector.change_pct b) Pa Pb He) as [L|L];
      destruct Hahead; subst ahead; unfold by_fall, by_rise, gtb; auto.
Qed.

(** The first [n] rows of a strictly ordered table, and the rest. *)
Lemma firstn_strict {A} (R : A -> A -> Prop) (n : nat) (l : list A) :
  StronglySorted R l ->
  StronglySorted R (firstn n l)
  /\ (forall a b, In a (firstn n l) -> In b (skipn n l) -> R a b).
Proof.
  revert l. induction n as [|n IH]; intros l Hs.
  - cbn. split; [constructor|intros a b []].
  - destruct l as [|x l]; cbn [firstn skipn].
    + split; [constructor|intros a b []].
    + inversion Hs as [|? ? Hs' Hx]; subst. destruct (IH l Hs') as [H1 H2]. split.
      * constructor; [exact H1|]. rewrite Forall_forall in *. intros z Hz.
        apply Hx. rewrite <- (firstn_skipn n l). apply in_or_app. left. exact Hz.
      * intros a b [Ha|Ha] Hb.
        -- subst a. rewrite Forall_forall in Hx. apply Hx.
           rewrite <- (firstn_skipn n l). apply in_or_app. right. exact Hb.
        -- apply H2; assumption.
Qed.

(* ===================================================================== *)
(** * Market snapshot assembly *)
(* ===================================================================== *)

Section FetchSteps.
Context {X : Externals}.
Variable fetch_attempts : Z.

Lemma log_step lvl subject err (w : World) :
  log lvl subject err w = (inr tt, mkWorld (ext w) (trace w ++ [Log lvl subject err])).
Proof. reflexivity. Qed.

(** The wrapper never raises. *)
Lemma fetch_total {A} (fn : Op Ext A) name attempts w :
  exists r w', _call_akshare_with_retry fn name attempts w = (inr r, w').
Proof.
  destruct (akshare_run fn name attempts (Z.to_nat attempts) 1 None w)
    as (errs & ok & r & w' & Hrun & _ & Hres & _).
  unfold _call_akshare_with_retry. rewrite Hrun.
  destruct ok; [destruct Hres as (_ & v & ->) | destruct Hres as (_ & ->)]; eauto.
Qed.

Lemma fetch_served {A} (fn : Op Ext A) name attempts w v x' :
  1 <= attempts ->
  fn (ext w) = (inr v, x') ->
  _call_akshare_with_retry fn name attempts w
  = (inr (Some v), mkWorld x' (trace w ++ [Invoke name])).
Proof.
  intros Ha Hx. unfold _call_akshare_with_retry.
  destruct (Z.to_nat attempts) as [|n] eqn:E; [lia|].
  apply akshare_step_ok. exact Hx.
Qed.

(** A first call that is served makes the fetch succeed. *)
Lemma fetch_served_succeeds {A} (fn : Op Ext A) name attempts x v x' :
  1 <= attempts ->
  fn x = (inr v, x') ->
  fetch_succeeds fn name attempts x v.
Proof.
  intros Ha Hx t. unfold outcome.
  rewrite (@fetch_served _ fn name attempts (mkWorld x t) v x' Ha Hx). reflexivity.
Qed.

Lemma fetch_succeeds_run {A} (fn : Op Ext A) name attempts w v t :
  fetch_succeeds fn name attempts (ext w) v ->
  exists w1, _call_akshare_with_retry fn name attempts (mkWorld (ext w) t) = (inr (Some v), w1).
Proof.
  intros Hs. specialize (Hs t). unfold outcome in Hs.
  destruct (_call_akshare_with_retry fn name attempts (mkWorld (ext w) t)) as [r w1].
  cbn [fst] in Hs. subst r. exists w1. reflexivity.
Qed.

Lemma fetch_down {A} (fn : Op Ext A) name attempts w :
  always_raises fn ->
  exists w', _call_akshare_with_retry fn name attempts w = (inr None, w').
Proof.
  intros Hfn.
  destruct (akshare_run fn name attempts (Z.to_nat attempts) 1 None w)
    as (errs & ok & r & w' & Hrun & _ & Hres & Hall & _).
  rewrite (Hall Hfn) in Hres. destruct Hres as (_ & ->). eauto.
Qed.

Lemma never_raises_ret {A} (a : A) : never_raises (ret a).
Proof. intros w. exists a, w. reflexivity. Qed.

Lemma never_raises_log lvl subject err : never_raises (log lvl subject err).
Proof. intros w. eexists. eexists. reflexivity. Qed.

Lemma never_raises_bind {A B} (c : M A) (k : A -> M B) :
  never_raises c -> (forall a, never_raises (k a)) -> never_raises (bind c k).
Proof.
  intros Hc Hk w. destruct (Hc w) as (a & w1 & H1). destruct (Hk a w1) as (b & w2 & H2).
  exists b, w2. rewrite (bind_ok _ H1). exact H2.
Qed.

(** A [try] whose handler returns never raises. *)
Lemma never_raises_catch {A} (c : M A) (h : exn -> M A) :
  (forall e, never_raises (h e)) -> never_raises (catch c h).
Proof.
  intros Hh w. destruct (c w) as [[e|a] w1] eqn:Hc.
  - destruct (Hh e w1) as (a & w2 & H2). exists a, w2. rewrite (catch_raise _ Hc). exact H2.
  - exists a, w1. apply catch_ok. exact Hc.
Qed.

Lemma never_raises_log_ret {A} lvl subject err (a : A) :
  never_raises (log lvl subject err ;; ret a).
Proof. apply never_raises_bind; [apply never_raises_log|intros; apply never_raises_ret]. Qed.

(** No fetch step raises, whatever the providers do. *)
Lemma main_indices_total : never_raises (_get_main_indices fetch_attempts).
Proof. apply never_raises_catch. intros e. apply never_raises_log_ret. Qed.

Lemma market_statistics_total overview :
  never_raises (_get_market_statistics fetch_attempts overview).
Proof. apply never_raises_catch. intros e. apply never_raises_log_ret. Qed.

Lemma sector_rankings_total overview :
  never_raises (_get_sector_rankings fetch_attempts overview).
Proof. apply never_raises_catch. intros e. apply never_raises_log_ret. Qed.

Lemma market_overview_total : never_raises (get_market_overview fetch_attempts).
Proof.
  unfold get_market_overview.
  apply never_raises_bind; [intros w; eexists; eexists; reflexivity|]. intros today.
  apply never_raises_bind; [apply main_indices_total|]. intros indices.
  apply never_raises_bind; [apply market_statistics_total|]. intros ov1.
  apply never_raises_bind; [apply sector_rankings_total|]. intros ov2.
  apply never_raises_ret.
Qed.

(** The three steps when their fetch succeeds. *)
Lemma main_indices_served w df :
  fetch_succeeds stock_zh_index_spot_sina "指数行情" fetch_attempts (ext w) df ->
  exists w',
    _get_main_indices fetch_attempts w
    = (inr (if empty df then [] else fst (collect_indices df MAIN_INDICES [])), w').
Proof.
  intros Hs. unfold _get_main_indices.
  destruct (fetch_succeeds_run w
              (trace w ++ [Log INFO "[大盘] 获取主要指数实时行情..." None]) Hs) as (w1 & Hrun).
  destruct (empty df) eqn:He.
  - eexists. apply catch_ok. rewrite (bind_ok _ (log_step _ _ _ w)).
    rewrite (bind_ok _ Hrun). cbv beta iota. rewrite He. reflexivity.
  - destruct (collect_indices df MAIN_INDICES []) as [indices [e|]] eqn:Hc;
      eexists; apply catch_ok; rewrite (bind_ok _ (log_step _ _ _ w));
      rewrite (bind_ok _ Hrun); cbv beta iota; rewrite He; cbn [negb]; rewrite Hc;
      reflexivity.
Qed.

Lemma market_statistics_served overview w df :
  fetch_succeeds stock_zh_a_spot_em "A股实时行情" fetch_attempts (ext w) df ->
  exists w',
    _get_market_statistics fetch_attempts overview w
    = (inr (if empty df then overview
            else with_total_amount df (with_breadth df overview)), w').
Proof.
  intros Hs. unfold _get_market_statistics.
  destruct (fetch_succeeds_run w
              (trace w ++ [Log INFO "[大盘] 获取市场涨跌统计..." None]) Hs) as (w1 & Hrun).
  destruct (empty df) eqn:He;
    eexists; apply catch_ok; rewrite (bind_ok _ (log_step _ _ _ w));
    rewrite (bind_ok _ Hrun); cbv beta iota; rewrite He; reflexivity.
Qed.

Lemma sector_rankings_served overview w df :
  fetch_succeeds stock_board_industry_name_em "行业板块行情" fetch_attempts (ext w) df ->
  empty df = false ->
  has_column df col_change_pct = true ->
  has_column df col_sector_name = true ->
  exists w',
    _get_sector_rankings fetch_attempts overview w
    = (inr (MarketOverview.set_bottom_sectors
              (MarketOverview.set_top_sectors overview (nlargest 5 (numeric_sector_rows df)))
              (nsmallest 5 (numeric_sector_rows df))), w').
Proof.
  intros Hs He Hc Hn. unfold _get_sector_rankings.
  assert (Hent : forall sel, sector_entries df sel = inr sel).
  { intros sel. unfold sector_entries. rewrite Hn. destruct sel; reflexivity. }
  destruct (fetch_succeeds_run w
              (trace w ++ [Log INFO "[大盘] 获取板块涨跌榜..." None]) Hs) as (w1 & Hrun).
  eexists. apply catch_ok. rewrite (bind_ok _ (log_step _ _ _ w)).
  rewrite (bind_ok _ Hrun).
  cbv beta iota. rewrite He, Hc. cbn [negb andb]. rewrite !Hent. reflexivity.
Qed.

(** The sector step when the endpoint is down at every attempt: the
    overview is returned as it came. *)
Lemma sector_rankings_down overview w :
  always_raises stock_board_industry_name_em ->
  exists w', _get_sector_rankings fetch_attempts overview w = (inr overview, w').
Proof.
  intros Hdown. unfold _get_sector_rankings.
  destruct (@fetch_down _ stock_board_industry_name_em "行业板块行情" fetch_attempts
              (mkWorld (ext w) (trace w ++ [Log INFO "[大盘] 获取板块涨跌榜..." None])) Hdown)
    as (w1 & Hrun).
  exists w1. apply catch_ok. rewrite (bind_ok _ (log_step _ _ _ w)).
  rewrite (bind_ok _ Hrun). reflexivity.
Qed.

(** The statistics step writes the breadth counts and the turnover only. *)
Lemma market_statistics_keeps overview w ov w' :
  _get_market_statistics fetch_attempts overview w = (inr ov, w') ->
  MarketOverview.date ov = MarketOverview.date overview
  /\ MarketOverview.indices ov = MarketOverview.indices overview
  /\ MarketOverview.top_sectors ov = MarketOverview.top_sectors overview
  /\ MarketOverview.bottom_sectors ov = MarketOverview.bottom_sectors overview.
Proof.
  unfold _get_market_statistics, catch, bind at 1. rewrite log_step.
  destruct (@fetch_total _ stock_zh_a_spot_em "A股实时行情" fetch_attempts
              (mkWorld (ext w) (trace w ++ [Log INFO "[大盘] 获取市场涨跌统计..." None])))
    as (r & w1 & Hrun).
  rewrite (bind_ok _ Hrun). cbv beta iota.
  destruct r as [df|]; [|intros H; inversion H; subst; auto].
  destruct (negb (empty df)); [|intros H; inversion H; subst; auto].
  unfold with_total_amount, with_breadth.
  destruct (has_column df col_amount), (has_column df col_change_pct);
    intros H; inversion H; subst; auto.
Qed.

End FetchSteps.

Lemma count_rows_le (p q : float -> bool) (xs : list float) :
  (forall x, p x = true -> q x = true) -> count_rows p xs <= count_rows q xs.
Proof.
  intros Hpq. unfold count_rows. apply inj_le.
  induction xs as [|x xs IH]; [reflexivity|]. cbn [filter].
  destruct (p x) eqn:Px.
  - rewrite (Hpq x Px). cbn [List.length]. lia.
  - destruct (q x); cbn [List.length]; lia.
Qed.

(** C5 (partial-failure isolation).  When the index-quote fetch succeeds
    and the sector endpoint raises at every attempt, [get_market_overview]
    returns an overview: its indices are those built from the fetched
    table, its sector lists are empty, and it is exactly the overview the
    index and statistics steps produce. *)
Theorem partial_failure_isolation {X : Externals} (fetch_attempts : Z) (w : World)
    (df : DataFrame IndexRow) :
  fetch_succeeds stock_zh_index_spot_sina "指数行情" fetch_attempts (ext w) df ->
  always_raises stock_board_industry_name_em ->
  exists ov w',
    get_market_overview fetch_attempts w = (inr ov, w')
    /\ MarketOverview.indices ov
       = (if empty df then [] else fst (collect_indices df MAIN_INDICES []))
    /\ MarketOverview.top_sectors ov = []
    /\ MarketOverview.bottom_sectors ov = []
    /\ exists indices w1 w2,
         _get_main_indices fetch_attempts w = (inr indices, w1)
         /\ _get_market_statistics fetch_attempts
              (MarketOverview.set_indices
                 (MarketOverview.init (strftime_Ymd (datetime_now (ext w)))) indices) w1
            = (inr ov, w2).
Proof.
  intros Hfetch Hdown.
  destruct (@main_indices_served X fetch_attempts w df Hfetch) as (w1 & H1).
  set (indices := if empty df then [] else fst (collect_indices df MAIN_INDICES [])) in *.
  set (ov0 := MarketOverview.set_indices
                (MarketOverview.init (strftime_Ymd (datetime_now (ext w)))) indices).
  destruct (@market_statistics_total X fetch_attempts ov0 w1) as (ov & w2 & H2).
  destruct (@sector_rankings_down X fetch_attempts ov w2 Hdown) as (w3 & H3).
  destruct (@market_statistics_keeps X fetch_attempts ov0 w1 ov w2 H2) as (_ & Hi & Ht & Hb).
  exists ov, w3. split; [|split; [exact Hi|split; [exact Ht|split; [exact Hb|]]]].
  - unfold get_market_overview.
    rewrite (@bind_ok _ _ _ now _ w (datetime_now (ext w)) w eq_refl).
    rewrite (bind_ok _ H1). fold ov0. rewrite (bind_ok _ H2). rewrite (bind_ok _ H3).
    reflexivity.
  - exists indices, w1, w2. split; [exact H1|exact H2].
Qed.

Lemma partial_failure_isolation_witness :
  exists ov w',
    get_market_overview (X:=Sample.sectors_down) 2
      (Sample.start Sample.sectors_down Sample.flaky_morning)
    = (inr ov, w')
    /\ MarketOverview.indices ov
       = (if empty Sample.index_table then []
          else fst (collect_indices Sample.index_table MAIN_INDICES []))
    /\ MarketOverview.top_sectors ov = []
    /\ MarketOverview.bottom_sectors ov = []
    /\ exists indices w1 w2,
         _get_main_indices (X:=Sample.sectors_down) 2
           (Sample.start Sample.sectors_down Sample.flaky_morning) = (inr indices, w1)
         /\ _get_market_statistics (X:=Sample.sectors_down) 2
              (MarketOverview.set_indices
                 (MarketOverview.init (strftime_Ymd Sample.morning)) indices) w1
            = (inr ov, w2).
Proof.
  apply (@partial_failure_isolation Sample.sectors_down 2
           (Sample.start Sample.sectors_down Sample.flaky_morning) Sample.index_table).
  - intros t. reflexivity.
  - intros x. exists Sample.throttled, x. reflexivity.
Defined.

(** The sample run: the index endpoint refuses the first call and serves
    the second; two indices are found, the breadth counts written, there are
    no sectors. *)
Example sample_overview_without_sectors :
  match outcome (get_market_overview (X:=Sample.sectors_down) 2)
          (Sample.start Sample.sectors_down Sample.flaky_morning) with
  | inr ov =>
      map MarketIndex.code (MarketOverview.indices ov) = ["sh000001"; "sz399001"]
      /\ MarketOverview.date ov = "2026-01-05"
      /\ MarketOverview.up_count ov = 2
      /\ format_f false 0 (MarketOverview.total_amount ov) = "10"
      /\ MarketOverview.top_sectors ov = []
      /\ MarketOverview.bottom_sectors ov = []
  | inl _ => False
  end.
Proof. vm_compute. repeat split. Qed.

(** Writing the turnover leaves the counts alone. *)
Lemma with_total_amount_keeps {X : Externals} (df : DataFrame SpotRow) (o : MarketOverview.t) :
  MarketOverview.up_count (with_total_amount df o) = MarketOverview.up_count o
  /\ MarketOverview.down_count (with_total_amount df o) = MarketOverview.down_count o
  /\ MarketOverview.flat_count (with_total_amount df o) = MarketOverview.flat_count o
  /\ MarketOverview.limit_up_count (with_total_amount df o) = MarketOverview.limit_up_count o
  /\ MarketOverview.limit_down_count (with_total_amount df o)
     = MarketOverview.limit_down_count o.
Proof.
  unfold with_total_amount. destruct (has_column df col_amount); repeat split; reflexivity.
Qed.

(** C8 (breadth classification).  The statistics step counts the rows
    by the sign of the change ([> 0], [< 0], [== 0]) and by the limits
    ([>= 9.9], [<= -9.9]); limit-down rows are down rows and limit-up rows
    are up rows; for the changes [10.0, -9.95, 0.0, 5.0, -11] the counts
    are 2 up, 2 down, 1 flat, 1 limit-up, 2 limit-down. *)
Theorem breadth_classification {X : Externals} (fetch_attempts : Z) (w : World)
    (overview : MarketOverview.t) (df : DataFrame SpotRow) :
  fetch_succeeds stock_zh_a_spot_em "A股实时行情" fetch_attempts (ext w) df ->
  empty df = false ->
  has_column df col_change_pct = true ->
  exists ov w',
    _get_market_statistics fetch_attempts overview w = (inr ov, w')
    /\ (let changes := map (fun r => to_numeric (spot_change_pct r)) (rows df) in
        MarketOverview.up_count ov = count_rows (fun x => gtb x (of_Z 0)) changes
        /\ MarketOverview.down_count ov = count_rows (fun x => ltb x (of_Z 0)) changes
        /\ MarketOverview.flat_count ov = count_rows (fun x => eqb x (of_Z 0)) changes
        /\ MarketOverview.limit_up_count ov = count_rows (fun x => geb x (dec 99 1)) changes
        /\ MarketOverview.limit_down_count ov
           = count_rows (fun x => leb x (opp (dec 99 1))) changes)
    /\ MarketOverview.limit_down_count ov <= MarketOverview.down_count ov
    /\ MarketOverview.limit_up_count ov <= MarketOverview.up_count ov
    /\ (map spot_change_pct (rows df)
        = [Num (of_Z 10); Num (opp (dec 995 2)); Num zero; Num (of_Z 5); Num (opp (of_Z 11))] ->
        MarketOverview.up_count ov = 2
        /\ MarketOverview.down_count ov = 2
        /\ MarketOverview.flat_count ov = 1
        /\ MarketOverview.limit_up_count ov = 1
        /\ MarketOverview.limit_down_count ov = 2).
Proof.
  intros Hfetch He Hc.
  destruct (@market_statistics_served X fetch_attempts overview w df Hfetch) as (w' & Hrun).
  rewrite He in Hrun. eexists. exists w'. split; [exact Hrun|].
  set (changes := map (fun r => to_numeric (spot_change_pct r)) (rows df)).
  destruct (with_total_amount_keeps df (with_breadth df overview)) as (U & D & F & LU & LD).
  rewrite U, D, F, LU, LD. unfold with_breadth. rewrite Hc. fold changes.
  cbn [MarketOverview.up_count MarketOverview.down_count MarketOverview.flat_count
       MarketOverview.limit_up_count MarketOverview.limit_down_count
       MarketOverview.set_breadth].
  split; [repeat split; reflexivity|].
  split; [apply count_rows_le; exact limit_down_is_down|].
  split; [apply count_rows_le; exact limit_up_is_up|].
  intros Hrows.
  assert (Hch : changes = [of_Z 10; opp (dec 995 2); zero; of_Z 5; opp (of_Z 11)]).
  { unfold changes. rewrite <- (map_map spot_change_pct to_numeric), Hrows. reflexivity. }
  rewrite Hch. vm_compute. repeat split; reflexivity.
Qed.

Lemma breadth_classification_witness :
  exists ov w',
    _get_market_statistics (X:=Sample.sectors_up) 9 (MarketOverview.init "2026-01-05")
      (Sample.start Sample.sectors_up Sample.morning_state) = (inr ov, w')
    /\ MarketOverview.up_count ov = 2
    /\ MarketOverview.down_count ov = 2
    /\ MarketOverview.flat_count ov = 1
    /\ MarketOverview.limit_up_count ov = 1
    /\ MarketOverview.limit_down_count ov = 2.
Proof.
  destruct (@breadth_classification Sample.sectors_up 9
              (Sample.start Sample.sectors_up Sample.morning_state)
              (MarketOverview.init "2026-01-05") Sample.spot_table)
    as (ov & w' & Hrun & _ & _ & _ & Hcounts).
  - intros t. reflexivity.
  - reflexivity.
  - reflexivity.
  - exists ov, w'. split; [exact Hrun|]. apply Hcounts. reflexivity.
Defined.

(** C9 (sector ranking).  The sector step takes the first five rows of
    the table ranked by falling change for [top_sectors] and by rising
    change for [bottom_sectors]; a ranked table keeps rows of equal change
    in the provider's row order.  With at least 7 rows of distinct changes,
    [top_sectors] is the 5 highest rows in descending order and
    [bottom_sectors] the 5 lowest in ascending order. *)
Theorem sector_ranking {X : Externals} (fetch_attempts : Z) (w : World)
    (overview : MarketOverview.t) (df : DataFrame SectorRow) :
  fetch_succeeds stock_board_industry_name_em "行业板块行情" fetch_attempts (ext w) df ->
  empty df = false ->
  has_column df col_change_pct = true ->
  has_column df col_sector_name = true ->
  exists ov w',
    _get_sector_rankings fetch_attempts overview w = (inr ov, w')
    /\ (exists ranked_fall ranked_rise,
          MarketOverview.top_sectors ov = firstn 5 ranked_fall
          /\ MarketOverview.bottom_sectors ov = firstn 5 ranked_rise
          /\ Permutation (numeric_sector_rows df) ranked_fall
          /\ Permutation (numeric_sector_rows df) ranked_rise
          /\ StronglySorted (fun a b => by_fall b a = false) ranked_fall
          /\ StronglySorted (fun a b => by_rise b a = false) ranked_rise
          /\ (forall v, ties v ranked_fall = ties v (numeric_sector_rows df))
          /\ (forall v, ties v ranked_rise = ties v (numeric_sector_rows df)))
    /\ ((7 <= List.length (numeric_sector_rows df))%nat ->
        distinct_changes (numeric_sector_rows df) ->
        exists rest_top rest_bottom,
          List.length (MarketOverview.top_sectors ov) = 5%nat
          /\ List.length (MarketOverview.bottom_sectors ov) = 5%nat
          /\ Permutation (numeric_sector_rows df) (MarketOverview.top_sectors ov ++ rest_top)
          /\ Permutation (numeric_sector_rows df)
               (MarketOverview.bottom_sectors ov ++ rest_bottom)
          /\ StronglySorted falls (MarketOverview.top_sectors ov)
          /\ StronglySorted rises (MarketOverview.bottom_sectors ov)
          /\ (forall a b, In a (MarketOverview.top_sectors ov) -> In b rest_top -> falls a b)
          /\ (forall a b, In a (MarketOverview.bottom_sectors ov) -> In b rest_bottom
                          -> rises a b)).
Proof.
  intros Hfetch He Hc Hn.
  destruct (@sector_rankings_served X fetch_attempts overview w df Hfetch He Hc Hn)
    as (w' & Hrun).
  eexists. exists w'. split; [exact Hrun|].
  set (table := numeric_sector_rows df).
  assert (Hnum : Forall numeric table) by apply numeric_sector_rows_numeric.
  cbn [MarketOverview.top_sectors MarketOverview.bottom_sectors
       MarketOverview.set_top_sectors MarketOverview.set_bottom_sectors].
  unfold nlargest, nsmallest.
  destruct (@ranked_rows by_fall table (or_introl eq_refl) Hnum) as (Pf & Sf & Tf).
  destruct (@ranked_rows by_rise table (or_intror eq_refl) Hnum) as (Pr & Sr & Tr).
  split.
  - exists (sort_by by_fall table), (sort_by by_rise table). repeat split; assumption.
  - intros Hlen Hd.
    pose proof (@ranked_rows_strict by_fall table (or_introl eq_refl) Hnum Hd) as SSf.
    pose proof (@ranked_rows_strict by_rise table (or_intror eq_refl) Hnum Hd) as SSr.
    destruct (@firstn_strict _ (fun a b => by_fall a b = true) 5 _ SSf) as (F1 & F2).
    destruct (@firstn_strict _ (fun a b => by_rise a b = true) 5 _ SSr) as (R1 & R2).
    exists (skipn 5 (sort_by by_fall table)), (skipn 5 (sort_by by_rise table)).
    rewrite !firstn_skipn, !length_firstn, !sort_by_length.
    repeat split; try assumption; lia.
Qed.

Lemma sector_ranking_witness :
  exists ov w' rest_top rest_bottom,
    _get_sector_rankings (X:=Sample.sectors_up) 9 (MarketOverview.init "2026-01-05")
      (Sample.start Sample.sectors_up Sample.morning_state) = (inr ov, w')
    /\ List.length (MarketOverview.top_sectors ov) = 5%nat
    /\ List.length (MarketOverview.bottom_sectors ov) = 5%nat
    /\ Permutation (numeric_sector_rows Sample.sector_table)
         (MarketOverview.top_sectors ov ++ rest_top)
    /\ Permutation (numeric_sector_rows Sample.sector_table)
         (MarketOverview.bottom_sectors ov ++ rest_bottom)
    /\ StronglySorted falls (MarketOverview.top_sectors ov)
    /\ StronglySorted rises (MarketOverview.bottom_sectors ov).
Proof.
  destruct (@sector_ranking Sample.sectors_up 9
              (Sample.start Sample.sectors_up Sample.morning_state)
              (MarketOverview.init "2026-01-05") Sample.sector_table)
    as (ov & w' & Hrun & _ & Hexact).
  - intros t. reflexivity.
  - reflexivity.
  - reflexivity.
  - reflexivity.
  - destruct Hexact as (rest_top & rest_bottom & H1 & H2 & H3 & H4 & H5 & H6 & _).
    + vm_compute. lia.
    + unfold distinct_changes. vm_compute. repeat constructor.
    + exists ov, w', rest_top, rest_bottom. repeat split; assumption.
Defined.

(** The sample table ranked. *)
Example sample_ranked_sectors :
  match outcome (_get_sector_rankings (X:=Sample.sectors_up) 9 (MarketOverview.init "2026-01-05"))
          (Sample.start Sample.sectors_up Sample.morning_state) with
  | inr ov =>
      map Sector.name (MarketOverview.top_sectors ov)
      = ["光伏"; "半导体"; "军工"; "白酒"; "银行"]
      /\ map Sector.name (MarketOverview.bottom_sectors ov)
         = ["房地产"; "煤炭"; "银行"; "白酒"; "军工"]
  | inl _ => False
  end.
Proof. vm_compute. split; reflexivity. Qed.

(** Rows of equal change keep the provider's row order, both ways. *)
Example sample_ranked_ties :
  let table := [Sector.mk "甲" (of_Z 1); Sector.mk "乙" (of_Z 2);
                Sector.mk "丙" (of_Z 1); Sector.mk "丁" (of_Z 2)] in
  map Sector.name (nlargest 5 table) = ["乙"; "丁"; "甲"; "丙"]
  /\ map Sector.name (nsmallest 5 table) = ["甲"; "丙"; "乙"; "丁"].
Proof. vm_compute. split; reflexivity. Qed.

(* ===================================================================== *)
(** * The template report *)
(* ===================================================================== *)

Lemma str_app_assoc (a b c : string) : (a ++ b) ++ c = a ++ (b ++ c).
Proof. induction a as [|x a IH]; cbn; [reflexivity|]. rewrite IH. reflexivity. Qed.

Lemma index_of_row_code code name row index :
  index_of_row code name row = inr index -> MarketIndex.code index = code.
Proof.
  unfold index_of_row, and_then.
  repeat match goal with
         | |- context [float_field ?r ?k] => destruct (float_field r k); [discriminate|]
         end.
  intros H. inversion H. reflexivity.
Qed.

(** Every index the loop builds carries the code it was looked up by. *)
Lemma collect_indices_codes (df : DataFrame IndexRow) (codes : list string) :
  forall items indices,
    Forall (fun item => In (fst item) codes) items ->
    Forall (fun idx => In (MarketIndex.code idx) codes) indices ->
    Forall (fun idx => In (MarketIndex.code idx) codes) (fst (collect_indices df items indices)).
Proof.
  induction items as [|[code name] items IH]; intros indices Hitems Hacc; cbn [collect_indices].
  - exact Hacc.
  - inversion Hitems as [|? ? Hc Hrest]; subst. cbn [fst] in Hc.
    destruct (find_index_row df code) as [e|[row|]]; [exact Hacc| |apply IH; assumption].
    destruct (index_of_row code name row) as [e|index] eqn:Hrow; [exact Hacc|].
    apply IH; [assumption|]. apply Forall_app. split; [exact Hacc|].
    constructor; [|constructor]. rewrite (index_of_row_code _ _ _ Hrow). exact Hc.
Qed.

Lemma main_index_codes_items : Forall (fun item => In (fst item) MAIN_INDEX_CODES) MAIN_INDICES.
Proof. unfold MAIN_INDEX_CODES. apply Forall_forall. intros item Hi. apply in_map. exact Hi. Qed.

(** No index with a MAIN_INDICES code has the code ['000001']. *)
Lemma sh_index_of_main_codes (overview : MarketOverview.t) :
  Forall (fun idx => In (MarketIndex.code idx) MAIN_INDEX_CODES) (MarketOverview.indices overview) ->
  Pkg.sh_index overview = None.
Proof.
  unfold Pkg.sh_index. induction (MarketOverview.indices overview) as [|idx l IH]; intros H.
  - reflexivity.
  - inversion H as [|? ? Hc Hl]; subst. cbn [find].
    replace (String.eqb (MarketIndex.code idx) "000001") with false; [apply IH; exact Hl|].
    cbn in Hc. repeat (destruct Hc as [Hc|Hc]; [rewrite <- Hc; reflexivity|]). destruct Hc.
Qed.

Section Template.
Context {X : Externals}.

Lemma main_indices_codes fetch_attempts w indices w' :
  _get_main_indices fetch_attempts w = (inr indices, w') ->
  Forall (fun idx => In (MarketIndex.code idx) MAIN_INDEX_CODES) indices.
Proof.
  unfold _get_main_indices, catch, bind at 1. rewrite log_step.
  destruct (@fetch_total _ _ stock_zh_index_spot_sina "指数行情" fetch_attempts
              (mkWorld (ext w) (trace w ++ [Log INFO "[大盘] 获取主要指数实时行情..." None])))
    as (r & w1 & Hrun).
  rewrite (bind_ok _ Hrun). cbv beta iota.
  destruct r as [df|]; [|intros H; inversion H; constructor].
  destruct (negb (empty df)); [|intros H; inversion H; constructor].
  pose proof (@collect_indices_codes df MAIN_INDEX_CODES MAIN_INDICES []
                main_index_codes_items (Forall_nil _)) as Hcodes.
  destruct (collect_indices df MAIN_INDICES []) as [built [e|]]; cbn [fst] in Hcodes;
    intros H; inversion H; subst; exact Hcodes.
Qed.

End Template.

(** C10.  For an overview whose indices come from the index-fetch step,
    every index code is a MAIN_INDICES key, the lookup of ['000001'] in the
    template of [src/market_analyzer.py] finds nothing, and the report states
    the neutral mood, however the Shanghai index moved. *)
Theorem template_mood_is_neutral {X : Externals} (fetch_attempts : Z) (w w' : World)
    (indices : list MarketIndex.t) (overview : MarketOverview.t) :
  _get_main_indices fetch_attempts w = (inr indices, w') ->
  MarketOverview.indices overview = indices ->
  Forall (fun idx => In (MarketIndex.code idx) MAIN_INDEX_CODES) indices
  /\ Pkg.sh_index overview = None
  /\ Pkg.market_mood overview = "震荡整理"
  /\ forall news w0, exists before after,
       outcome (Pkg._generate_template_review overview news) w0
       = inr (before ++ "今日A股市场整体呈现**震荡整理**态势。" ++ after).
Proof.
  intros Hfetch Hidx.
  pose proof (main_indices_codes _ _ Hfetch) as Hcodes.
  assert (Hsh : Pkg.sh_index overview = None)
    by (apply sh_index_of_main_codes; rewrite Hidx; exact Hcodes).
  assert (Hmood : Pkg.market_mood overview = "震荡整理")
    by (unfold Pkg.market_mood; rewrite Hsh; reflexivity).
  repeat split; try assumption.
  intros news w0.
  exists ("## 📊 " ++ MarketOverview.date overview ++ " 大盘复盘" ++ nl ++ nl
          ++ "### 一、市场总结" ++ nl).
  eexists.
  unfold outcome, Pkg._generate_template_review, bind, now, ret. cbn [fst].
  unfold Pkg.template_text. rewrite Hmood.
  rewrite !str_app_assoc. reflexivity.
Qed.

Lemma template_mood_is_neutral_witness :
  Forall (fun idx => In (MarketIndex.code idx) MAIN_INDEX_CODES)
    (fst (collect_indices Sample.index_table MAIN_INDICES []))
  /\ Pkg.sh_index
       (MarketOverview.set_indices (MarketOverview.init "2026-01-05")
          (fst (collect_indices Sample.index_table MAIN_INDICES []))) = None
  /\ Pkg.market_mood
       (MarketOverview.set_indices (MarketOverview.init "2026-01-05")
          (fst (collect_indices Sample.index_table MAIN_INDICES []))) = "震荡整理"
  /\ forall news w0, exists before after,
       outcome (Pkg._generate_template_review (X:=Sample.sectors_up)
                  (MarketOverview.set_indices (MarketOverview.init "2026-01-05")
                     (fst (collect_indices Sample.index_table MAIN_INDICES []))) news) w0
       = inr (before ++ "今日A股市场整体呈现**震荡整理**态势。" ++ after).
Proof.
  apply (@template_mood_is_neutral Sample.sectors_up 9
           (Sample.start Sample.sectors_up Sample.morning_state)
           (snd (_get_main_indices (X:=Sample.sectors_up) 9
                   (Sample.start Sample.sectors_up Sample.morning_state)))).
  - vm_compute. reflexivity.
  - reflexivity.
Defined.

(** In the sample the Shanghai index rose 2.50%; the report says so in its
    index list and still calls the market neutral. *)
Example sample_neutral_mood :
  let overview := MarketOverview.set_indices (MarketOverview.init "2026-01-05")
                    (fst (collect_indices Sample.index_table MAIN_INDICES [])) in
  map MarketIndex.code (MarketOverview.indices overview) = ["sh000001"; "sz399001"]
  /\ Pkg.indices_text overview
     = "- **上证指数**: 3382.50 (↑2.50%)" ++ nl ++ "- **深证成指**: 10956.00 (↓0.40%)" ++ nl
  /\ Pkg.market_mood overview = "震荡整理".
Proof. vm_compute. repeat split. Qed.

(** C6 as stated fails for the template of [src/market_analyzer.py]: the
    same overview gives different reports at 09:30 and at 15:00. *)
Lemma template_depends_on_clock :
  outcome (Pkg._generate_template_review (X:=Sample.sectors_up) Sample.overview [])
          (Sample.start Sample.sectors_up Sample.morning_state)
  <> outcome (Pkg._generate_template_review (X:=Sample.sectors_up) Sample.overview [])
             (Sample.start Sample.sectors_up (Sample.mkState 0 Sample.afternoon)).
Proof.
  intros H.
  apply (f_equal (fun r => match r with inr s => str_contains s "09:30" | inl _ => false end)) in H.
  vm_compute in H. discriminate.
Qed.

(** C6, as amended.  The template generators touch nothing outside and
    ignore the news.  The one of [market_analyzer.py] is a function of the
    overview alone; the one of [src/market_analyzer.py] is a function of the
    overview and of the clock reading printed as [HH:MM]: two calls with the
    same overview at the same clock reading return the same report. *)
Theorem template_determinism {X : Externals} (overview : MarketOverview.t)
    (news news' : list SearchResult) (w w' : World) :
  strftime_HM (datetime_now (ext w)) = strftime_HM (datetime_now (ext w')) ->
  Root._generate_template_review overview news = Root._generate_template_review overview news'
  /\ exists report,
       Pkg._generate_template_review overview news w = (inr report, w)
       /\ Pkg._generate_template_review overview news' w' = (inr report, w').
Proof.
  intros Hclock. split; [reflexivity|].
  exists (Pkg.template_text overview (datetime_now (ext w))).
  split; [reflexivity|].
  unfold Pkg._generate_template_review, bind, now, ret, Pkg.template_text.
  rewrite Hclock. reflexivity.
Qed.

Lemma template_determinism_witness :
  Root._generate_template_review Sample.overview []
  = Root._generate_template_review Sample.overview [mkSearchResult "头条" "摘要"]
  /\ exists report,
       Pkg._generate_template_review (X:=Sample.sectors_up) Sample.overview []
         (Sample.start Sample.sectors_up Sample.morning_state)
       = (inr report, Sample.start Sample.sectors_up Sample.morning_state)
       /\ Pkg._generate_template_review (X:=Sample.sectors_up) Sample.overview
            [mkSearchResult "头条" "摘要"]
            (mkWorld (X:=Sample.sectors_up) (Sample.mkState 3 (mkDatetime 2026 1 6 9 30)) [Sleep 5])
          = (inr report,
             mkWorld (X:=Sample.sectors_up) (Sample.mkState 3 (mkDatetime 2026 1 6 9 30)) [Sleep 5]).
Proof.
  apply (@template_determinism Sample.sectors_up Sample.overview [] [mkSearchResult "头条" "摘要"]
           (Sample.start Sample.sectors_up Sample.morning_state)
           (mkWorld (X:=Sample.sectors_up) (Sample.mkState 3 (mkDatetime 2026 1 6 9 30)) [Sleep 5])).
  reflexivity.
Defined.

(* ===================================================================== *)
(** * Provider selection at construction *)
(* ===================================================================== *)

Section ProviderSelection.
Context {X : Externals}.

(** [_init_model] never raises; when no Gemini model can be built it
    returns with [_model = None], having touched only the Gemini SDK. *)
Lemma init_model_without_model (self : GeminiAnalyzer.t) (w : World) :
  (forall name sys, always_raises (genai_GenerativeModel name sys)) ->
  exists w' evs,
    _init_model self w = (inr (set_model self None), w')
    /\ trace w' = (trace w ++ evs)%list
    /\ openai_tried evs = false.
Proof.
  intros Hdown. unfold _init_model.
  destruct (import_genai (ext w)) as [[e|[]] x1] eqn:Himport.
  { eexists. eexists. split; [|split].
    - erewrite catch_raise; [reflexivity|].
      erewrite bind_raise; [reflexivity|]. apply invoke_raise. exact Himport.
    - cbn [trace]. rewrite <- app_assoc. reflexivity.
    - reflexivity. }
  set (w1 := mkWorld x1 (trace w ++ [Invoke "import google.generativeai"])).
  destruct (genai_configure (match _api_key self with Some k => k | None => "" end) (ext w1))
    as [[e|[]] x2] eqn:Hconf.
  { eexists. eexists. split; [|split].
    - erewrite catch_raise; [reflexivity|].
      erewrite bind_ok; [|apply invoke_ok; exact Himport].
      erewrite bind_raise; [reflexivity|]. apply invoke_raise. exact Hconf.
    - cbn [trace]. rewrite <- !app_assoc. reflexivity.
    - reflexivity. }
  set (w2 := mkWorld x2 (trace w1 ++ [Invoke "genai.configure"])).
  destruct (Hdown (gemini_model get_config) SYSTEM_PROMPT (ext w2)) as (e1 & x3 & H1).
  set (w3 := mkWorld x3 ((trace w2 ++ [Invoke "genai.GenerativeModel"])
                         ++ [Log WARNING "主模型初始化失败，尝试备选模型" (Some e1)])).
  destruct (Hdown (gemini_model_fallback get_config) SYSTEM_PROMPT (ext w3)) as (e2 & x4 & H2).
  eexists. eexists. split; [|split].
  - erewrite catch_raise; [reflexivity|].
    erewrite bind_ok; [|apply invoke_ok; exact Himport].
    erewrite bind_ok; [|apply invoke_ok; exact Hconf].
    cbv zeta.
    erewrite catch_raise; [|erewrite bind_raise; [reflexivity|]; apply invoke_raise; exact H1].
    erewrite bind_ok; [|apply log_step].
    erewrite bind_raise; [reflexivity|]. apply invoke_raise. exact H2.
  - cbn [trace w3 w2 w1]. rewrite <- !app_assoc. reflexivity.
  - reflexivity.
Qed.

End ProviderSelection.

(** C7: what the code does where the claim fails.  With a valid Gemini
    key and no Gemini model to be built, [__init__] returns an analyzer
    that is not available and never starts the OpenAI-compatible
    initialization, whatever its configuration. *)
Theorem init_skips_alternate_provider {X : Externals} (w : World) :
  key_valid (gemini_api_key get_config) = true ->
  (forall name sys, always_raises (genai_GenerativeModel name sys)) ->
  exists self w' evs,
    __init__ None w = (inr self, w')
    /\ is_available self = false
    /\ trace w' = (trace w ++ evs)%list
    /\ openai_tried evs = false.
Proof.
  intros Hkey Hdown. unfold __init__. cbv zeta. rewrite Hkey.
  set (self0 := GeminiAnalyzer.mk (gemini_api_key get_config) None None false false None).
  destruct (init_model_without_model self0 w Hdown) as (w1 & evs & Hrun & Htr & Hno).
  eexists. eexists. exists (evs ++ [Log WARNING "未配置任何 AI API Key，AI 分析功能将不可用" None])%list.
  split; [|split; [|split]].
  - erewrite bind_ok; [|apply catch_ok; exact Hrun].
    cbn [is_available set_model _model _openai_client self0 negb].
    erewrite bind_ok; [|apply log_step]. reflexivity.
  - reflexivity.
  - cbn [trace]. rewrite Htr, app_assoc. reflexivity.
  - unfold openai_tried in *. rewrite existsb_app, Hno. reflexivity.
Qed.

Lemma init_skips_alternate_provider_witness :
  exists self w' evs,
    __init__ (X:=Sample.sectors_down) None (Sample.start Sample.sectors_down Sample.morning_state)
    = (inr self, w')
    /\ is_available self = false
    /\ trace w' = (trace (Sample.start Sample.sectors_down Sample.morning_state) ++ evs)%list
    /\ openai_tried evs = false.
Proof.
  apply (@init_skips_alternate_provider Sample.sectors_down
           (Sample.start Sample.sectors_down Sample.morning_state)).
  - reflexivity.
  - intros name sys x. exists Sample.throttled, x. reflexivity.
Defined.

(** In the sample world the OpenAI-compatible API is configured and its
    client can be built: [_init_openai_fallback], had it been called, would
    have made the analyzer available; [__init__] leaves it unavailable and
    calls the Gemini SDK only. *)
Example sample_construction :
  (match outcome (_init_openai_fallback (X:=Sample.sectors_down)
                    (GeminiAnalyzer.mk (Some "AIzaSy-sample-key-000001") None None false false None))
           (Sample.start Sample.sectors_down Sample.morning_state) with
   | inr self => is_available self = true /\ _use_openai self = true
   | inl _ => False
   end)
  /\
  (match outcome (__init__ (X:=Sample.sectors_down) None)
           (Sample.start Sample.sectors_down Sample.morning_state) with
   | inr self => is_available self = false
   | inl _ => False
   end)
  /\
  filter is_invoke
    (trace (world_after (__init__ (X:=Sample.sectors_down) None)
              (Sample.start Sample.sectors_down Sample.morning_state)))
  = [Invoke "import google.generativeai"; Invoke "genai.configure";
     Invoke "genai.GenerativeModel"; Invoke "genai.GenerativeModel"].
Proof. vm_compute. repeat split. Qed.

(* ===================================================================== *)
(** * Report generation *)
(* ===================================================================== *)

Section ReportGeneration.
Context {X : Externals}.

Variable class_attributes : list string.
Variable _build_review_prompt : MarketOverview.t -> list SearchResult -> M string.
Variable _generate_template_review : MarketOverview.t -> list SearchResult -> M string.

Hypothesis binds_template :
  existsb (String.eqb "_generate_template_review") class_attributes = true.
Hypothesis binds_prompt :
  existsb (String.eqb "_build_review_prompt") class_attributes = true.
Hypothesis prompt_total : forall overview news, never_raises (_build_review_prompt overview news).
Hypothesis template_total :
  forall overview news, yields_report (_generate_template_review overview news).

Lemma template_review_yields overview news :
  yields_report (template_review class_attributes _generate_template_review overview news).
Proof.
  intros w. unfold template_review, getattr_self. rewrite binds_template.
  destruct (template_total overview news w) as (s & w' & Hrun & Hs).
  exists s, w'. split; [|exact Hs].
  rewrite (@bind_ok _ _ _ (ret _generate_template_review) _ w _ w eq_refl). exact Hrun.
Qed.

Lemma log_then_template lvl subject err overview news :
  yields_report (log lvl subject err ;;
                 template_review class_attributes _generate_template_review overview news).
Proof.
  intros w.
  destruct (template_review_yields overview news
              (mkWorld (ext w) (trace w ++ [Log lvl subject err]))) as (s & w' & Hrun & Hs).
  exists s, w'. split; [|exact Hs]. erewrite bind_ok; [|apply log_step]. exact Hrun.
Qed.

(** Where the class binds both helper names, they return, and the template
    is never empty, [generate_market_review] returns non-empty text for
    every analyzer, overview and news, whatever the providers do. *)
Lemma generate_market_review_yields (self : MarketAnalyzer) overview news :
  yields_report (generate_market_review class_attributes _build_review_prompt
                   _generate_template_review self overview news).
Proof.
  unfold generate_market_review.
  destruct (analyzer self) as [llm|]; [|apply log_then_template].
  destruct (negb (is_available llm)); [apply log_then_template|].
  intros w. unfold getattr_self. rewrite binds_prompt.
  rewrite (@bind_ok _ _ _ (ret _build_review_prompt) _ w _ w eq_refl).
  destruct (prompt_total overview news w) as (prompt & w1 & Hp).
  rewrite (bind_ok _ Hp).
  match goal with |- context [catch ?body ?h] => set (c := body); set (handler := h) end.
  destruct (c w1) as [[e|s] w2] eqn:Hc.
  - destruct (@log_then_template ERROR "[大盘] 大模型生成复盘报告失败" (Some e) overview news w2)
      as (s & w3 & Hrun & Hs).
    exists s, w3. split; [|exact Hs]. rewrite (catch_raise _ Hc). exact Hrun.
  - exists s, w2. split; [apply catch_ok; exact Hc|].
    unfold c in Hc. unfold bind at 1 in Hc. rewrite log_step in Hc.
    unfold bind at 1 in Hc.
    match type of Hc with
    | context [match ?r ?w0 with _ => _ end] => destruct (r w0) as [[e|review] w3]
    end; [discriminate|].
    destruct review as [r|].
    + destruct (nonempty r) eqn:Hr.
      * unfold bind, log, emit, ret in Hc. cbn in Hc. inversion Hc; subst. exact Hr.
      * destruct (@log_then_template WARNING "[大盘] 大模型返回为空" None overview news w3)
          as (s' & w4 & Hrun & Hs).
        rewrite Hrun in Hc. inversion Hc; subst. exact Hs.
    + destruct (@log_then_template WARNING "[大盘] 大模型返回为空" None overview news w3)
        as (s' & w4 & Hrun & Hs).
      rewrite Hrun in Hc. inversion Hc; subst. exact Hs.
Qed.

End ReportGeneration.

(** The template of [src/market_analyzer.py] is a method of the class
    and its text is never empty: there [generate_market_review] returns
    non-empty text whenever the prompt builder returns. *)
Lemma Pkg_generate_market_review_yields {X : Externals}
    (_build_review_prompt : MarketOverview.t -> list SearchResult -> M string)
    (self : MarketAnalyzer) (overview : MarketOverview.t) (news : list SearchResult) :
  (forall overview news, never_raises (_build_review_prompt overview news)) ->
  yields_report (generate_market_review Pkg.class_attributes _build_review_prompt
                   Pkg._generate_template_review self overview news).
Proof.
  intros Hprompt. apply generate_market_review_yields; try reflexivity; [exact Hprompt|].
  intros o n w. eexists. eexists. split; reflexivity.
Qed.

(** The text of the template of [market_analyzer.py] is never empty either. *)
Lemma Root_template_nonempty (overview : MarketOverview.t) (news : list SearchResult) :
  nonempty (Root._generate_template_review overview news) = true.
Proof. reflexivity. Qed.

Section WithoutTemplate.
Context {X : Externals}.

Variable class_attributes : list string.
Variable _build_review_prompt : MarketOverview.t -> list SearchResult -> M string.
Variable _generate_template_review : MarketOverview.t -> list SearchResult -> M string.

Hypothesis template_unbound :
  existsb (String.eqb "_generate_template_review") class_attributes = false.

Lemma template_review_raises overview news w :
  template_review class_attributes _generate_template_review overview news w
  = (inl no_template_attribute, w).
Proof. unfold template_review, getattr_self. rewrite template_unbound. reflexivity. Qed.

Lemma log_then_template_raises lvl subject err overview news w :
  outcome (log lvl subject err ;;
           template_review class_attributes _generate_template_review overview news) w
  = inl no_template_attribute.
Proof.
  unfold outcome. erewrite bind_ok; [|apply log_step].
  rewrite template_review_raises. reflexivity.
Qed.

(** Where the class does not bind the template, [generate_market_review]
    either returns the non-empty text of an available analyzer or raises
    [AttributeError]; without a provider it raises. *)
Lemma generate_market_review_without_template (self : MarketAnalyzer) overview news w :
  let r := outcome (generate_market_review class_attributes _build_review_prompt
                      _generate_template_review self overview news) w in
  (no_provider self -> r = inl no_template_attribute)
  /\ (forall s, r = inr s -> nonempty s = true /\ ~ no_provider self)
  /\ (forall e, r = inl e ->
        e = no_template_attribute
        \/ existsb (String.eqb "_build_review_prompt") class_attributes = false
        \/ exists w0, outcome (_build_review_prompt overview news) w0 = inl e).
Proof.
  cbv zeta. unfold generate_market_review, no_provider.
  destruct (analyzer self) as [llm|].
  2:{ rewrite log_then_template_raises. repeat split; try discriminate.
      intros e H. inversion H. left. reflexivity. }
  destruct (is_available llm) eqn:Hav; cbn [negb].
  2:{ rewrite log_then_template_raises. repeat split; try discriminate.
      intros e H. inversion H. left. reflexivity. }
  split; [discriminate|].
  unfold outcome, getattr_self.
  destruct (existsb (String.eqb "_build_review_prompt") class_attributes) eqn:Hb.
  2:{ cbn. split; [discriminate|]. intros e H. right. left. reflexivity. }
  rewrite (@bind_ok _ _ _ (ret _build_review_prompt) _ w _ w eq_refl).
  destruct (_build_review_prompt overview news w) as [[e|prompt] w1] eqn:Hp.
  { rewrite (bind_raise _ Hp). cbn [fst]. split; [discriminate|].
    intros e' H. inversion H; subst. right. right. exists w. unfold outcome. rewrite Hp.
    reflexivity. }
  rewrite (bind_ok _ Hp).
  match goal with |- context [catch ?body ?h] => set (c := body); set (handler := h) end.
  destruct (c w1) as [[e|s] w2] eqn:Hc.
  - rewrite (catch_raise _ Hc). unfold handler.
    fold (outcome (log ERROR "[大盘] 大模型生成复盘报告失败" (Some e) ;;
                   template_review class_attributes _generate_template_review overview news) w2).
    rewrite log_then_template_raises. split; [discriminate|].
    intros e' H. inversion H. left. reflexivity.
  - rewrite (catch_ok _ Hc). cbn [fst]. split; [|discriminate].
    intros s' H. inversion H; subst s'. split; [|congruence].
    unfold c in Hc. unfold bind at 1 in Hc. rewrite log_step in Hc.
    unfold bind at 1 in Hc.
    match type of Hc with
    | context [match ?r ?w0 with _ => _ end] => destruct (r w0) as [[e|review] w3]
    end; [discriminate|].
    destruct review as [r|].
    + destruct (nonempty r) eqn:Hr.
      * unfold bind, log, emit, ret in Hc. cbn in Hc. inversion Hc; subst. exact Hr.
      * unfold bind at 1 in Hc. rewrite log_step in Hc.
        rewrite template_review_raises in Hc. discriminate.
    + unfold bind at 1 in Hc. rewrite log_step in Hc.
      rewrite template_review_raises in Hc. discriminate.
Qed.

End WithoutTemplate.

(** C1: what the code of [market_analyzer.py] does where the claim fails.
    [_generate_template_review] is not an attribute of the class: with no
    provider configured [generate_market_review] raises [AttributeError] for
    every overview and news list; with a provider it returns the provider's
    non-empty text or raises that same error, whenever the call raised or
    came back empty. *)
Theorem root_template_fallback_unreachable {X : Externals} (self : MarketAnalyzer)
    (overview : MarketOverview.t) (news : list SearchResult) (w : World) :
  (no_provider self ->
   outcome (Root_generate_market_review self overview news) w = inl no_template_attribute)
  /\ (forall s, outcome (Root_generate_market_review self overview news) w = inr s ->
                nonempty s = true /\ ~ no_provider self)
  /\ (forall e, outcome (Root_generate_market_review self overview news) w = inl e ->
                e = no_template_attribute).
Proof.
  destruct (@generate_market_review_without_template X Root.class_attributes
              (fun overview news => ret (Root._build_review_prompt overview news))
              (fun overview news => ret (Root._generate_template_review overview news))
              eq_refl self overview news w) as (H1 & H2 & H3).
  split; [exact H1|]. split; [exact H2|].
  intros e He. destruct (H3 e He) as [H|[H|(w0 & H)]]; [exact H|discriminate H|discriminate H].
Qed.

Lemma root_template_fallback_unreachable_witness :
  outcome (Root_generate_market_review (X:=Sample.sectors_down) (mkMarketAnalyzer None)
             Sample.overview [])
          (Sample.start Sample.sectors_down Sample.morning_state)
  = inl no_template_attribute.
Proof.
  apply (@root_template_fallback_unreachable Sample.sectors_down (mkMarketAnalyzer None)
           Sample.overview [] (Sample.start Sample.sectors_down Sample.morning_state)).
  exact I.
Defined.

(** The same when a provider is configured and fails: in the sample
    world the completion endpoint is throttled, the three attempts are
    made, and the fallback raises. *)
Example sample_fallback_after_provider_failure :
  outcome (Root_generate_market_review (X:=Sample.sectors_down)
             (mkMarketAnalyzer (Some Sample.openai_analyzer)) Sample.overview [])
          (Sample.start Sample.sectors_down Sample.morning_state)
  = inl no_template_attribute
  /\
  calls (trace (world_after
                  (Root_generate_market_review (X:=Sample.sectors_down)
                     (mkMarketAnalyzer (Some Sample.openai_analyzer)) Sample.overview [])
                  (Sample.start Sample.sectors_down Sample.morning_state))) = 3.
Proof. split; vm_compute; reflexivity. Qed.

(* ===================================================================== *)
(** * The market data path: what every run does *)
(* ===================================================================== *)

Lemma slept_app (a b : list event) : slept (a ++ b) = slept a + slept b.
Proof.
  induction a as [|ev a IH]; [reflexivity|].
  cbn [app slept fold_right]. fold (slept (a ++ b)). fold (slept a).
  rewrite IH. destruct ev; lia.
Qed.

Lemma calls_nonneg (evs : list event) : 0 <= calls evs.
Proof. unfold calls. lia. Qed.

Section Cost.
Context {X : Externals}.

Lemma within_weaken {A} (n s n' s' : Z) (c : M A) :
  within n s c -> n <= n' -> s <= s' -> within n' s' c.
Proof.
  intros Hc Hn Hs w. destruct (Hc w) as (evs & Ht & H1 & H2).
  exists evs. repeat split; [exact Ht|lia|lia].
Qed.

Lemma within_ret {A} (a : A) : within 0 0 (ret a).
Proof. intros w. exists []. cbn. rewrite app_nil_r. repeat split; reflexivity || lia. Qed.

Lemma within_raise {A} (e : exn) : within 0 0 (@raise _ A e).
Proof. intros w. exists []. cbn. rewrite app_nil_r. repeat split; reflexivity || lia. Qed.

Lemma within_log lvl subject err : within 0 0 (log lvl subject err).
Proof. intros w. exists [Log lvl subject err]. cbn. repeat split; reflexivity || lia. Qed.

Lemma within_now : within 0 0 now.
Proof. intros w. exists []. cbn. rewrite app_nil_r. repeat split; reflexivity || lia. Qed.

Lemma within_invoke {A} name (op : Op Ext A) : within 1 0 (invoke name op).
Proof.
  intros w. exists [Invoke name]. unfold world_after, invoke.
  destruct (op (ext w)) as [r x']. cbn. repeat split; reflexivity || lia.
Qed.

Lemma within_sleep (d cap : Z) : d <= cap -> 0 <= cap -> within 0 cap (sleep d).
Proof.
  intros Hd Hc w. unfold world_after, sleep. destruct (d <? 0).
  - exists []. cbn. rewrite app_nil_r. repeat split; reflexivity || lia.
  - exists [Sleep d]. cbn. repeat split; reflexivity || lia.
Qed.

Lemma within_bind {A B} (n1 s1 n2 s2 : Z) (c : M A) (k : A -> M B) :
  within n1 s1 c -> (forall a, within n2 s2 (k a)) -> 0 <= n2 -> 0 <= s2 ->
  within (n1 + n2) (s1 + s2) (bind c k).
Proof.
  intros Hc Hk Hn Hs w. destruct (Hc w) as (evs1 & Ht1 & Hc1 & Hs1).
  unfold world_after, bind in *. destruct (c w) as [[e|a] w1]; cbn [snd] in *.
  - exists evs1. repeat split; [exact Ht1|lia|lia].
  - destruct (Hk a w1) as (evs2 & Ht2 & Hc2 & Hs2). unfold world_after in Ht2.
    exists (evs1 ++ evs2)%list. rewrite Ht2, Ht1, app_assoc, calls_app, slept_app.
    split; [reflexivity|split; lia].
Qed.

Lemma within_catch {A} (n1 s1 n2 s2 : Z) (c : M A) (h : exn -> M A) :
  within n1 s1 c -> (forall e, within n2 s2 (h e)) -> 0 <= n2 -> 0 <= s2 ->
  within (n1 + n2) (s1 + s2) (catch c h).
Proof.
  intros Hc Hh Hn Hs w. destruct (Hc w) as (evs1 & Ht1 & Hc1 & Hs1).
  unfold world_after, catch in *. destruct (c w) as [[e|a] w1]; cbn [snd] in *.
  - destruct (Hh e w1) as (evs2 & Ht2 & Hc2 & Hs2). unfold world_after in Ht2.
    exists (evs1 ++ evs2)%list. rewrite Ht2, Ht1, app_assoc, calls_app, slept_app.
    split; [reflexivity|split; lia].
  - exists evs1. repeat split; [exact Ht1|lia|lia].
Qed.

(** A step that only logs and returns. *)
Lemma within_log_ret {A} lvl subject err (a : A) : within 0 0 (log lvl subject err ;; ret a).
Proof.
  apply (@within_bind _ _ 0 0 0 0); [apply within_log|intros; apply within_ret|lia|lia].
Qed.

(** Sleeps of the data-fetch loop: at most 5 seconds before each retry. *)
Lemma akshare_events_slept name attempts errs :
  forall attempt ok last,
    slept (akshare_events name attempts attempt errs ok last)
    <= 5 * Z.max 0 (attempts - attempt).
Proof.
  induction errs as [|e rest IH]; intros attempt ok last.
  - destruct ok; cbn [akshare_events slept fold_right]; lia.
  - cbn [akshare_events]. rewrite !slept_app. specialize (IH (attempt + 1) ok (Some e)).
    destruct (attempt <? attempts) eqn:E.
    + apply Z.ltb_lt in E. cbn [slept fold_right].
      assert (Z.min (2 ^ attempt) 5 <= 5) by apply Z.le_min_r. lia.
    + apply Z.ltb_ge in E. cbn [slept fold_right]. lia.
Qed.

(** The wrapper calls the operation at most [attempts] times and sleeps
    at most 5 seconds before each retry. *)
Lemma fetch_bounded {A} (fn : Op Ext A) name attempts :
  within (Z.max 0 attempts) (5 * Z.max 0 (attempts - 1))
    (_call_akshare_with_retry fn name attempts).
Proof.
  intros w.
  destruct (akshare_run fn name attempts (Z.to_nat attempts) 1 None w)
    as (errs & ok & r & w' & Hrun & Htr & Hres & _).
  unfold world_after, _call_akshare_with_retry. rewrite Hrun. cbn [snd].
  exists (akshare_events name attempts 1 errs ok None). split; [exact Htr|]. split.
  - rewrite akshare_events_calls. destruct ok; destruct Hres as [Hlen _]; lia.
  - apply akshare_events_slept.
Qed.

Variable fetch_attempts : Z.

Lemma main_indices_bounded :
  within (Z.max 0 fetch_attempts) (5 * Z.max 0 (fetch_attempts - 1))
    (_get_main_indices fetch_attempts).
Proof.
  unfold _get_main_indices.
  replace (Z.max 0 fetch_attempts) with (0 + Z.max 0 fetch_attempts + 0 + 0) by lia.
  replace (5 * Z.max 0 (fetch_attempts - 1))
    with (0 + 5 * Z.max 0 (fetch_attempts - 1) + 0 + 0) by lia.
  apply within_catch; [|intros; apply within_log_ret|lia|lia].
  rewrite <- !Z.add_assoc.
  apply within_bind; [apply within_log| |lia|lia]. intros _.
  apply within_bind; [apply fetch_bounded| |lia|lia]. intros [df|]; [|apply within_ret].
  destruct (negb (empty df)); [|apply within_ret].
  destruct (collect_indices df MAIN_INDICES []) as [indices [e|]]; apply within_log_ret.
Qed.

Lemma market_statistics_bounded overview :
  within (Z.max 0 fetch_attempts) (5 * Z.max 0 (fetch_attempts - 1))
    (_get_market_statistics fetch_attempts overview).
Proof.
  unfold _get_market_statistics.
  replace (Z.max 0 fetch_attempts) with (0 + Z.max 0 fetch_attempts + 0 + 0) by lia.
  replace (5 * Z.max 0 (fetch_attempts - 1))
    with (0 + 5 * Z.max 0 (fetch_attempts - 1) + 0 + 0) by lia.
  apply within_catch; [|intros; apply within_log_ret|lia|lia].
  rewrite <- !Z.add_assoc.
  apply within_bind; [apply within_log| |lia|lia]. intros _.
  apply within_bind; [apply fetch_bounded| |lia|lia]. intros [df|]; [|apply within_ret].
  destruct (negb (empty df)); [|apply within_ret].
  apply within_log_ret.
Qed.

Lemma sector_rankings_bounded overview :
  within (Z.max 0 fetch_attempts) (5 * Z.max 0 (fetch_attempts - 1))
    (_get_sector_rankings fetch_attempts overview).
Proof.
  unfold _get_sector_rankings.
  replace (Z.max 0 fetch_attempts) with (0 + Z.max 0 fetch_attempts + 0 + 0) by lia.
  replace (5 * Z.max 0 (fetch_attempts - 1))
    with (0 + 5 * Z.max 0 (fetch_attempts - 1) + 0 + 0) by lia.
  apply within_catch; [|intros; apply within_log_ret|lia|lia].
  rewrite <- !Z.add_assoc.
  apply within_bind; [apply within_log| |lia|lia]. intros _.
  apply within_bind; [apply fetch_bounded| |lia|lia]. intros [df|]; [|apply within_ret].
  destruct (negb (empty df) && has_column df col_change_pct); [|apply within_ret].
  destruct (sector_entries df (nlargest 5 (numeric_sector_rows df))) as [e|top];
    [apply within_log_ret|].
  destruct (sector_entries df (nsmallest 5 (numeric_sector_rows df))) as [e|bottom];
    [apply within_log_ret|].
  replace 0 with (0 + 0) by lia.
  apply within_bind; [apply within_log|intros; apply within_log_ret|lia|lia].
Qed.

Lemma market_overview_bounded :
  within (3 * Z.max 0 fetch_attempts) (15 * Z.max 0 (fetch_attempts - 1))
    (get_market_overview fetch_attempts).
Proof.
  unfold get_market_overview.
  replace (3 * Z.max 0 fetch_attempts)
    with (0 + (Z.max 0 fetch_attempts + (Z.max 0 fetch_attempts
               + (Z.max 0 fetch_attempts + 0)))) by lia.
  replace (15 * Z.max 0 (fetch_attempts - 1))
    with (0 + (5 * Z.max 0 (fetch_attempts - 1) + (5 * Z.max 0 (fetch_attempts - 1)
               + (5 * Z.max 0 (fetch_attempts - 1) + 0)))) by lia.
  apply within_bind; [apply within_now| |lia|lia]. intros today.
  apply within_bind; [apply main_indices_bounded| |lia|lia]. intros indices.
  apply within_bind; [apply market_statistics_bounded| |lia|lia]. intros ov1.
  apply within_bind; [apply sector_rankings_bounded|intros; apply within_ret|lia|lia].
Qed.

(** The sector step writes the two sector lists only. *)
Lemma sector_rankings_keeps overview w ov w' :
  _get_sector_rankings fetch_attempts overview w = (inr ov, w') ->
  MarketOverview.date ov = MarketOverview.date overview
  /\ MarketOverview.indices ov = MarketOverview.indices overview
  /\ MarketOverview.up_count ov = MarketOverview.up_count overview
  /\ MarketOverview.down_count ov = MarketOverview.down_count overview
  /\ MarketOverview.flat_count ov = MarketOverview.flat_count overview
  /\ MarketOverview.limit_up_count ov = MarketOverview.limit_up_count overview
  /\ MarketOverview.limit_down_count ov = MarketOverview.limit_down_count overview
  /\ MarketOverview.total_amount ov = MarketOverview.total_amount overview
  /\ MarketOverview.north_flow ov = MarketOverview.north_flow overview.
Proof.
  unfold _get_sector_rankings, catch, bind at 1. rewrite log_step.
  destruct (@fetch_total _ _ stock_board_industry_name_em "行业板块行情" fetch_attempts
              (mkWorld (ext w) (trace w ++ [Log INFO "[大盘] 获取板块涨跌榜..." None])))
    as (r & w1 & Hrun).
  rewrite (bind_ok _ Hrun). cbv beta iota.
  destruct r as [df|]; [|intros H; inversion H; subst; repeat split].
  destruct (negb (empty df) && has_column df col_change_pct);
    [|intros H; inversion H; subst; repeat split].
  destruct (sector_entries df (nlargest 5 (numeric_sector_rows df))) as [e|top];
    [intros H; inversion H; subst; repeat split|].
  destruct (sector_entries df (nsmallest 5 (numeric_sector_rows df))) as [e|bottom];
    intros H; inversion H; subst; repeat split.
Qed.

Lemma market_statistics_keeps_flow overview w ov w' :
  _get_market_statistics fetch_attempts overview w = (inr ov, w') ->
  MarketOverview.north_flow ov = MarketOverview.north_flow overview.
Proof.
  unfold _get_market_statistics, catch, bind at 1. rewrite log_step.
  destruct (@fetch_total _ _ stock_zh_a_spot_em "A股实时行情" fetch_attempts
              (mkWorld (ext w) (trace w ++ [Log INFO "[大盘] 获取市场涨跌统计..." None])))
    as (r & w1 & Hrun).
  rewrite (bind_ok _ Hrun). cbv beta iota.
  destruct r as [df|]; [|intros H; inversion H; subst; auto].
  destruct (negb (empty df)); [|intros H; inversion H; subst; auto].
  unfold with_total_amount, with_breadth.
  destruct (has_column df col_amount), (has_column df col_change_pct);
    intros H; inversion H; subst; auto.
Qed.

End Cost.

(** X1 ([get_market_overview]).  Whatever the three data sources do, the
    overview is returned and no exception escapes; each source is called at
    most [fetch_attempts] times (three times that in all) and at most 5
    seconds are slept before each retry.  The date of the overview is the
    day of the clock and its north flow stays at zero: nothing fills it. *)
Theorem market_overview_returns {X : Externals} (fetch_attempts : Z) (w : World) :
  exists ov w' evs,
    get_market_overview fetch_attempts w = (inr ov, w')
    /\ trace w' = (trace w ++ evs)%list
    /\ calls evs <= 3 * Z.max 0 fetch_attempts
    /\ slept evs <= 15 * Z.max 0 (fetch_attempts - 1)
    /\ MarketOverview.date ov = strftime_Ymd (datetime_now (ext w))
    /\ MarketOverview.north_flow ov = zero.
Proof.
  destruct (market_overview_bounded fetch_attempts w) as (evs & Htr & Hc & Hs).
  unfold world_after in Htr. unfold get_market_overview in *.
  rewrite (@bind_ok _ _ _ now _ w (datetime_now (ext w)) w eq_refl) in *.
  destruct (@main_indices_total X fetch_attempts w) as (indices & w1 & H1).
  rewrite (bind_ok _ H1) in *.
  set (ov0 := MarketOverview.set_indices
                (MarketOverview.init (strftime_Ymd (datetime_now (ext w)))) indices) in *.
  destruct (@market_statistics_total X fetch_attempts ov0 w1) as (ov1 & w2 & H2).
  rewrite (bind_ok _ H2) in *.
  destruct (@sector_rankings_total X fetch_attempts ov1 w2) as (ov2 & w3 & H3).
  rewrite (bind_ok _ H3) in *. cbn [snd ret] in Htr.
  exists ov2, w3, evs. split; [reflexivity|]. split; [exact Htr|].
  split; [exact Hc|]. split; [exact Hs|].
  destruct (@sector_rankings_keeps X fetch_attempts ov1 w2 ov2 w3 H3) as (D3 & _ & _ & _ & _ & _ & _ & _ & N3).
  destruct (@market_statistics_keeps X fetch_attempts ov0 w1 ov1 w2 H2) as (D2 & _).
  pose proof (@market_statistics_keeps_flow X fetch_attempts ov0 w1 ov1 w2 H2) as N2.
  rewrite D3, D2, N3, N2. split; reflexivity.
Qed.

Section AllDown.
Context {X : Externals}.
Variable fetch_attempts : Z.

(** The wrapper on an operation that is down: [None] after exactly
    [attempts] calls. *)
Lemma fetch_down_run {A} (fn : Op Ext A) name attempts w :
  always_raises fn ->
  exists w' evs,
    _call_akshare_with_retry fn name attempts w = (inr None, w')
    /\ trace w' = (trace w ++ evs)%list
    /\ calls evs = Z.max 0 attempts.
Proof.
  intros Hfn.
  destruct (akshare_run fn name attempts (Z.to_nat attempts) 1 None w)
    as (errs & ok & r & w' & Hrun & Htr & Hres & Hall & _).
  rewrite (Hall Hfn) in *. destruct Hres as [Hlen ->].
  exists w', (akshare_events name attempts 1 errs false None).
  split; [exact Hrun|]. split; [exact Htr|].
  rewrite akshare_events_calls, Hlen. lia.
Qed.

Lemma main_indices_down w :
  always_raises stock_zh_index_spot_sina ->
  exists w' evs,
    _get_main_indices fetch_attempts w = (inr [], w')
    /\ trace w' = (trace w ++ evs)%list /\ calls evs = Z.max 0 fetch_attempts.
Proof.
  intros Hdown. unfold _get_main_indices.
  destruct (@fetch_down_run _ stock_zh_index_spot_sina "指数行情" fetch_attempts
              (mkWorld (ext w) (trace w ++ [Log INFO "[大盘] 获取主要指数实时行情..." None])) Hdown)
    as (w1 & evs & Hrun & Htr & Hc).
  exists w1, (Log INFO "[大盘] 获取主要指数实时行情..." None :: evs). split; [|split].
  - apply catch_ok. rewrite (bind_ok _ (log_step _ _ _ w)). rewrite (bind_ok _ Hrun). reflexivity.
  - rewrite Htr. cbn [trace]. rewrite <- app_assoc. reflexivity.
  - rewrite <- Hc. reflexivity.
Qed.

Lemma market_statistics_down overview w :
  always_raises stock_zh_a_spot_em ->
  exists w' evs,
    _get_market_statistics fetch_attempts overview w = (inr overview, w')
    /\ trace w' = (trace w ++ evs)%list /\ calls evs = Z.max 0 fetch_attempts.
Proof.
  intros Hdown. unfold _get_market_statistics.
  destruct (@fetch_down_run _ stock_zh_a_spot_em "A股实时行情" fetch_attempts
              (mkWorld (ext w) (trace w ++ [Log INFO "[大盘] 获取市场涨跌统计..." None])) Hdown)
    as (w1 & evs & Hrun & Htr & Hc).
  exists w1, (Log INFO "[大盘] 获取市场涨跌统计..." None :: evs). split; [|split].
  - apply catch_ok. rewrite (bind_ok _ (log_step _ _ _ w)). rewrite (bind_ok _ Hrun). reflexivity.
  - rewrite Htr. cbn [trace]. rewrite <- app_assoc. reflexivity.
  - rewrite <- Hc. reflexivity.
Qed.

Lemma sector_rankings_down_run overview w :
  always_raises stock_board_industry_name_em ->
  exists w' evs,
    _get_sector_rankings fetch_attempts overview w = (inr overview, w')
    /\ trace w' = (trace w ++ evs)%list /\ calls evs = Z.max 0 fetch_attempts.
Proof.
  intros Hdown. unfold _get_sector_rankings.
  destruct (@fetch_down_run _ stock_board_industry_name_em "行业板块行情" fetch_attempts
              (mkWorld (ext w) (trace w ++ [Log INFO "[大盘] 获取板块涨跌榜..." None])) Hdown)
    as (w1 & evs & Hrun & Htr & Hc).
  exists w1, (Log INFO "[大盘] 获取板块涨跌榜..." None :: evs). split; [|split].
  - apply catch_ok. rewrite (bind_ok _ (log_step _ _ _ w)). rewrite (bind_ok _ Hrun). reflexivity.
  - rewrite Htr. cbn [trace]. rewrite <- app_assoc. reflexivity.
  - rewrite <- Hc. reflexivity.
Qed.

End AllDown.

(** X2 ([get_market_overview]).  When every call of all three sources
    raises, the overview returned is the empty one of the day (no index,
    all counts zero, no sector), after exactly [fetch_attempts] calls of each
    source. *)
Theorem market_overview_all_down {X : Externals} (fetch_attempts : Z) (w : World) :
  always_raises stock_zh_index_spot_sina ->
  always_raises stock_zh_a_spot_em ->
  always_raises stock_board_industry_name_em ->
  exists w' evs,
    get_market_overview fetch_attempts w
    = (inr (MarketOverview.init (strftime_Ymd (datetime_now (ext w)))), w')
    /\ trace w' = (trace w ++ evs)%list
    /\ calls evs = 3 * Z.max 0 fetch_attempts.
Proof.
  intros Hi Hs Hb. unfold get_market_overview.
  rewrite (@bind_ok _ _ _ now _ w (datetime_now (ext w)) w eq_refl).
  destruct (@main_indices_down X fetch_attempts w Hi) as (w1 & evs1 & H1 & T1 & C1).
  rewrite (bind_ok _ H1).
  change (MarketOverview.set_indices (MarketOverview.init (strftime_Ymd (datetime_now (ext w)))) [])
    with (MarketOverview.init (strftime_Ymd (datetime_now (ext w)))).
  set (ov := MarketOverview.init (strftime_Ymd (datetime_now (ext w)))).
  destruct (@market_statistics_down X fetch_attempts ov w1 Hs) as (w2 & evs2 & H2 & T2 & C2).
  rewrite (bind_ok _ H2).
  destruct (@sector_rankings_down_run X fetch_attempts ov w2 Hb) as (w3 & evs3 & H3 & T3 & C3).
  rewrite (bind_ok _ H3).
  exists w3, (evs1 ++ evs2 ++ evs3)%list. split; [reflexivity|]. split.
  - rewrite T3, T2, T1, <- !app_assoc. reflexivity.
  - rewrite !calls_app. lia.
Qed.

Lemma market_overview_all_down_witness :
  exists w' evs,
    get_market_overview (X:=SampleMarket.outage) 2 (Sample.start SampleMarket.outage Sample.morning_state)
    = (inr (MarketOverview.init "2026-01-05"), w')
    /\ trace w' = (trace (Sample.start SampleMarket.outage Sample.morning_state) ++ evs)%list
    /\ calls evs = 3 * Z.max 0 2.
Proof.
  apply (@market_overview_all_down SampleMarket.outage 2
           (Sample.start SampleMarket.outage Sample.morning_state)).
  - intros x. exists Sample.throttled, x. reflexivity.
  - intros x. exists Sample.throttled, x. reflexivity.
  - intros x. exists Sample.throttled, x. reflexivity.
Defined.

(** X3 ([_get_market_statistics], [_get_sector_rankings]).  Neither step
    raises, and each writes only its own fields: the statistics step leaves
    the date, the indices, the north flow and the two sector lists as they
    were; the sector step leaves the date, the indices, the five counts,
    the total amount and the north flow as they were. *)
Theorem fetch_steps_independent {X : Externals} (fetch_attempts : Z)
    (overview : MarketOverview.t) (w : World) :
  match outcome (_get_market_statistics fetch_attempts overview) w with
  | inr ov =>
      MarketOverview.date ov = MarketOverview.date overview
      /\ MarketOverview.indices ov = MarketOverview.indices overview
      /\ MarketOverview.north_flow ov = MarketOverview.north_flow overview
      /\ MarketOverview.top_sectors ov = MarketOverview.top_sectors overview
      /\ MarketOverview.bottom_sectors ov = MarketOverview.bottom_sectors overview
  | inl _ => False
  end
  /\
  match outcome (_get_sector_rankings fetch_attempts overview) w with
  | inr ov =>
      MarketOverview.date ov = MarketOverview.date overview
      /\ MarketOverview.indices ov = MarketOverview.indices overview
      /\ MarketOverview.up_count ov = MarketOverview.up_count overview
      /\ MarketOverview.down_count ov = MarketOverview.down_count overview
      /\ MarketOverview.flat_count ov = MarketOverview.flat_count overview
      /\ MarketOverview.limit_up_count ov = MarketOverview.limit_up_count overview
      /\ MarketOverview.limit_down_count ov = MarketOverview.limit_down_count overview
      /\ MarketOverview.total_amount ov = MarketOverview.total_amount overview
      /\ MarketOverview.north_flow ov = MarketOverview.north_flow overview
  | inl _ => False
  end.
Proof.
  split; unfold outcome.
  - destruct (@market_statistics_total X fetch_attempts overview w) as (ov & w' & H).
    rewrite H. cbn [fst].
    destruct (@market_statistics_keeps X fetch_attempts overview w ov w' H) as (D & I & T & B).
    pose proof (@market_statistics_keeps_flow X fetch_attempts overview w ov w' H) as N.
    auto.
  - destruct (@sector_rankings_total X fetch_attempts overview w) as (ov & w' & H).
    rewrite H. cbn [fst].
    exact (@sector_rankings_keeps X fetch_attempts overview w ov w' H).
Qed.

(** ** Breadth counts partition the rows *)

Lemma of_Z_0 : of_Z 0 = zero.
Proof. vm_compute. reflexivity. Qed.

(** A change is rising, falling, unchanged or not a number, and only one of them. *)
Lemma sign_classes (x : float) :
  (if gtb x (of_Z 0) then 1 else 0) + (if ltb x (of_Z 0) then 1 else 0)
  + (if eqb x (of_Z 0) then 1 else 0) + (if is_nan x then 1 else 0) = 1.
Proof.
  rewrite of_Z_0. destruct x as [s|s| |s m e]; try destruct s; reflexivity.
Qed.

Lemma count_rows_cons (p : float -> bool) (x : float) (xs : list float) :
  count_rows p (x :: xs) = (if p x then 1 else 0) + count_rows p xs.
Proof.
  unfold count_rows. cbn [filter]. destruct (p x); cbn [List.length]; lia.
Qed.

Lemma sign_partition (xs : list float) :
  count_rows (fun x => gtb x (of_Z 0)) xs + count_rows (fun x => ltb x (of_Z 0)) xs
  + count_rows (fun x => eqb x (of_Z 0)) xs + count_rows is_nan xs
  = Z.of_nat (List.length xs).
Proof.
  induction xs as [|x xs IH]; [reflexivity|].
  rewrite !count_rows_cons. cbn [List.length]. rewrite Nat2Z.inj_succ.
  pose proof (sign_classes x). lia.
Qed.

(** X4 ([_get_market_statistics]).  When the spot table arrives with
    its change column, every row is counted once: the up, down and flat
    counts and the rows whose change is not a number add up to the number of
    rows.  The limit-up rows are among the up rows and the limit-down rows
    among the down rows. *)
Theorem breadth_partition {X : Externals} (fetch_attempts : Z) (w : World)
    (overview : MarketOverview.t) (df : DataFrame SpotRow) :
  fetch_succeeds stock_zh_a_spot_em "A股实时行情" fetch_attempts (ext w) df ->
  empty df = false ->
  has_column df col_change_pct = true ->
  exists ov w',
    _get_market_statistics fetch_attempts overview w = (inr ov, w')
    /\ MarketOverview.up_count ov + MarketOverview.down_count ov + MarketOverview.flat_count ov
       + count_rows is_nan (map (fun r => to_numeric (spot_change_pct r)) (rows df))
       = Z.of_nat (List.length (rows df))
    /\ 0 <= MarketOverview.limit_up_count ov <= MarketOverview.up_count ov
    /\ 0 <= MarketOverview.limit_down_count ov <= MarketOverview.down_count ov
    /\ 0 <= MarketOverview.flat_count ov.
Proof.
  intros Hfetch He Hc.
  destruct (@market_statistics_served X fetch_attempts overview w df Hfetch) as (w' & Hrun).
  rewrite He in Hrun. eexists. exists w'. split; [exact Hrun|].
  set (changes := map (fun r => to_numeric (spot_change_pct r)) (rows df)).
  destruct (with_total_amount_keeps df (with_breadth df overview)) as (U & D & F & LU & LD).
  rewrite U, D, F, LU, LD. unfold with_breadth. rewrite Hc. fold changes.
  cbn [MarketOverview.up_count MarketOverview.down_count MarketOverview.flat_count
       MarketOverview.limit_up_count MarketOverview.limit_down_count
       MarketOverview.set_breadth].
  split.
  - rewrite sign_partition. unfold changes. rewrite length_map. reflexivity.
  - split; [split; [unfold count_rows; lia|apply count_rows_le; exact limit_up_is_up]|].
    split; [split; [unfold count_rows; lia|apply count_rows_le; exact limit_down_is_down]|].
    unfold count_rows; lia.
Qed.

Lemma breadth_partition_witness :
  exists ov w',
    _get_market_statistics (X:=Sample.sectors_up) 9 (MarketOverview.init "2026-01-05")
      (Sample.start Sample.sectors_up Sample.morning_state) = (inr ov, w')
    /\ MarketOverview.up_count ov + MarketOverview.down_count ov + MarketOverview.flat_count ov
       + count_rows is_nan
           (map (fun r => to_numeric (spot_change_pct r)) (rows Sample.spot_table))
       = Z.of_nat (List.length (rows Sample.spot_table))
    /\ 0 <= MarketOverview.limit_up_count ov <= MarketOverview.up_count ov
    /\ 0 <= MarketOverview.limit_down_count ov <= MarketOverview.down_count ov
    /\ 0 <= MarketOverview.flat_count ov.
Proof.
  apply (@breadth_partition Sample.sectors_up 9
           (Sample.start Sample.sectors_up Sample.morning_state)
           (MarketOverview.init "2026-01-05") Sample.spot_table).
  - intros t. reflexivity.
  - reflexivity.
  - reflexivity.
Defined.

(** ** The indices [_get_main_indices] returns *)

Lemma subsequence_refl {A} (l : list A) : subsequence l l.
Proof. induction l; constructor; assumption. Qed.

Lemma subsequence_length {A} (l1 l2 : list A) :
  subsequence l1 l2 -> (List.length l1 <= List.length l2)%nat.
Proof. induction 1; cbn [List.length]; lia. Qed.

Lemma subsequence_In {A} (l1 l2 : list A) (x : A) :
  subsequence l1 l2 -> In x l1 -> In x l2.
Proof.
  induction 1 as [l|y l1 l2 H IH|y l1 l2 H IH]; intros Hx.
  - destruct Hx.
  - destruct Hx as [Hx|Hx]; [left; exact Hx|right; apply IH; exact Hx].
  - right. apply IH. exact Hx.
Qed.

Lemma subsequence_map {A B} (f : A -> B) (l1 l2 : list A) :
  subsequence l1 l2 -> subsequence (map f l1) (map f l2).
Proof. induction 1; cbn [map]; constructor; assumption. Qed.

Lemma subsequence_NoDup {A} (l1 l2 : list A) :
  subsequence l1 l2 -> NoDup l2 -> NoDup l1.
Proof.
  induction 1 as [l|y l1 l2 H IH|y l1 l2 H IH]; intros Hn.
  - constructor.
  - inversion Hn as [|? ? Hy Hn']; subst. constructor; [|apply IH; exact Hn'].
    intros Hin. apply Hy. eapply subsequence_In; eassumption.
  - inversion Hn; subst. apply IH. assumption.
Qed.

Lemma index_of_row_item code name row index :
  index_of_row code name row = inr index -> index_item index = (code, name).
Proof.
  unfold index_of_row, and_then.
  repeat match goal with
         | |- context [float_field ?r ?k] => destruct (float_field r k); [discriminate|]
         end.
  intros H. inversion H. reflexivity.
Qed.

(** The loop appends to the list, in the order of the items, one index
    for some of them. *)
Lemma collect_indices_items (df : DataFrame IndexRow) :
  forall items indices,
  exists built,
    fst (collect_indices df items indices) = (indices ++ built)%list
    /\ subsequence (map index_item built) items.
Proof.
  induction items as [|[code name] items IH]; intros indices; cbn [collect_indices].
  - exists []. rewrite app_nil_r. split; [reflexivity|constructor].
  - destruct (find_index_row df code) as [e|[row|]].
    + exists []. rewrite app_nil_r. split; [reflexivity|constructor].
    + destruct (index_of_row code name row) as [e|index] eqn:Hrow.
      * exists []. rewrite app_nil_r. split; [reflexivity|constructor].
      * destruct (IH (indices ++ [index])%list) as (built & Hb & Hs).
        exists (index :: built). rewrite Hb, <- app_assoc. split; [reflexivity|].
        cbn [map]. rewrite (index_of_row_item _ _ _ Hrow). constructor. exact Hs.
    + destruct (IH indices) as (built & Hb & Hs).
      exists built. split; [exact Hb|]. constructor. exact Hs.
Qed.

Lemma main_indices_items {X : Externals} fetch_attempts w indices w' :
  _get_main_indices fetch_attempts w = (inr indices, w') ->
  subsequence (map index_item indices) MAIN_INDICES.
Proof.
  unfold _get_main_indices, catch, bind at 1. rewrite log_step.
  destruct (@fetch_total _ _ stock_zh_index_spot_sina "指数行情" fetch_attempts
              (mkWorld (ext w) (trace w ++ [Log INFO "[大盘] 获取主要指数实时行情..." None])))
    as (r & w1 & Hrun).
  rewrite (bind_ok _ Hrun). cbv beta iota.
  destruct r as [df|]; [|intros H; inversion H; constructor].
  destruct (negb (empty df)); [|intros H; inversion H; constructor].
  destruct (collect_indices_items df MAIN_INDICES []) as (built & Hb & Hs).
  cbn [app] in Hb.
  destruct (collect_indices df MAIN_INDICES []) as [got [e|]]; cbn [fst] in Hb; subst got;
    intros H; inversion H; subst; exact Hs.
Qed.

(** X5 ([_get_main_indices]).  The step never raises, and the indices
    it returns follow [MAIN_INDICES]: each has the code and the name of an
    entry, in the order of the entries, so there are at most six and no code
    comes twice. *)
Theorem main_indices_shape {X : Externals} (fetch_attempts : Z) (w : World) :
  match outcome (_get_main_indices fetch_attempts) w with
  | inr indices =>
      subsequence (map index_item indices) MAIN_INDICES
      /\ (List.length indices <= 6)%nat
      /\ NoDup (map MarketIndex.code indices)
  | inl _ => False
  end.
Proof.
  unfold outcome.
  destruct (@main_indices_total X fetch_attempts w) as (indices & w' & H).
  rewrite H. cbn [fst].
  pose proof (main_indices_items _ _ H) as Hs.
  split; [exact Hs|]. split.
  - apply subsequence_length in Hs. rewrite length_map in Hs. exact Hs.
  - apply (subsequence_map fst) in Hs. rewrite map_map in Hs. cbn [index_item fst] in Hs.
    apply (subsequence_NoDup Hs).
    repeat (constructor; [cbn; intuition discriminate|]). constructor.
Qed.

(** X6 ([_get_main_indices]).  A non-empty index table without the code
    column gives no index: the [KeyError] of the column lookup is logged,
    as the last event, and the empty list is returned. *)
Theorem main_indices_without_code_column {X : Externals} (fetch_attempts : Z) (w : World)
    (df : DataFrame IndexRow) :
  fetch_succeeds stock_zh_index_spot_sina "指数行情" fetch_attempts (ext w) df ->
  empty df = false ->
  has_column df col_code = false ->
  exists w' pre,
    _get_main_indices fetch_attempts w = (inr [], w')
    /\ trace w' = (pre ++ [Log ERROR "[大盘] 获取指数行情失败" (Some (mkExn KeyError col_code))])%list.
Proof.
  intros Hfetch He Hc.
  unfold _get_main_indices.
  destruct (fetch_succeeds_run w
              (trace w ++ [Log INFO "[大盘] 获取主要指数实时行情..." None]) Hfetch) as (w1 & Hrun).
  eexists. exists (trace w1). split.
  - apply catch_ok. rewrite (bind_ok _ (log_step _ _ _ w)).
    rewrite (bind_ok _ Hrun). cbv beta iota. rewrite He. cbn [negb].
    cbn [collect_indices MAIN_INDICES]. unfold find_index_row. rewrite Hc. cbn [negb].
    rewrite (bind_ok _ (log_step _ _ _ w1)). reflexivity.
  - reflexivity.
Qed.

Lemma main_indices_without_code_column_witness :
  exists w' pre,
    _get_main_indices (X:=SampleMarket.without_codes) 2
      (Sample.start SampleMarket.without_codes Sample.morning_state) = (inr [], w')
    /\ trace w' = (pre ++ [Log ERROR "[大盘] 获取指数行情失败" (Some (mkExn KeyError col_code))])%list.
Proof.
  apply (@main_indices_without_code_column SampleMarket.without_codes 2
           (Sample.start SampleMarket.without_codes Sample.morning_state)
           SampleMarket.index_table_without_codes).
  - intros t. reflexivity.
  - reflexivity.
  - reflexivity.
Defined.

(** ** Ranked both ways *)

Lemma StronglySorted_app {A} (R : A -> A -> Prop) (l1 l2 : list A) :
  StronglySorted R l1 -> StronglySorted R l2 ->
  (forall a b, In a l1 -> In b l2 -> R a b) ->
  StronglySorted R (l1 ++ l2).
Proof.
  induction l1 as [|x l1 IH]; intros H1 H2 H12; [exact H2|].
  inversion H1 as [|? ? H1' Hx]; subst. cbn [app]. constructor.
  - apply IH; [exact H1'|exact H2|]. intros a b Ha Hb. apply H12; [right; exact Ha|exact Hb].
  - apply Forall_app. split; [exact Hx|].
    apply Forall_forall. intros b Hb. apply H12; [left; reflexivity|exact Hb].
Qed.

Lemma StronglySorted_rev {A} (R : A -> A -> Prop) (l : list A) :
  StronglySorted R l -> StronglySorted (fun a b => R b a) (rev l).
Proof.
  induction 1 as [|x l Hs IH Hx]; [constructor|].
  cbn [rev]. apply StronglySorted_app; [exact IH|repeat constructor|].
  intros a b Ha [Hb|[]]. subst b. rewrite Forall_forall in Hx. apply Hx.
  apply in_rev. exact Ha.
Qed.

(** A list has one strictly ordered arrangement. *)
Lemma strictly_sorted_unique {A} (R : A -> A -> Prop) :
  (forall a b, R a b -> R b a -> False) ->
  forall l1 l2, StronglySorted R l1 -> StronglySorted R l2 -> Permutation l1 l2 -> l1 = l2.
Proof.
  intros Hasym. induction l1 as [|x l1 IH]; intros l2 H1 H2 Hp.
  - apply Permutation_nil in Hp. symmetry. exact Hp.
  - destruct l2 as [|y l2]; [apply Permutation_sym, Permutation_nil in Hp; discriminate|].
    inversion H1 as [|? ? H1' Hx]; subst. inversion H2 as [|? ? H2' Hy]; subst.
    rewrite Forall_forall in Hx, Hy.
    assert (x = y).
    { assert (Hin : In x (y :: l2)) by (eapply Permutation_in; [exact Hp|left; reflexivity]).
      destruct Hin as [Hin|Hin]; [symmetry; exact Hin|].
      assert (Hin' : In y (x :: l1))
        by (eapply Permutation_in; [apply Permutation_sym; exact Hp|left; reflexivity]).
      destruct Hin' as [Hin'|Hin']; [exact Hin'|].
      exfalso. apply (Hasym x y); [apply Hx; exact Hin'|apply Hy; exact Hin]. }
    subst y. f_equal. apply IH; [exact H1'|exact H2'|].
    eapply Permutation_cons_inv. exact Hp.
Qed.

Lemma strictly_sorted_NoDup {A} (R : A -> A -> Prop) (l : list A) :
  (forall a, R a a -> False) -> StronglySorted R l -> NoDup l.
Proof.
  intros Hirr. induction 1 as [|x l Hs IH Hx]; constructor; [|exact IH].
  intros Hin. rewrite Forall_forall in Hx. apply (Hirr x). apply Hx. exact Hin.
Qed.

Lemma In_firstn {A} (n : nat) (l : list A) (x : A) : In x (firstn n l) -> In x l.
Proof. intros H. rewrite <- (firstn_skipn n l). apply in_or_app. left. exact H. Qed.

Lemma In_skipn {A} (n : nat) (l : list A) (x : A) : In x (skipn n l) -> In x l.
Proof. intros H. rewrite <- (firstn_skipn n l). apply in_or_app. right. exact H. Qed.

(** With distinct changes, the rows ranked by rising change are the rows
    ranked by falling change, read backwards. *)
Lemma ranked_rise_is_rev_fall (l : list Sector.t) :
  Forall numeric l -> distinct_changes l ->
  sort_by by_rise l = rev (sort_by by_fall l).
Proof.
  intros Hn Hd.
  apply (@strictly_sorted_unique _ (fun a b => by_rise a b = true)).
  - intros a b H1 H2. unfold by_rise in *. rewrite (ltb_asym _ _ H1) in H2. discriminate.
  - apply ranked_rows_strict; auto.
  - apply (@StronglySorted_rev _ (fun a b => by_fall a b = true)).
    apply ranked_rows_strict; auto.
  - rewrite <- Permutation_rev. rewrite <- !sort_by_perm. reflexivity.
Qed.

(** X7 ([_get_sector_rankings]).  With distinct changes the bottom list
    is the first five of the ranking read from its end.  With five numeric
    rows or fewer both lists hold every row, the bottom list being the top
    list reversed. *)
Theorem sector_lists_mirror {X : Externals} (fetch_attempts : Z) (w : World)
    (overview : MarketOverview.t) (df : DataFrame SectorRow) :
  fetch_succeeds stock_board_industry_name_em "行业板块行情" fetch_attempts (ext w) df ->
  empty df = false ->
  has_column df col_change_pct = true ->
  has_column df col_sector_name = true ->
  distinct_changes (numeric_sector_rows df) ->
  exists ov w' ranked,
    _get_sector_rankings fetch_attempts overview w = (inr ov, w')
    /\ Permutation (numeric_sector_rows df) ranked
    /\ StronglySorted falls ranked
    /\ MarketOverview.top_sectors ov = firstn 5 ranked
    /\ MarketOverview.bottom_sectors ov = firstn 5 (rev ranked)
    /\ ((List.length (numeric_sector_rows df) <= 5)%nat ->
        MarketOverview.top_sectors ov = ranked
        /\ MarketOverview.bottom_sectors ov = rev (MarketOverview.top_sectors ov)).
Proof.
  intros Hfetch He Hc Hn Hd.
  destruct (@sector_rankings_served X fetch_attempts overview w df Hfetch He Hc Hn)
    as (w' & Hrun).
  eexists. exists w', (sort_by by_fall (numeric_sector_rows df)). split; [exact Hrun|].
  cbn [MarketOverview.top_sectors MarketOverview.bottom_sectors
       MarketOverview.set_top_sectors MarketOverview.set_bottom_sectors].
  unfold nlargest, nsmallest.
  pose proof (numeric_sector_rows_numeric df) as Hnum.
  rewrite (ranked_rise_is_rev_fall Hnum Hd).
  split; [apply sort_by_perm|]. split; [apply ranked_rows_strict; auto|].
  split; [reflexivity|]. split; [reflexivity|].
  intros Hlen. rewrite !firstn_all2; [split; reflexivity|..];
    rewrite ?length_rev, sort_by_length; exact Hlen.
Qed.

Lemma sector_lists_mirror_witness :
  exists ov w' ranked,
    _get_sector_rankings (X:=SampleMarket.with_sectors SampleMarket.three_sectors) 2
      (MarketOverview.init "2026-01-05")
      (Sample.start (SampleMarket.with_sectors SampleMarket.three_sectors) Sample.morning_state)
    = (inr ov, w')
    /\ Permutation (numeric_sector_rows SampleMarket.three_sectors) ranked
    /\ StronglySorted falls ranked
    /\ MarketOverview.top_sectors ov = firstn 5 ranked
    /\ MarketOverview.bottom_sectors ov = firstn 5 (rev ranked)
    /\ ((List.length (numeric_sector_rows SampleMarket.three_sectors) <= 5)%nat ->
        MarketOverview.top_sectors ov = ranked
        /\ MarketOverview.bottom_sectors ov = rev (MarketOverview.top_sectors ov)).
Proof.
  apply (@sector_lists_mirror (SampleMarket.with_sectors SampleMarket.three_sectors) 2
           (Sample.start (SampleMarket.with_sectors SampleMarket.three_sectors) Sample.morning_state)
           (MarketOverview.init "2026-01-05") SampleMarket.three_sectors).
  - intros t. reflexivity.
  - reflexivity.
  - reflexivity.
  - reflexivity.
  - unfold distinct_changes. vm_compute. repeat constructor.
Defined.

(** X8 ([_get_sector_rankings]).  With ten or more numeric rows of
    distinct changes, the top and the bottom list have five sectors each and
    share none, and every sector of the top list changed more than every
    sector of the bottom list. *)
Theorem sector_lists_disjoint {X : Externals} (fetch_attempts : Z) (w : World)
    (overview : MarketOverview.t) (df : DataFrame SectorRow) :
  fetch_succeeds stock_board_industry_name_em "行业板块行情" fetch_attempts (ext w) df ->
  empty df = false ->
  has_column df col_change_pct = true ->
  has_column df col_sector_name = true ->
  distinct_changes (numeric_sector_rows df) ->
  (10 <= List.length (numeric_sector_rows df))%nat ->
  exists ov w',
    _get_sector_rankings fetch_attempts overview w = (inr ov, w')
    /\ List.length (MarketOverview.top_sectors ov) = 5%nat
    /\ List.length (MarketOverview.bottom_sectors ov) = 5%nat
    /\ (forall s, In s (MarketOverview.top_sectors ov) ->
                  In s (MarketOverview.bottom_sectors ov) -> False)
    /\ (forall a b, In a (MarketOverview.top_sectors ov) ->
                    In b (MarketOverview.bottom_sectors ov) -> falls a b).
Proof.
  intros Hfetch He Hc Hn Hd Hlen.
  destruct (@sector_rankings_served X fetch_attempts overview w df Hfetch He Hc Hn)
    as (w' & Hrun).
  eexists. exists w'. split; [exact Hrun|].
  cbn [MarketOverview.top_sectors MarketOverview.bottom_sectors
       MarketOverview.set_top_sectors MarketOverview.set_bottom_sectors].
  unfold nlargest, nsmallest.
  pose proof (numeric_sector_rows_numeric df) as Hnum.
  rewrite (ranked_rise_is_rev_fall Hnum Hd).
  set (ranked := sort_by by_fall (numeric_sector_rows df)).
  assert (Hr : List.length ranked = List.length (numeric_sector_rows df))
    by apply sort_by_length.
  assert (Hs : StronglySorted (fun a b => by_fall a b = true) ranked)
    by (apply ranked_rows_strict; auto).
  assert (Hacross : forall a b, In a (firstn 5 ranked) -> In b (firstn 5 (rev ranked)) ->
                                by_fall a b = true).
  { intros a b Ha Hb. rewrite firstn_rev in Hb. apply in_rev in Hb.
    destruct (@firstn_strict _ (fun a b => by_fall a b = true) 5 _ Hs) as [_ Hfs].
    apply Hfs; [exact Ha|].
    replace (List.length ranked - 5)%nat with ((List.length ranked - 10) + 5)%nat in Hb by lia.
    rewrite <- skipn_skipn in Hb. apply In_skipn in Hb. exact Hb. }
  split; [rewrite length_firstn; lia|].
  split; [rewrite length_firstn, length_rev; lia|].
  split; [|exact Hacross].
  intros s Ht Hb. pose proof (Hacross s s Ht Hb) as Hss.
  unfold by_fall, gtb in Hss. fold (ltb (Sector.change_pct s) (Sector.change_pct s)) in Hss.
  rewrite (ltb_asym _ _ Hss) in Hss. discriminate.
Qed.

Lemma sector_lists_disjoint_witness :
  exists ov w',
    _get_sector_rankings (X:=SampleMarket.with_sectors SampleMarket.ten_sectors) 2
      (MarketOverview.init "2026-01-05")
      (Sample.start (SampleMarket.with_sectors SampleMarket.ten_sectors) Sample.morning_state)
    = (inr ov, w')
    /\ List.length (MarketOverview.top_sectors ov) = 5%nat
    /\ List.length (MarketOverview.bottom_sectors ov) = 5%nat
    /\ (forall s, In s (MarketOverview.top_sectors ov) ->
                  In s (MarketOverview.bottom_sectors ov) -> False)
    /\ (forall a b, In a (MarketOverview.top_sectors ov) ->
                    In b (MarketOverview.bottom_sectors ov) -> falls a b).
Proof.
  apply (@sector_lists_disjoint (SampleMarket.with_sectors SampleMarket.ten_sectors) 2
           (Sample.start (SampleMarket.with_sectors SampleMarket.ten_sectors) Sample.morning_state)
           (MarketOverview.init "2026-01-05") SampleMarket.ten_sectors).
  - intros t. reflexivity.
  - reflexivity.
  - reflexivity.
  - reflexivity.
  - unfold distinct_changes. vm_compute. repeat constructor.
  - vm_compute. lia.
Defined.

(** On a flat day the two lists are the same five sectors. *)
Example sample_flat_day :
  match outcome (_get_sector_rankings (X:=SampleMarket.with_sectors SampleMarket.flat_sectors) 2
                   (MarketOverview.init "2026-01-05"))
          (Sample.start (SampleMarket.with_sectors SampleMarket.flat_sectors) Sample.morning_state) with
  | inr ov =>
      map Sector.name (MarketOverview.top_sectors ov)
      = ["半导体"; "银行"; "煤炭"; "军工"; "白酒"]
      /\ MarketOverview.bottom_sectors ov = MarketOverview.top_sectors ov
  | inl _ => False
  end.
Proof. vm_compute. split; reflexivity. Qed.

(** X9 ([_get_sector_rankings]).  A sector table without the name
    column leaves the overview as it was: the [KeyError] is logged, as the
    last event, and neither sector list is written. *)
Theorem sector_rankings_without_names {X : Externals} (fetch_attempts : Z) (w : World)
    (overview : MarketOverview.t) (df : DataFrame SectorRow) :
  fetch_succeeds stock_board_industry_name_em "行业板块行情" fetch_attempts (ext w) df ->
  empty df = false ->
  has_column df col_change_pct = true ->
  has_column df col_sector_name = false ->
  numeric_sector_rows df <> [] ->
  exists w' pre,
    _get_sector_rankings fetch_attempts overview w = (inr overview, w')
    /\ trace w'
       = (pre ++ [Log ERROR "[大盘] 获取板块涨跌榜失败" (Some (mkExn KeyError col_sector_name))])%list.
Proof.
  intros Hfetch He Hc Hn Hrows.
  unfold _get_sector_rankings.
  destruct (fetch_succeeds_run w
              (trace w ++ [Log INFO "[大盘] 获取板块涨跌榜..." None]) Hfetch) as (w1 & Hrun).
  assert (Htop : sector_entries df (nlargest 5 (numeric_sector_rows df))
                 = inl (mkExn KeyError col_sector_name)).
  { unfold sector_entries, nlargest. rewrite Hn.
    destruct (firstn 5 (sort_by by_fall (numeric_sector_rows df))) as [|s l] eqn:E; [|reflexivity].
    exfalso. apply Hrows.
    apply (f_equal (@List.length Sector.t)) in E.
    rewrite length_firstn, sort_by_length in E. cbn [List.length] in E.
    destruct (numeric_sector_rows df); [reflexivity|cbn [List.length] in E; lia]. }
  eexists. exists (trace w1). split.
  - apply catch_ok. rewrite (bind_ok _ (log_step _ _ _ w)).
    rewrite (bind_ok _ Hrun). cbv beta iota. rewrite He, Hc. cbn [negb andb].
    rewrite Htop. rewrite (bind_ok _ (log_step _ _ _ w1)). reflexivity.
  - reflexivity.
Qed.

Lemma sector_rankings_without_names_witness :
  exists w' pre,
    _get_sector_rankings (X:=SampleMarket.with_sectors SampleMarket.unnamed_sectors) 2
      (MarketOverview.init "2026-01-05")
      (Sample.start (SampleMarket.with_sectors SampleMarket.unnamed_sectors) Sample.morning_state)
    = (inr (MarketOverview.init "2026-01-05"), w')
    /\ trace w'
       = (pre ++ [Log ERROR "[大盘] 获取板块涨跌榜失败" (Some (mkExn KeyError col_sector_name))])%list.
Proof.
  apply (@sector_rankings_without_names (SampleMarket.with_sectors SampleMarket.unnamed_sectors) 2
           (Sample.start (SampleMarket.with_sectors SampleMarket.unnamed_sectors) Sample.morning_state)
           (MarketOverview.init "2026-01-05") SampleMarket.unnamed_sectors).
  - intros t. reflexivity.
  - reflexivity.
  - reflexivity.
  - reflexivity.
  - vm_compute. discriminate.
Defined.

(* ===================================================================== *)
(** * The analyzer: construction, fallback model, OpenAI outcomes *)
(* ===================================================================== *)

Section Construction.
Context {X : Externals}.

(** [_init_model] returns, with the primary model, the fallback model or none. *)
Lemma init_model_cases (self : GeminiAnalyzer.t) (w : World) :
  exists self' w' evs,
    _init_model self w = (inr self', w')
    /\ trace w' = (trace w ++ evs)%list
    /\ openai_tried evs = false
    /\ (self' = set_gemini self (mkModel (gemini_model get_config) SYSTEM_PROMPT)
                  (gemini_model get_config) false
        \/ self' = set_gemini self (mkModel (gemini_model_fallback get_config) SYSTEM_PROMPT)
                     (gemini_model_fallback get_config) true
        \/ self' = set_model self None).
Proof.
  unfold _init_model.
  destruct (import_genai (ext w)) as [[e|[]] x1] eqn:Himport.
  { eexists. eexists. eexists. split; [|split; [|split]].
    - erewrite catch_raise; [reflexivity|].
      erewrite bind_raise; [reflexivity|]. apply invoke_raise. exact Himport.
    - cbn [trace]. rewrite <- app_assoc. reflexivity.
    - reflexivity.
    - right. right. reflexivity. }
  set (w1 := mkWorld x1 (trace w ++ [Invoke "import google.generativeai"])).
  destruct (genai_configure (match _api_key self with Some k => k | None => "" end) (ext w1))
    as [[e|[]] x2] eqn:Hconf.
  { eexists. eexists. eexists. split; [|split; [|split]].
    - erewrite catch_raise; [reflexivity|].
      erewrite bind_ok; [|apply invoke_ok; exact Himport].
      erewrite bind_raise; [reflexivity|]. apply invoke_raise. exact Hconf.
    - cbn [trace]. rewrite <- !app_assoc. reflexivity.
    - reflexivity.
    - right. right. reflexivity. }
  set (w2 := mkWorld x2 (trace w1 ++ [Invoke "genai.configure"])).
  destruct (genai_GenerativeModel (gemini_model get_config) SYSTEM_PROMPT (ext w2))
    as [[e1|[]] x3] eqn:H1.
  2:{ eexists. eexists. eexists. split; [|split; [|split]].
      - erewrite catch_ok; [reflexivity|].
        erewrite bind_ok; [|apply invoke_ok; exact Himport].
        erewrite bind_ok; [|apply invoke_ok; exact Hconf].
        cbv zeta. erewrite catch_ok; [reflexivity|].
        erewrite bind_ok; [|apply invoke_ok; exact H1].
        erewrite bind_ok; [|apply log_step]. reflexivity.
      - cbn [trace w2 w1]. rewrite <- !app_assoc. reflexivity.
      - reflexivity.
      - left. reflexivity. }
  set (w3 := mkWorld x3 ((trace w2 ++ [Invoke "genai.GenerativeModel"])
                         ++ [Log WARNING "主模型初始化失败，尝试备选模型" (Some e1)])).
  destruct (genai_GenerativeModel (gemini_model_fallback get_config) SYSTEM_PROMPT (ext w3))
    as [[e2|[]] x4] eqn:H2.
  - eexists. eexists. eexists. split; [|split; [|split]].
    + erewrite catch_raise; [reflexivity|].
      erewrite bind_ok; [|apply invoke_ok; exact Himport].
      erewrite bind_ok; [|apply invoke_ok; exact Hconf].
      cbv zeta.
      erewrite catch_raise; [|erewrite bind_raise; [reflexivity|]; apply invoke_raise; exact H1].
      erewrite bind_ok; [|apply log_step].
      erewrite bind_raise; [reflexivity|]. apply invoke_raise. exact H2.
    + cbn [trace w3 w2 w1]. rewrite <- !app_assoc. reflexivity.
    + reflexivity.
    + right. right. reflexivity.
  - eexists. eexists. eexists. split; [|split; [|split]].
    + erewrite catch_ok; [reflexivity|].
      erewrite bind_ok; [|apply invoke_ok; exact Himport].
      erewrite bind_ok; [|apply invoke_ok; exact Hconf].
      cbv zeta.
      erewrite catch_raise; [|erewrite bind_raise; [reflexivity|]; apply invoke_raise; exact H1].
      erewrite bind_ok; [|apply log_step].
      erewrite bind_ok; [|apply invoke_ok; exact H2].
      erewrite bind_ok; [|apply log_step]. reflexivity.
    + cbn [trace w3 w2 w1]. rewrite <- !app_assoc. reflexivity.
    + reflexivity.
    + right. left. reflexivity.
Qed.

(** [_init_openai_fallback] leaves the analyzer as it was, or sets the
    client built from the configured key, or lets through what the import
    of the package raised when that is not an [ImportError]. *)
Lemma init_openai_cases (self : GeminiAnalyzer.t) (w : World) :
  (exists w', _init_openai_fallback self w = (inr self, w'))
  \/ (exists key url w',
        _init_openai_fallback self w
        = (inr (set_openai self (mkClient key url) (openai_model get_config)), w')
        /\ openai_api_key get_config = Some key
        /\ key_valid (openai_api_key get_config) = true)
  \/ (exists e w' x x',
        _init_openai_fallback self w = (inl e, w')
        /\ import_openai x = (inl e, x')
        /\ exn_kind e <> ImportError).
Proof.
  unfold _init_openai_fallback. cbv zeta.
  destruct (key_valid (openai_api_key get_config)) eqn:Hkey; cbn [negb].
  2:{ left. eexists. erewrite bind_ok; [|apply log_step]. reflexivity. }
  match goal with |- context [bind ?c _] => set (imported := c) end.
  destruct (import_openai (ext w)) as [[e|[]] x1] eqn:Himport.
  - assert (Hraise : (invoke "from openai import OpenAI" import_openai ;; ret true) w
                     = (inl e, mkWorld x1 (trace w ++ [Invoke "from openai import OpenAI"])))
      by (erewrite bind_raise; [reflexivity|]; apply invoke_raise; exact Himport).
    destruct (exn_kind e) eqn:Hk.
    1:{ left. eexists.
        assert (Hi : imported w = (inr false, mkWorld x1
                       ((trace w ++ [Invoke "from openai import OpenAI"])
                        ++ [Log ERROR "未安装 openai 库" (Some e)]))).
        { unfold imported. rewrite (catch_raise _ Hraise). rewrite Hk.
          erewrite bind_ok; [|apply log_step]. reflexivity. }
        rewrite (bind_ok _ Hi). reflexivity. }
    all: right; right; exists e; eexists; exists (ext w), x1;
      (split; [|split; [exact Himport|rewrite Hk; discriminate]]);
      apply bind_raise; unfold imported; rewrite (catch_raise _ Hraise); rewrite Hk;
      reflexivity.
  - set (w1 := mkWorld x1 (trace w ++ [Invoke "from openai import OpenAI"])).
    assert (Hi : imported w = (inr true, w1)).
    { unfold imported. apply catch_ok. erewrite bind_ok; [|apply invoke_ok; exact Himport]. reflexivity. }
    rewrite (bind_ok _ Hi). cbn [negb].
    destruct (openai_api_key get_config) as [key|] eqn:Hk; [|discriminate Hkey].
    match goal with |- context [invoke "OpenAI" (OpenAI key ?u)] => set (url := u) end.
    destruct (OpenAI key url (ext w1)) as [[e|[]] x2] eqn:Hclient.
    + left. eexists.
      erewrite catch_raise;
        [|erewrite bind_raise; [reflexivity|]; apply invoke_raise; exact Hclient].
      erewrite bind_ok; [|apply log_step]. reflexivity.
    + right. left. exists key, url. eexists. split; [|split; reflexivity].
      erewrite catch_ok; [reflexivity|].
      erewrite bind_ok; [|apply invoke_ok; exact Hclient].
      erewrite bind_ok; [|apply log_step]. reflexivity.
Qed.

End Construction.

(** X10 ([__init__]).  An analyzer that the constructor returns is
    [coherent]: it has a Gemini model, an OpenAI client or neither, never
    both, and [_use_openai], [_using_fallback] and [_current_model_name] go
    with the provider it has.  The constructor raises only what the import of
    the [openai] package raised, and that is never an [ImportError]. *)
Theorem init_coherent {X : Externals} (api_key : option string) (w : World) :
  match outcome (__init__ api_key) w with
  | inr self => coherent self
  | inl e => exn_kind e <> ImportError /\ exists x x', import_openai x = (inl e, x')
  end.
Proof.
  unfold outcome, __init__. cbv zeta.
  match goal with |- context [key_valid ?k] => set (key := k) end.
  set (self0 := GeminiAnalyzer.mk key None None false false None).
  assert (Hend : forall (self : GeminiAnalyzer.t) w1, exists w2,
             ((if negb (is_available self)
               then log WARNING "未配置任何 AI API Key，AI 分析功能将不可用" None
               else ret tt) ;; ret self) w1 = (inr self, w2)).
  { intros self w1. destruct (negb (is_available self)); eexists.
    - erewrite bind_ok; [|apply log_step]. reflexivity.
    - reflexivity. }
  destruct (key_valid key) eqn:Hkey.
  - destruct (init_model_cases self0 w) as (self' & w1 & evs & Hrun & _ & _ & Hcase).
    erewrite bind_ok; [|apply catch_ok; exact Hrun].
    assert (Hco : coherent self').
    { destruct Hcase as [-> | [-> | ->]]; unfold coherent; cbn; auto. }
    destruct (Hend self' w1) as (w2 & Hs). rewrite Hs. exact Hco.
  - destruct (init_openai_cases self0
                (mkWorld (ext w) (trace w ++ [Log INFO "Gemini API Key 未配置，尝试使用 OpenAI 兼容 API" None])))
      as [(w1 & Hrun) | [(k & url & w1 & Hrun & Hk & Hv) | (e & w1 & x & x' & Hrun & Hx & He)]].
    + erewrite bind_ok; [|erewrite bind_ok; [exact Hrun|apply log_step]].
      assert (Hco : coherent self0) by (unfold coherent; cbn; auto).
      destruct (Hend self0 w1) as (w2 & Hs). rewrite Hs. exact Hco.
    + erewrite bind_ok; [|erewrite bind_ok; [exact Hrun|apply log_step]].
      assert (Hco : coherent (set_openai self0 (mkClient k url) (openai_model get_config)))
        by (unfold coherent; cbn; auto).
      destruct (Hend (set_openai self0 (mkClient k url) (openai_model get_config)) w1) as (w2 & Hs).
      rewrite Hs. exact Hco.
    + erewrite bind_raise; [|erewrite bind_ok; [exact Hrun|apply log_step]].
      cbn [fst]. split; [exact He|eauto].
Qed.

(** X11 ([__init__], [_init_model]).  With a valid Gemini key and the
    SDK importing and configuring: if the main model can be built it is the
    one selected, after three calls; if building it raises and the fallback
    model can be built, the fallback model is selected and marked as such,
    after four calls.  In both cases the OpenAI side is not touched. *)
Theorem init_selects_gemini {X : Externals} (w : World) :
  key_valid (gemini_api_key get_config) = true ->
  always_returns import_genai ->
  (forall key, always_returns (genai_configure key)) ->
  (always_returns (genai_GenerativeModel (gemini_model get_config) SYSTEM_PROMPT) ->
   exists self w' evs,
     __init__ None w = (inr self, w')
     /\ trace w' = (trace w ++ evs)%list
     /\ openai_tried evs = false
     /\ _model self = Some (mkModel (gemini_model get_config) SYSTEM_PROMPT)
     /\ _using_fallback self = false
     /\ _use_openai self = false
     /\ calls evs = 3)
  /\
  (always_raises (genai_GenerativeModel (gemini_model get_config) SYSTEM_PROMPT) ->
   always_returns (genai_GenerativeModel (gemini_model_fallback get_config) SYSTEM_PROMPT) ->
   exists self w' evs,
     __init__ None w = (inr self, w')
     /\ trace w' = (trace w ++ evs)%list
     /\ openai_tried evs = false
     /\ _model self = Some (mkModel (gemini_model_fallback get_config) SYSTEM_PROMPT)
     /\ _using_fallback self = true
     /\ _use_openai self = false
     /\ calls evs = 4).
Proof.
  intros Hkey Himp Hconf.
  set (self0 := GeminiAnalyzer.mk (gemini_api_key get_config) None None false false None).
  destruct (Himp (ext w)) as ([] & x1 & Himport).
  set (w1 := mkWorld x1 (trace w ++ [Invoke "import google.generativeai"])).
  destruct (Hconf (match _api_key self0 with Some k => k | None => "" end) (ext w1))
    as ([] & x2 & Hc).
  set (w2 := mkWorld x2 (trace w1 ++ [Invoke "genai.configure"])).
  split.
  - intros Hprimary.
    destruct (Hprimary (ext w2)) as ([] & x3 & H1).
    eexists. eexists. eexists. split.
    + unfold __init__. cbv zeta. rewrite Hkey. fold self0.
      erewrite bind_ok.
      2:{ apply catch_ok. unfold _init_model. apply catch_ok.
          erewrite bind_ok; [|apply invoke_ok; exact Himport].
          erewrite bind_ok; [|apply invoke_ok; exact Hc].
          cbv zeta. apply catch_ok.
          erewrite bind_ok; [|apply invoke_ok; exact H1].
          erewrite bind_ok; [|apply log_step]. reflexivity. }
      cbn [is_available set_gemini _model negb]. reflexivity.
    + cbn [trace w2 w1]. rewrite <- !app_assoc. cbn [app].
      split; [reflexivity|]. repeat split.
  - intros Hprimary Hfallback.
    destruct (Hprimary (ext w2)) as (e1 & x3 & H1).
    set (w3 := mkWorld x3 ((trace w2 ++ [Invoke "genai.GenerativeModel"])
                           ++ [Log WARNING "主模型初始化失败，尝试备选模型" (Some e1)])).
    destruct (Hfallback (ext w3)) as ([] & x4 & H2).
    eexists. eexists. eexists. split.
    + unfold __init__. cbv zeta. rewrite Hkey. fold self0.
      erewrite bind_ok.
      2:{ apply catch_ok. unfold _init_model. apply catch_ok.
          erewrite bind_ok; [|apply invoke_ok; exact Himport].
          erewrite bind_ok; [|apply invoke_ok; exact Hc].
          cbv zeta.
          erewrite catch_raise;
            [|erewrite bind_raise; [reflexivity|]; apply invoke_raise; exact H1].
          erewrite bind_ok; [|apply log_step].
          erewrite bind_ok; [|apply invoke_ok; exact H2].
          erewrite bind_ok; [|apply log_step]. reflexivity. }
      cbn [is_available set_gemini _model negb]. reflexivity.
    + cbn [trace w3 w2 w1]. rewrite <- !app_assoc. cbn [app].
      split; [reflexivity|]. repeat split.
Qed.

Lemma init_selects_gemini_witness :
  exists self w' evs,
    __init__ (X:=SampleProviders.gemini_fallback_up) None
      (Sample.start SampleProviders.gemini_fallback_up Sample.morning_state) = (inr self, w')
    /\ trace w'
       = (trace (Sample.start SampleProviders.gemini_fallback_up Sample.morning_state) ++ evs)%list
    /\ openai_tried evs = false
    /\ _model self = Some (mkModel "gemini-2.5-flash" "你现在是顶级新生代游资")
    /\ _using_fallback self = true
    /\ _use_openai self = false
    /\ calls evs = 4.
Proof.
  apply (@init_selects_gemini SampleProviders.gemini_fallback_up
           (Sample.start SampleProviders.gemini_fallback_up Sample.morning_state)).
  - reflexivity.
  - intros x. exists tt, x. reflexivity.
  - intros key x. exists tt, x. reflexivity.
  - intros x. exists Sample.throttled, x. reflexivity.
  - intros x. exists tt, x. reflexivity.
Defined.

(** X12 ([__init__], [_init_openai_fallback]).  Without a valid Gemini
    key, and with a valid OpenAI key, an importable package and a client
    that can be built, the constructor selects the OpenAI client with the
    configured key, URL and model name, without a call of the Gemini SDK. *)
Theorem init_selects_openai {X : Externals} (w : World) (key : string) :
  key_valid (gemini_api_key get_config) = false ->
  openai_api_key get_config = Some key ->
  key_valid (Some key) = true ->
  always_returns import_openai ->
  always_returns (OpenAI key (client_url get_config)) ->
  exists self w' evs,
    __init__ None w = (inr self, w')
    /\ trace w' = (trace w ++ evs)%list
    /\ gemini_tried evs = false
    /\ _model self = None
    /\ _openai_client self = Some (mkClient key (client_url get_config))
    /\ _use_openai self = true
    /\ _current_model_name self = Some (openai_model get_config)
    /\ is_available self = true.
Proof.
  intros Hg Hk Hv Himp Hclient.
  set (self0 := GeminiAnalyzer.mk (gemini_api_key get_config) None None false false None).
  set (w0 := mkWorld (ext w) (trace w ++ [Log INFO "Gemini API Key 未配置，尝试使用 OpenAI 兼容 API" None])).
  destruct (Himp (ext w0)) as ([] & x1 & Himport).
  set (w1 := mkWorld x1 (trace w0 ++ [Invoke "from openai import OpenAI"])).
  destruct (Hclient (ext w1)) as ([] & x2 & Hc).
  eexists. eexists. eexists. split.
  - unfold __init__. cbv zeta. rewrite Hg. fold self0.
    erewrite bind_ok.
    2:{ erewrite bind_ok; [|apply log_step]. fold w0.
        unfold _init_openai_fallback. cbv zeta. rewrite Hk, Hv. cbn [negb].
        erewrite bind_ok.
        2:{ apply catch_ok. erewrite bind_ok; [|apply invoke_ok; exact Himport]. reflexivity. }
        cbn [negb]. fold w1. fold (client_url get_config).
        apply catch_ok.
        erewrite bind_ok; [|apply invoke_ok; exact Hc].
        erewrite bind_ok; [|apply log_step]. reflexivity. }
    cbn [is_available set_openai _model _openai_client negb]. reflexivity.
  - cbn [trace w1 w0]. rewrite <- !app_assoc. cbn [app].
    split; [reflexivity|]. repeat split.
Qed.

Lemma init_selects_openai_witness :
  exists self w' evs,
    __init__ (X:=SampleProviders.openai_up) None
      (Sample.start SampleProviders.openai_up Sample.morning_state) = (inr self, w')
    /\ trace w' = (trace (Sample.start SampleProviders.openai_up Sample.morning_state) ++ evs)%list
    /\ gemini_tried evs = false
    /\ _model self = None
    /\ _openai_client self
       = Some (mkClient "sk-sample-key-0000001" (Some "https://api.deepseek.com/v1"))
    /\ _use_openai self = true
    /\ _current_model_name self = Some "deepseek-chat"
    /\ is_available self = true.
Proof.
  apply (@init_selects_openai SampleProviders.openai_up
           (Sample.start SampleProviders.openai_up Sample.morning_state) "sk-sample-key-0000001").
  - reflexivity.
  - reflexivity.
  - reflexivity.
  - intros x. exists tt, x. reflexivity.
  - intros x. exists tt, x. reflexivity.
Defined.

(** X13 ([_switch_to_fallback_model]).  The switch never raises, makes
    at most two calls and never sleeps.  It returns [True] only if the
    fallback model was built, and then the analyzer holds that model, marked
    as fallback; when it returns [False] the analyzer is unchanged. *)
Theorem switch_to_fallback_outcomes {X : Externals} (self : GeminiAnalyzer.t) (w : World) :
  exists switched self' w' evs,
    _switch_to_fallback_model self w = (inr (switched, self'), w')
    /\ trace w' = (trace w ++ evs)%list
    /\ calls evs <= 2
    /\ slept evs = 0
    /\ (if switched : bool
        then self' = set_gemini self (mkModel (gemini_model_fallback get_config) SYSTEM_PROMPT)
                       (gemini_model_fallback get_config) true
             /\ is_available self' = true
             /\ exists x x', genai_GenerativeModel (gemini_model_fallback get_config)
                               SYSTEM_PROMPT x = (inr tt, x')
        else self' = self).
Proof.
  unfold _switch_to_fallback_model.
  destruct (import_genai (ext w)) as [[e|[]] x1] eqn:Himport.
  { exists false, self. eexists. eexists. split; [|split; [|split; [|split]]].
    - erewrite catch_raise;
        [|erewrite bind_raise; [reflexivity|]; apply invoke_raise; exact Himport].
      erewrite bind_ok; [|apply log_step]. reflexivity.
    - cbn [trace]. rewrite <- !app_assoc. reflexivity.
    - vm_compute. discriminate.
    - reflexivity.
    - reflexivity. }
  set (w1 := mkWorld x1 (trace w ++ [Invoke "import google.generativeai"])).
  set (w2 := mkWorld (ext w1) (trace w1 ++ [Log WARNING "[LLM] 切换到备选模型" None])).
  destruct (genai_GenerativeModel (gemini_model_fallback get_config) SYSTEM_PROMPT (ext w2))
    as [[e|[]] x2] eqn:Hm.
  - exists false, self. eexists. eexists. split; [|split; [|split; [|split]]].
    + erewrite catch_raise.
      2:{ erewrite bind_ok; [|apply invoke_ok; exact Himport].
          cbv zeta. erewrite bind_ok; [|apply log_step].
          erewrite bind_raise; [reflexivity|]. apply invoke_raise. exact Hm. }
      erewrite bind_ok; [|apply log_step]. reflexivity.
    + cbn [trace w2 w1]. rewrite <- !app_assoc. reflexivity.
    + vm_compute. discriminate.
    + reflexivity.
    + reflexivity.
  - exists true. eexists. eexists. eexists. split; [|split; [|split; [|split]]].
    + apply catch_ok.
      erewrite bind_ok; [|apply invoke_ok; exact Himport].
      cbv zeta. erewrite bind_ok; [|apply log_step].
      erewrite bind_ok; [|apply invoke_ok; exact Hm].
      erewrite bind_ok; [|apply log_step]. reflexivity.
    + cbn [trace w2 w1]. rewrite <- !app_assoc. reflexivity.
    + vm_compute. discriminate.
    + reflexivity.
    + split; [reflexivity|]. split; [reflexivity|]. eauto.
Qed.

(** ** Outcomes of [_call_openai_api] *)

Section OpenAIOutcomes.
Context {X : Externals}.

(** The [try] block returns only non-empty content. *)
Lemma openai_try_returns (self : GeminiAnalyzer.t) prompt gc base_delay attempt w s w1 :
  _call_openai_api_try self prompt gc base_delay attempt w = (inr s, w1) ->
  nonempty s = true.
Proof.
  unfold _call_openai_api_try. unfold bind at 1.
  match goal with |- context [match ?c w with _ => _ end] => destruct (c w) as [[e|[]] w0] end;
    [discriminate|].
  unfold bind at 1.
  destruct (_openai_client self) as [client|]; [|discriminate].
  cbn [ret]. unfold bind at 1.
  match goal with |- context [invoke ?n ?op w0] => destruct (invoke n op w0) as [[e|resp] w2] end;
    [discriminate|].
  destruct (completion_content resp) as [c|] eqn:Hc; [|discriminate].
  intros H. inversion H; subst.
  destruct resp as [|[|[c|] l]]; cbn in Hc; try discriminate.
  destruct (nonempty c) eqn:Hn; inversion Hc; subst; exact Hn.
Qed.

Lemma openai_loop_outcomes (self : GeminiAnalyzer.t) prompt gc max_retries base_delay :
  forall n attempt w,
    (1 <= n)%nat -> attempt + Z.of_nat n = max_retries ->
    match _call_openai_api_loop self prompt gc max_retries base_delay n attempt w with
    | (inr s, _) => nonempty s = true
    | (inl e, w') => exists pre, trace w' = (pre ++ [openai_warning e])%list
    end.
Proof.
  induction n as [|n IH]; intros attempt w Hn Hmax; [lia|].
  cbn [_call_openai_api_loop]. unfold catch.
  destruct (_call_openai_api_try self prompt gc base_delay attempt w) as [[e|s] w1] eqn:Htry.
  2:{ eapply openai_try_returns. exact Htry. }
  assert (Hlog : (if is_rate_limit e
                  then log WARNING "[OpenAI] API 限流" (Some e)
                  else log WARNING "[OpenAI] API 调用失败" (Some e)) w1
                 = (inr tt, mkWorld (ext w1) (trace w1 ++ [openai_warning e]))).
  { unfold openai_warning. destruct (is_rate_limit e); reflexivity. }
  rewrite (bind_ok _ Hlog).
  destruct (attempt =? max_retries - 1) eqn:Hlast.
  - cbn [raise]. exists (trace w1). reflexivity.
  - apply Z.eqb_neq in Hlast. apply IH; lia.
Qed.

End OpenAIOutcomes.

(** X14 ([_call_openai_api]).  With one retry or more configured, a
    text that is returned is not empty, and an exception that is raised is
    the one of the last warning logged.  With no retry configured the call
    raises the exhaustion error at once, with no call and no log. *)
Theorem openai_call_outcomes {X : Externals} (self : GeminiAnalyzer.t) (prompt : string)
    (gc : GenerationConfig) (w : World) :
  (1 <= gemini_max_retries get_config ->
   match _call_openai_api self prompt gc w with
   | (inr s, _) => nonempty s = true
   | (inl e, w') => exists pre, trace w' = (pre ++ [openai_warning e])%list
   end)
  /\
  (gemini_max_retries get_config <= 0 ->
   _call_openai_api self prompt gc w = (inl exhausted_error, w)).
Proof.
  split; intros Hmax; unfold _call_openai_api; cbv zeta.
  - apply openai_loop_outcomes; lia.
  - replace (Z.to_nat (gemini_max_retries get_config)) with O by lia. reflexivity.
Qed.

(** With three retries and a served completion the call returns the text
    at once; with no retries it raises without calling. *)
Example sample_openai_calls :
  outcome (_call_openai_api (X:=SampleProviders.openai_up) Sample.openai_analyzer "复盘"
             (mkGenerationConfig None None))
          (Sample.start SampleProviders.openai_up Sample.morning_state)
  = inr "## 大盘复盘"
  /\
  trace (world_after (_call_openai_api (X:=SampleProviders.openai_up) Sample.openai_analyzer "复盘"
                        (mkGenerationConfig None None))
           (Sample.start SampleProviders.openai_up Sample.morning_state))
  = [Invoke openai_call]
  /\
  outcome (_call_openai_api (X:=SampleProviders.no_retries) Sample.openai_analyzer "复盘"
             (mkGenerationConfig None None))
          (Sample.start SampleProviders.no_retries Sample.morning_state)
  = inl exhausted_error
  /\
  trace (world_after (_call_openai_api (X:=SampleProviders.no_retries) Sample.openai_analyzer "复盘"
                        (mkGenerationConfig None None))
           (Sample.start SampleProviders.no_retries Sample.morning_state))
  = [].
Proof. repeat split; vm_compute; reflexivity. Qed.

(* ===================================================================== *)
(** * The news search *)
(* ===================================================================== *)

Section NewsProofs.
Context {X : Externals}.

Lemma search_loop_run (search : SearchService) :
  forall queries all_news w,
  exists stopped w' evs,
    search_loop search queries all_news w
    = (inr ((all_news ++ List.concat (answered search queries (ext w)))%list, stopped), w')
    /\ trace w' = (trace w ++ evs)%list
    /\ calls evs <= Z.of_nat (List.length queries)
    /\ slept evs = 0
    /\ (stopped = None -> calls evs = Z.of_nat (List.length queries)).
Proof.
  induction queries as [|query rest IH]; intros all_news w.
  - exists None, w, []. cbn. rewrite !app_nil_r. repeat split; reflexivity || lia.
  - cbn [search_loop answered].
    destruct (search "market" "大盘" 3 (str_split query) (ext w)) as [[e|response] x'] eqn:Hcall.
    + exists (Some e). eexists. exists [Invoke "search_stock_news"].
      split; [|split; [|split; [|split]]].
      * erewrite bind_ok.
        2:{ erewrite catch_raise;
              [reflexivity|erewrite bind_raise; [reflexivity|]; apply invoke_raise; exact Hcall]. }
        cbn [List.concat]. rewrite app_nil_r. reflexivity.
      * reflexivity.
      * cbn [List.length]. rewrite Nat2Z.inj_succ. unfold calls. cbn. lia.
      * reflexivity.
      * discriminate.
    + set (w1 := mkWorld x' (trace w ++ [Invoke "search_stock_news"])).
      assert (Hstep : catch (response <- invoke "search_stock_news"
                                           (search "market" "大盘" 3 (str_split query)) ;;
                             ret (inr response))
                        (fun e => ret (inl e)) w
                      = (inr (inr response), w1)).
      { apply catch_ok. erewrite bind_ok; [|apply invoke_ok; exact Hcall]. reflexivity. }
      rewrite (bind_ok _ Hstep). cbv beta iota. cbn [List.concat].
      assert (Hnext : forall news w2 pre,
                 trace w2 = (trace w ++ Invoke "search_stock_news" :: pre)%list ->
                 ext w2 = x' -> calls pre = 0 -> slept pre = 0 ->
                 exists stopped w' evs,
                   search_loop search rest news w2
                   = (inr ((news ++ List.concat (answered search rest x'))%list, stopped), w')
                   /\ trace w' = (trace w ++ evs)%list
                   /\ calls evs <= Z.of_nat (List.length (query :: rest))
                   /\ slept evs = 0
                   /\ (stopped = None -> calls evs = Z.of_nat (List.length (query :: rest)))).
      { intros news w2 pre Htr Hx Hc0 Hs0.
        destruct (IH news w2) as (stopped & w' & evs & Hrun & Htr' & Hc & Hs & Hall).
        exists stopped, w', (Invoke "search_stock_news" :: pre ++ evs)%list.
        rewrite Hx in Hrun. split; [exact Hrun|]. split; [|split; [|split]].
        - rewrite Htr', Htr, <- app_assoc. reflexivity.
        - change (Invoke "search_stock_news" :: pre ++ evs)%list
            with ([Invoke "search_stock_news"] ++ pre ++ evs)%list.
          rewrite !calls_app, Hc0. cbn [List.length]. rewrite Nat2Z.inj_succ.
          change (calls [Invoke "search_stock_news"]) with 1. lia.
        - change (Invoke "search_stock_news" :: pre ++ evs)%list
            with ([Invoke "search_stock_news"] ++ pre ++ evs)%list.
          rewrite !slept_app, Hs0, Hs. reflexivity.
        - intros Hn. specialize (Hall Hn).
          change (Invoke "search_stock_news" :: pre ++ evs)%list
            with ([Invoke "search_stock_news"] ++ pre ++ evs)%list.
          rewrite !calls_app, Hc0, Hall. cbn [List.length]. rewrite Nat2Z.inj_succ.
          change (calls [Invoke "search_stock_news"]) with 1. lia. }
      destruct response as [response|].
      * destruct (results response) as [|item items] eqn:Hres.
        -- rewrite app_nil_l.
           apply (Hnext all_news w1 []); reflexivity.
        -- erewrite bind_ok; [|apply log_step].
           destruct (Hnext (all_news ++ item :: items)%list
                       (mkWorld (ext w1) (trace w1 ++ [Log INFO "[大盘] 搜索获取结果" None]))
                       [Log INFO "[大盘] 搜索获取结果" None])
             as (stopped & w' & evs & Hrun & Hrest);
             [cbn [trace w1]; rewrite <- app_assoc; reflexivity|reflexivity|reflexivity|reflexivity|].
           exists stopped, w', evs. rewrite Hrun, <- app_assoc. split; [reflexivity|exact Hrest].
      * rewrite app_nil_l. apply (Hnext all_news w1 []); reflexivity.
Qed.

End NewsProofs.

(** X15 ([search_market_news]).  The search never raises, sends at most
    three queries and never sleeps.  Without a search service it returns the
    empty list without a call; with one it returns the results of the
    queries answered before the first failing call, in the order of the
    queries. *)
Theorem search_market_news_collects {X : Externals} (search_service : option SearchService)
    (w : World) :
  exists news w' evs,
    search_market_news search_service w = (inr news, w')
    /\ trace w' = (trace w ++ evs)%list
    /\ calls evs <= 3
    /\ slept evs = 0
    /\ match search_service with
       | None => news = [] /\ calls evs = 0
       | Some search =>
           news = List.concat (answered search (search_queries (datetime_now (ext w))) (ext w))
       end.
Proof.
  destruct search_service as [search|]; cbn [search_market_news].
  - rewrite (@bind_ok _ _ _ now _ w (datetime_now (ext w)) w eq_refl). cbv zeta.
    erewrite bind_ok; [|apply log_step].
    set (w0 := mkWorld (ext w) (trace w ++ [Log INFO "[大盘] 开始搜索市场新闻..." None])).
    destruct (search_loop_run search (search_queries (datetime_now (ext w))) [] w0)
      as (stopped & w1 & evs & Hrun & Htr & Hc & Hs & _).
    rewrite (bind_ok _ Hrun). cbn [app] in *.
    destruct stopped as [e|]; (erewrite bind_ok; [|apply log_step]);
      eexists; eexists; eexists; (split; [reflexivity|]);
      cbn [trace]; rewrite Htr; cbn [trace w0]; rewrite <- !app_assoc;
      (split; [reflexivity|]);
      cbn [app];
      match goal with
      | |- calls (?a :: ?l ++ [?b]) <= _ /\ _ =>
          change (a :: l ++ [b])%list with ([a] ++ l ++ [b])%list
      end;
      rewrite !calls_app, !slept_app, Hs; cbn [search_queries List.length] in Hc;
      (split; [unfold calls at 1 3; cbn; lia|]); split; reflexivity.
  - eexists. eexists. eexists. split; [reflexivity|].
    cbn [trace]. split; [reflexivity|]. repeat split; vm_compute; discriminate.
Qed.

(** The flaky service: the items of the first answer are kept, the third
    query is not sent. *)
Example sample_news_after_failure :
  map title (match outcome (search_market_news (Some SampleSearch.flaky_search))
                     (Sample.start Sample.sectors_up Sample.morning_state) with
             | inr news => news
             | inl _ => []
             end)
  = ["沪指收涨"; "两市放量"]
  /\
  calls (trace (world_after (search_market_news (Some SampleSearch.flaky_search))
                  (Sample.start Sample.sectors_up Sample.morning_state))) = 2.
Proof. split; vm_compute; reflexivity. Qed.

(** The keywords of the three queries in January 2026. *)
Example sample_keywords :
  map title (match outcome (search_market_news (Some SampleSearch.echo_search))
                     (Sample.start Sample.sectors_up Sample.morning_state) with
             | inr news => news
             | inl _ => []
             end)
  = [ "A股"; "大盘"; "复盘"; "2026年1月";
      "股市"; "行情"; "分析"; "今日"; "2026年1月";
      "A股"; "市场"; "热点"; "板块"; "2026年1月" ].
Proof. vm_compute. reflexivity. Qed.

(* ===================================================================== *)
(** * The margin balances *)
(* ===================================================================== *)

Section MarginProofs.
Context {X : Externals} {MD : MarginData}.

Lemma never_raises_sleep (d : Z) : 0 <= d -> never_raises (sleep d).
Proof. intros H w. eexists. eexists. apply sleep_nonneg. exact H. Qed.

Lemma sse_step (start_date end_date : string) (w : World) :
  exists r w' evs,
    catch (df <- invoke "stock_margin_sse" (stock_margin_sse start_date end_date) ;;
           ret (inr df))
          (fun e => ret (inl e)) w = (inr r, w')
    /\ trace w' = (trace w ++ [Invoke "stock_margin_sse"])%list
    /\ evs = [Invoke "stock_margin_sse"]
    /\ match r with
       | inr df => exists x', stock_margin_sse start_date end_date (ext w) = (inr df, x')
       | inl e => exists x', stock_margin_sse start_date end_date (ext w) = (inl e, x')
       end.
Proof.
  destruct (stock_margin_sse start_date end_date (ext w)) as [[e|df] x'] eqn:Hcall.
  - exists (inl e). eexists. eexists. split; [|split; [|split]].
    + erewrite catch_raise;
        [reflexivity|erewrite bind_raise; [reflexivity|]; apply invoke_raise; exact Hcall].
    + reflexivity.
    + reflexivity.
    + eauto.
  - exists (inr df). eexists. eexists. split; [|split; [|split]].
    + apply catch_ok. erewrite bind_ok; [|apply invoke_ok; exact Hcall]. reflexivity.
    + reflexivity.
    + reflexivity.
    + eauto.
Qed.

(** The first loop returns after at most [remaining] calls, two seconds
    of sleep after each call that raised. *)
Lemma sse_loop_run (start_date end_date : string) :
  forall remaining df_sse w,
  exists r w' evs,
    PkgReview.sse_loop start_date end_date remaining df_sse w = (inr r, w')
    /\ trace w' = (trace w ++ evs)%list
    /\ calls evs <= Z.of_nat remaining
    /\ 0 <= slept evs <= 2 * calls evs
    /\ ((forall s e, always_raises (stock_margin_sse s e)) ->
        r = df_sse /\ calls evs = Z.of_nat remaining /\ slept evs = 2 * Z.of_nat remaining
        /\ match remaining with
           | O => evs = []
           | S _ => exists pre, evs = (pre ++ [Invoke "stock_margin_sse"; Sleep 2])%list
           end).
Proof.
  induction remaining as [|n IH]; intros df_sse w.
  - exists df_sse, w, []. cbn. rewrite app_nil_r. repeat split; reflexivity || lia.
  - cbn [PkgReview.sse_loop].
    destruct (sse_step start_date end_date w) as (r & w1 & evs1 & Hstep & Htr1 & _ & Hr).
    rewrite (bind_ok _ Hstep).
    destruct r as [e|df].
    + rewrite (bind_ok _ (@sleep_nonneg X 2 w1 ltac:(lia))).
      set (w2 := mkWorld (after_sleep 2 (ext w1)) (trace w1 ++ [Sleep 2])).
      destruct (IH df_sse w2) as (r & w' & evs & Hrun & Htr & Hc & Hs & Hall).
      exists r, w', ([Invoke "stock_margin_sse"; Sleep 2] ++ evs)%list.
      split; [exact Hrun|]. split; [|split; [|split]].
      * rewrite Htr. cbn [trace w2]. rewrite Htr1, <- !app_assoc. reflexivity.
      * rewrite calls_app. change (calls [Invoke "stock_margin_sse"; Sleep 2]) with 1. lia.
      * rewrite calls_app, slept_app.
        change (calls [Invoke "stock_margin_sse"; Sleep 2]) with 1.
        change (slept [Invoke "stock_margin_sse"; Sleep 2]) with 2. lia.
      * intros Hdown. destruct (Hall Hdown) as (-> & Hc' & Hs' & Hend).
        rewrite calls_app, slept_app.
        change (calls [Invoke "stock_margin_sse"; Sleep 2]) with 1.
        change (slept [Invoke "stock_margin_sse"; Sleep 2]) with 2.
        split; [reflexivity|]. split; [lia|]. split; [lia|].
        destruct n as [|n'].
        -- subst evs. exists []. reflexivity.
        -- destruct Hend as (pre & ->).
           exists ([Invoke "stock_margin_sse"; Sleep 2] ++ pre)%list.
           rewrite <- app_assoc. reflexivity.
    + destruct Hr as (x' & Hcall).
      assert (Hnot : ~ (forall s e, always_raises (stock_margin_sse s e))).
      { intros Hdown. destruct (Hdown start_date end_date (ext w)) as (e & x'' & He).
        congruence. }
      destruct (negb (empty df)).
      * exists (Some df), w1, [Invoke "stock_margin_sse"].
        split; [reflexivity|]. split; [exact Htr1|].
        change (calls [Invoke "stock_margin_sse"]) with 1.
        change (slept [Invoke "stock_margin_sse"]) with 0.
        repeat split; try lia. all: contradiction.
      * destruct (IH (Some df) w1) as (r & w' & evs & Hrun & Htr & Hc & Hs & Hall).
        exists r, w', ([Invoke "stock_margin_sse"] ++ evs)%list.
        split; [exact Hrun|]. split; [|split; [|split]].
        -- rewrite Htr, Htr1, <- !app_assoc. reflexivity.
        -- rewrite calls_app. change (calls [Invoke "stock_margin_sse"]) with 1. lia.
        -- rewrite calls_app, slept_app.
           change (calls [Invoke "stock_margin_sse"]) with 1.
           change (slept [Invoke "stock_margin_sse"]) with 0. lia.
        -- intros Hdown. contradiction.
Qed.

(** The second loop likewise, twenty seconds after each call that raised
    or whose table could not be read. *)
Lemma szse_loop_run (trade_date : string) :
  forall remaining w,
  exists v w' evs,
    PkgReview.szse_loop trade_date remaining w = (inr v, w')
    /\ trace w' = (trace w ++ evs)%list
    /\ calls evs <= Z.of_nat remaining
    /\ 0 <= slept evs <= 20 * calls evs
    /\ ((forall d, always_raises (stock_margin_szse d)) ->
        v = zero /\ calls evs = Z.of_nat remaining /\ slept evs = 20 * Z.of_nat remaining).
Proof.
  induction remaining as [|n IH]; intros w.
  - exists zero, w, []. cbn. rewrite app_nil_r. repeat split; reflexivity || lia.
  - cbn [PkgReview.szse_loop].
    match goal with |- context [bind (catch ?c ?h) _] => set (step := catch c h) end.
    assert (Hstep : exists r w1,
               step w = (inr r, w1)
               /\ trace w1 = (trace w ++ [Invoke "stock_margin_szse"])%list
               /\ ((forall d, always_raises (stock_margin_szse d)) -> exists e, r = inl e)).
    { unfold step.
      destruct (stock_margin_szse trade_date (ext w)) as [[e|df] x'] eqn:Hcall.
      - exists (inl e), (mkWorld x' (trace w ++ [Invoke "stock_margin_szse"])).
        split; [|split; [reflexivity|eauto]].
        erewrite catch_raise;
          [reflexivity|erewrite bind_raise; [reflexivity|]; apply invoke_raise; exact Hcall].
      - assert (Hnot : (forall d, always_raises (stock_margin_szse d)) ->
                       forall r : exn + option float, exists e, r = inl e).
        { intros Hdown. destruct (Hdown trade_date (ext w)) as (e & x'' & He). congruence. }
        set (w1 := mkWorld x' (trace w ++ [Invoke "stock_margin_szse"])).
        assert (Hinv : invoke "stock_margin_szse" (stock_margin_szse trade_date) w
                       = (inr df, w1)) by (apply invoke_ok; exact Hcall).
        unfold catch. rewrite (bind_ok _ Hinv).
        destruct (negb (empty df)).
        + unfold lift, bind.
          destruct (rows df) as [|row rest];
            [eexists; exists w1; split; [reflexivity|split; [reflexivity|auto]]|].
          destruct (and_then (getitem row (if has_column df "rzbal" then "rzbal" else "融资余额"))
                      PkgReview.to_float) as [e|v];
            eexists; exists w1; (split; [reflexivity|split; [reflexivity|auto]]).
        + eexists. exists w1. split; [reflexivity|split; [reflexivity|auto]]. }
    destruct Hstep as (r & w1 & Hstep & Htr1 & Hdownr).
    rewrite (bind_ok _ Hstep).
    destruct r as [e|[v|]].
    + rewrite (bind_ok _ (@sleep_nonneg X 20 w1 ltac:(lia))).
      set (w2 := mkWorld (after_sleep 20 (ext w1)) (trace w1 ++ [Sleep 20])).
      destruct (IH w2) as (v & w' & evs & Hrun & Htr & Hc & Hs & Hall).
      exists v, w', ([Invoke "stock_margin_szse"; Sleep 20] ++ evs)%list.
      split; [exact Hrun|]. split; [|split; [|split]].
      * rewrite Htr. cbn [trace w2]. rewrite Htr1, <- !app_assoc. reflexivity.
      * rewrite calls_app. change (calls [Invoke "stock_margin_szse"; Sleep 20]) with 1. lia.
      * rewrite calls_app, slept_app.
        change (calls [Invoke "stock_margin_szse"; Sleep 20]) with 1.
        change (slept [Invoke "stock_margin_szse"; Sleep 20]) with 20. lia.
      * intros Hdown. destruct (Hall Hdown) as (-> & Hc' & Hs').
        rewrite calls_app, slept_app.
        change (calls [Invoke "stock_margin_szse"; Sleep 20]) with 1.
        change (slept [Invoke "stock_margin_szse"; Sleep 20]) with 20.
        split; [reflexivity|]. lia.
    + exists v, w1, [Invoke "stock_margin_szse"].
      split; [reflexivity|]. split; [exact Htr1|].
      change (calls [Invoke "stock_margin_szse"]) with 1.
      change (slept [Invoke "stock_margin_szse"]) with 0.
      split; [lia|]. split; [lia|].
      intros Hdown. destruct (Hdownr Hdown) as (e & He). discriminate.
    + destruct (IH w1) as (v & w' & evs & Hrun & Htr & Hc & Hs & Hall).
      exists v, w', ([Invoke "stock_margin_szse"] ++ evs)%list.
      split; [exact Hrun|]. split; [|split; [|split]].
      * rewrite Htr, Htr1, <- !app_assoc. reflexivity.
      * rewrite calls_app. change (calls [Invoke "stock_margin_szse"]) with 1. lia.
      * rewrite calls_app, slept_app.
        change (calls [Invoke "stock_margin_szse"]) with 1.
        change (slept [Invoke "stock_margin_szse"]) with 0. lia.
      * intros Hdown. destruct (Hdownr Hdown) as (e & He). discriminate.
Qed.

End MarginProofs.

Lemma minus_days_in_range (d : datetime) (n : Z) :
  n + 1 <= toordinal d -> exists d', minus_days d n = inr d'.
Proof.
  intros H. unfold minus_days. cbv zeta.
  destruct (toordinal d - n <? 1) eqn:E; [apply Z.ltb_lt in E; lia|].
  destruct (ord2ymd (toordinal d - n)) as [[y m] day]. eauto.
Qed.

Lemma minus_days_out_of_range (d : datetime) (n : Z) :
  toordinal d < n + 1 -> minus_days d n = inl (mkExn OtherError "date value out of range").
Proof.
  intros H. unfold minus_days. cbv zeta.
  destruct (toordinal d - n <? 1) eqn:E; [reflexivity|apply Z.ltb_ge in E; lia].
Qed.

(** A step of the parse that raises ends the report with the parse-error line. *)
Ltac parse_error_case w tac :=
  exists PkgReview.margin_parse_error, w, (@nil event);
  split; [reflexivity|]; split; [reflexivity|];
  split; [rewrite app_nil_r; reflexivity|];
  split; [cbn; lia|]; split; [cbn; lia|];
  let H1 := fresh "H" in let H2 := fresh "H" in let H3 := fresh "H" in
  let H4 := fresh "H" in let H5 := fresh "H" in let H6 := fresh "H" in
  intros ? ? ? ? ? H1 H2 H3 H4 H5 H6;
  try (inversion H2; subst); try rewrite H3 in *; try rewrite H5 in *;
  try match goal with H : inr _ = inr _ |- _ => inversion H; subst end;
  tac.

Section MarginReport.
Context {X : Externals} {MD : MarginData}.

(** The report of a table that was fetched and is not empty: parsed, or
    the parse-error line; either way after at most 9 more calls. *)
Lemma margin_report_run (df_sse : DataFrame Row) (w : World) :
  let report :=
    catch
      (sorted <- lift (if has_column df_sse "信用交易日期"
                       then inr (sort_values_descending "信用交易日期" (rows df_sse))
                       else inl (mkExn KeyError "信用交易日期")) ;;
       last_sse <- lift (match sorted with
                         | row :: _ => inr row
                         | [] => inl (mkExn OtherError
                                        "single positional indexer is out-of-bounds")
                         end) ;;
       sse_val <- lift (and_then (getitem last_sse "融资余额") PkgReview.to_float) ;;
       trade_date <- lift (and_then (getitem last_sse "信用交易日期") PkgReview.replace_dashes) ;;
       szse_val_yuan <- PkgReview.szse_loop trade_date 9 ;;
       let total_val := add sse_val szse_val_yuan in
       ret ("**融资余额统计 (" ++ trade_date ++ ")**：" ++ nl
            ++ "- 沪深两市合计：" ++ format_grouped 2 total_val ++ " 元" ++ nl
            ++ "- 沪市融资余额：" ++ format_grouped 2 sse_val ++ " 元" ++ nl
            ++ "- 深市融资余额：" ++ format_grouped 2 szse_val_yuan ++ " 元" ++ nl))
      (fun e => ret PkgReview.margin_parse_error) in
  exists s w' evs,
    report w = (inr s, w')
    /\ nonempty s = true
    /\ trace w' = (trace w ++ evs)%list
    /\ calls evs <= 9
    /\ 0 <= slept evs <= 180
    /\ (forall last rest v sse_val day,
          has_column df_sse "信用交易日期" = true ->
          sort_values_descending "信用交易日期" (rows df_sse) = last :: rest ->
          getitem last "融资余额" = inr v ->
          PkgReview.to_float v = inr sse_val ->
          getitem last "信用交易日期" = inr (PyStr day) ->
          (forall d, always_raises (stock_margin_szse d)) ->
          s = "**融资余额统计 (" ++ remove_dashes day ++ ")**：" ++ nl
              ++ "- 沪深两市合计：" ++ format_grouped 2 (add sse_val zero) ++ " 元" ++ nl
              ++ "- 沪市融资余额：" ++ format_grouped 2 sse_val ++ " 元" ++ nl
              ++ "- 深市融资余额：" ++ format_grouped 2 zero ++ " 元" ++ nl
          /\ calls evs = 9 /\ slept evs = 180).
Proof.
  intros report. unfold report. clear report.
  unfold catch, bind at 1, lift at 1.
  destruct (has_column df_sse "信用交易日期") eqn:Hcol.
  2:{ parse_error_case w ltac:(discriminate). }
  destruct (sort_values_descending "信用交易日期" (rows df_sse)) as [|last rest] eqn:Hsort.
  { parse_error_case w ltac:(discriminate). }
  unfold bind at 1, lift at 1.
  destruct (getitem last "融资余额") as [e|v] eqn:Hv.
  { parse_error_case w ltac:(congruence). }
  cbn [and_then]. unfold bind at 1, lift at 1.
  destruct (PkgReview.to_float v) as [e|sse_val] eqn:Hfloat.
  { parse_error_case w ltac:(congruence). }
  unfold bind at 1, lift at 1.
  destruct (getitem last "信用交易日期") as [e|dv] eqn:Hd.
  { parse_error_case w ltac:(congruence). }
  cbn [and_then].
  destruct (PkgReview.replace_dashes dv) as [e|trade_date] eqn:Hrep.
  { parse_error_case w ltac:(discriminate). }
  destruct (szse_loop_run trade_date 9 w) as (szse & w' & evs & Hrun & Htr & Hc & Hs & Hall).
  rewrite (bind_ok _ Hrun). cbv zeta.
  eexists. exists w', evs. split; [reflexivity|]. split; [reflexivity|].
  split; [exact Htr|]. split; [exact Hc|]. split; [lia|].
  intros last' rest' v' sse_val' day _ H1 H2 H3 H4 Hdown.
  inversion H1; subst last' rest'. rewrite Hv in H2. inversion H2; subst v'.
  rewrite Hfloat in H3. inversion H3; subst sse_val'.
  rewrite Hd in H4. inversion H4; subst dv. cbn in Hrep. inversion Hrep; subst trade_date.
  destruct (Hall Hdown) as (-> & Hc' & Hs'). split; [reflexivity|]. split; assumption.
Qed.

(** Every run of [get_margin_data]. *)
Lemma margin_data_run (w : World) :
  exists r w' evs,
    PkgReview.get_margin_data w = (r, w')
    /\ trace w' = (trace w ++ evs)%list
    /\ calls evs <= 18
    /\ 0 <= slept evs <= 198
    /\ (11 <= toordinal (datetime_now (ext w)) -> exists s, r = inr s /\ nonempty s = true)
    /\ (toordinal (datetime_now (ext w)) < 11 ->
        r = inl (mkExn OtherError "date value out of range") /\ evs = []).
Proof.
  unfold PkgReview.get_margin_data. cbv zeta.
  rewrite (@bind_ok _ _ _ now _ w (datetime_now (ext w)) w eq_refl).
  rewrite (@bind_ok _ _ _ now _ w (datetime_now (ext w)) w eq_refl).
  destruct (Z_lt_le_dec (toordinal (datetime_now (ext w))) 11) as [Hout|Hin].
  - rewrite (@minus_days_out_of_range (datetime_now (ext w)) 10 Hout).
    eexists. exists w, []. split; [reflexivity|]. rewrite app_nil_r.
    split; [reflexivity|]. cbn. repeat split; try lia.
  - destruct (@minus_days_in_range (datetime_now (ext w)) 10 Hin) as (earlier & ->).
    rewrite (@bind_ok _ _ _ (lift (inr earlier)) _ w earlier w eq_refl).
    destruct (sse_loop_run (strftime_compact earlier)
                (strftime_compact (datetime_now (ext w))) 9 None w)
      as (r & w1 & evs1 & Hrun & Htr1 & Hc1 & Hs1 & _).
    rewrite (bind_ok _ Hrun).
    assert (Hnone : exists r0 w' evs,
               ret (A:=string) PkgReview.no_margin_data w1 = (r0, w')
               /\ trace w' = (trace w ++ evs)%list
               /\ calls evs <= 18 /\ 0 <= slept evs <= 198
               /\ (11 <= toordinal (datetime_now (ext w)) ->
                   exists s, r0 = inr s /\ nonempty s = true)
               /\ (toordinal (datetime_now (ext w)) < 11 ->
                   r0 = inl (mkExn OtherError "date value out of range") /\ evs = [])).
    { eexists. exists w1, evs1. split; [reflexivity|]. split; [exact Htr1|].
      split; [lia|]. split; [lia|]. split; [eauto|intros; lia]. }
    destruct r as [df|]; [|exact Hnone].
    destruct (empty df); [exact Hnone|].
    destruct (margin_report_run df w1) as (s & w' & evs & Hrep & Hs & Htr & Hc & Hsl & _).
    exists (inr s), w', (evs1 ++ evs)%list. split; [exact Hrep|].
    split; [rewrite Htr, Htr1, <- app_assoc; reflexivity|].
    rewrite calls_app, slept_app. split; [lia|]. split; [lia|]. split; [eauto|intros; lia].
Qed.

End MarginReport.

(** X16 ([get_margin_data]).  With a clock on or after 0001-01-11 the
    margin summary is returned as a non-empty text and nothing is raised,
    after at most 18 calls of the exchanges and at most 198 seconds of
    sleep. *)
Theorem margin_data_returns {X : Externals} {MD : MarginData} (w : World) :
  11 <= toordinal (datetime_now (ext w)) ->
  exists s w' evs,
    PkgReview.get_margin_data w = (inr s, w')
    /\ nonempty s = true
    /\ trace w' = (trace w ++ evs)%list
    /\ calls evs <= 18
    /\ 0 <= slept evs <= 198.
Proof.
  intros H.
  destruct (margin_data_run w) as (r & w' & evs & Hrun & Htr & Hc & Hs & Hin & _).
  destruct (Hin H) as (s & -> & Hne). exists s, w', evs. auto.
Qed.

Lemma margin_data_returns_witness :
  exists s w' evs,
    PkgReview.get_margin_data (MD:=SampleMargin.margin_up)
      (Sample.start SampleMargin.steady Sample.morning_state) = (inr s, w')
    /\ nonempty s = true
    /\ trace w' = (trace (Sample.start SampleMargin.steady Sample.morning_state) ++ evs)%list
    /\ calls evs <= 18
    /\ 0 <= slept evs <= 198.
Proof.
  apply (@margin_data_returns SampleMargin.steady SampleMargin.margin_up
           (Sample.start SampleMargin.steady Sample.morning_state)).
  vm_compute. discriminate.
Defined.

(** In the first ten days of year 1 the subtraction of ten days raises,
    before any call. *)
Lemma margin_data_clock_out_of_range {X : Externals} {MD : MarginData} (w : World) :
  toordinal (datetime_now (ext w)) < 11 ->
  PkgReview.get_margin_data w = (inl (mkExn OtherError "date value out of range"), w).
Proof.
  intros H. unfold PkgReview.get_margin_data. cbv zeta.
  rewrite (@bind_ok _ _ _ now _ w (datetime_now (ext w)) w eq_refl).
  rewrite (@bind_ok _ _ _ now _ w (datetime_now (ext w)) w eq_refl).
  rewrite (@minus_days_out_of_range (datetime_now (ext w)) 10 H). reflexivity.
Qed.

(** X17 ([get_margin_data]).  When the Shanghai endpoint raises at every
    call, nine calls are made and two seconds are slept after each of them,
    the last one included (18 seconds in all), and the text returned is the
    notice that no data could be fetched. *)
Theorem margin_data_sse_down {X : Externals} {MD : MarginData} (w : World) :
  11 <= toordinal (datetime_now (ext w)) ->
  (forall s e, always_raises (stock_margin_sse s e)) ->
  exists w' evs,
    PkgReview.get_margin_data w = (inr PkgReview.no_margin_data, w')
    /\ trace w' = (trace w ++ evs)%list
    /\ calls evs = 9
    /\ slept evs = 18
    /\ exists pre, evs = (pre ++ [Invoke "stock_margin_sse"; Sleep 2])%list.
Proof.
  intros Hin Hdown. unfold PkgReview.get_margin_data. cbv zeta.
  rewrite (@bind_ok _ _ _ now _ w (datetime_now (ext w)) w eq_refl).
  rewrite (@bind_ok _ _ _ now _ w (datetime_now (ext w)) w eq_refl).
  destruct (@minus_days_in_range (datetime_now (ext w)) 10 Hin) as (earlier & ->).
  rewrite (@bind_ok _ _ _ (lift (inr earlier)) _ w earlier w eq_refl).
  set (start_date := strftime_compact earlier).
  set (end_date := strftime_compact (datetime_now (ext w))).
  destruct (sse_loop_run start_date end_date 9 None w)
    as (r & w1 & evs & Hrun & Htr & _ & _ & Hall).
  destruct (Hall Hdown) as (-> & Hc & Hs & Hend).
  rewrite (bind_ok _ Hrun). exists w1, evs.
  split; [reflexivity|]. split; [exact Htr|]. split; [exact Hc|]. split; [exact Hs|exact Hend].
Qed.

Lemma margin_data_sse_down_witness :
  exists w' evs,
    PkgReview.get_margin_data (MD:=SampleMargin.sse_down)
      (Sample.start SampleMargin.steady Sample.morning_state)
    = (inr PkgReview.no_margin_data, w')
    /\ trace w' = (trace (Sample.start SampleMargin.steady Sample.morning_state) ++ evs)%list
    /\ calls evs = 9
    /\ slept evs = 18
    /\ exists pre, evs = (pre ++ [Invoke "stock_margin_sse"; Sleep 2])%list.
Proof.
  apply (@margin_data_sse_down SampleMargin.steady SampleMargin.sse_down
           (Sample.start SampleMargin.steady Sample.morning_state)).
  - vm_compute. discriminate.
  - intros s e x. exists Sample.throttled, x. reflexivity.
Defined.

(** X18 ([get_margin_data]).  When Shanghai answers at once and the
    Shenzhen endpoint raises at every call, ten calls are made in all and
    180 seconds are slept, twenty after each failure, and the summary is
    still produced: the Shenzhen balance is printed as 0.00 and the total
    is the Shanghai balance. *)
Theorem margin_data_szse_down {X : Externals} {MD : MarginData} (w : World)
    (df_sse : DataFrame Row) (last : Row) (rest : list Row) (v : pyval) (sse_val : float)
    (day : string) :
  11 <= toordinal (datetime_now (ext w)) ->
  (forall s e x, exists x', stock_margin_sse s e x = (inr df_sse, x')) ->
  empty df_sse = false ->
  has_column df_sse "信用交易日期" = true ->
  sort_values_descending "信用交易日期" (rows df_sse) = last :: rest ->
  getitem last "融资余额" = inr v ->
  PkgReview.to_float v = inr sse_val ->
  getitem last "信用交易日期" = inr (PyStr day) ->
  (forall d, always_raises (stock_margin_szse d)) ->
  exists w' evs,
    PkgReview.get_margin_data w
    = (inr ("**融资余额统计 (" ++ remove_dashes day ++ ")**：" ++ nl
            ++ "- 沪深两市合计：" ++ format_grouped 2 (add sse_val zero) ++ " 元" ++ nl
            ++ "- 沪市融资余额：" ++ format_grouped 2 sse_val ++ " 元" ++ nl
            ++ "- 深市融资余额：" ++ format_grouped 2 zero ++ " 元" ++ nl), w')
    /\ trace w' = (trace w ++ evs)%list
    /\ calls evs = 10
    /\ slept evs = 180.
Proof.
  intros Hin Hsse Hne Hcol Hsort Hv Hf Hd Hdown. unfold PkgReview.get_margin_data. cbv zeta.
  rewrite (@bind_ok _ _ _ now _ w (datetime_now (ext w)) w eq_refl).
  rewrite (@bind_ok _ _ _ now _ w (datetime_now (ext w)) w eq_refl).
  destruct (@minus_days_in_range (datetime_now (ext w)) 10 Hin) as (earlier & ->).
  rewrite (@bind_ok _ _ _ (lift (inr earlier)) _ w earlier w eq_refl).
  destruct (Hsse (strftime_compact earlier) (strftime_compact (datetime_now (ext w))) (ext w))
    as (x' & Hcall).
  set (w1 := mkWorld x' (trace w ++ [Invoke "stock_margin_sse"])).
  erewrite bind_ok.
  2:{ cbn [PkgReview.sse_loop]. erewrite bind_ok.
      2:{ apply catch_ok. erewrite bind_ok; [|apply invoke_ok; exact Hcall]. reflexivity. }
      cbv beta iota. rewrite Hne. reflexivity. }
  cbv beta iota. rewrite Hne.
  destruct (margin_report_run df_sse w1) as (s & w' & evs & Hrep & _ & Htr & _ & _ & Hall).
  destruct (Hall last rest v sse_val day Hcol Hsort Hv Hf Hd Hdown) as (-> & Hc & Hs).
  exists w', ([Invoke "stock_margin_sse"] ++ evs)%list.
  split; [exact Hrep|]. split; [|split].
  - rewrite Htr. cbn [trace w1]. rewrite <- app_assoc. reflexivity.
  - rewrite calls_app, Hc. reflexivity.
  - rewrite slept_app, Hs. reflexivity.
Qed.

Lemma margin_data_szse_down_witness :
  exists w' evs,
    PkgReview.get_margin_data (MD:=SampleMargin.szse_down)
      (Sample.start SampleMargin.steady Sample.morning_state)
    = (inr ("**融资余额统计 (20260105)**：" ++ nl
            ++ "- 沪深两市合计：1,260,000,000,000.00 元" ++ nl
            ++ "- 沪市融资余额：1,260,000,000,000.00 元" ++ nl
            ++ "- 深市融资余额：0.00 元" ++ nl), w')
    /\ trace w' = (trace (Sample.start SampleMargin.steady Sample.morning_state) ++ evs)%list
    /\ calls evs = 10
    /\ slept evs = 180.
Proof.
  apply (@margin_data_szse_down SampleMargin.steady SampleMargin.szse_down
           (Sample.start SampleMargin.steady Sample.morning_state)
           SampleMargin.sse_table
           [ ("信用交易日期", PyStr "2026-01-05"); ("融资余额", PyInt 1260000000000) ]
           [ [ ("信用交易日期", PyStr "2025-12-31"); ("融资余额", PyInt 1250000000000) ] ]
           (PyInt 1260000000000) (of_Z 1260000000000) "2026-01-05").
  - vm_compute. discriminate.
  - intros s e x. exists x. reflexivity.
  - reflexivity.
  - reflexivity.
  - vm_compute. reflexivity.
  - reflexivity.
  - vm_compute. reflexivity.
  - reflexivity.
  - intros d x. exists Sample.throttled, x. reflexivity.
Defined.

(** With both exchanges answering, the sample report. *)
Example sample_margin_report :
  outcome (PkgReview.get_margin_data (MD:=SampleMargin.margin_up))
          (Sample.start SampleMargin.steady Sample.morning_state)
  = inr ("**融资余额统计 (20260105)**：" ++ nl
         ++ "- 沪深两市合计：2,445,050,000,000.00 元" ++ nl
         ++ "- 沪市融资余额：1,260,000,000,000.00 元" ++ nl
         ++ "- 深市融资余额：1,185,050,000,000.00 元" ++ nl)
  /\
  filter is_invoke (trace (world_after (PkgReview.get_margin_data (MD:=SampleMargin.margin_up))
                    (Sample.start SampleMargin.steady Sample.morning_state)))
  = [Invoke "stock_margin_sse"; Invoke "stock_margin_szse"].
Proof. split; vm_compute; reflexivity. Qed.

(* ===================================================================== *)
(** * The daily review of the package copy *)
(* ===================================================================== *)

Section DailyReview.
Context {X : Externals} {MD : MarginData}.

Lemma search_market_news_total (search_service : option SearchService) :
  never_raises (search_market_news search_service).
Proof.
  intros w. destruct search_service as [search|]; cbn [search_market_news].
  - rewrite (@bind_ok _ _ _ now _ w (datetime_now (ext w)) w eq_refl). cbv zeta.
    erewrite bind_ok; [|apply log_step].
    set (w0 := mkWorld (ext w) (trace w ++ [Log INFO "[大盘] 开始搜索市场新闻..." None])).
    destruct (search_loop_run search (search_queries (datetime_now (ext w))) [] w0)
      as (stopped & w1 & evs & Hrun & _).
    rewrite (bind_ok _ Hrun).
    destruct stopped as [e|]; (erewrite bind_ok; [|apply log_step]);
      eexists; eexists; reflexivity.
  - eexists. eexists. reflexivity.
Qed.

Lemma build_review_prompt_total (overview : MarketOverview.t) (news : list SearchResult) :
  clock_in_range -> never_raises (PkgReview._build_review_prompt overview news).
Proof.
  intros Hclock w. unfold PkgReview._build_review_prompt.
  destruct (margin_data_run w) as (r & w' & evs & Hrun & _ & _ & _ & Hin & _).
  destruct (Hin (Hclock (ext w))) as (s & -> & _).
  rewrite (bind_ok _ Hrun). eexists. eexists. reflexivity.
Qed.

End DailyReview.

(** X19 ([run_daily_review]).  With a clock that never reads a date
    before 0001-01-11, the daily review of the package copy returns a
    non-empty report in every world: whatever the data sources, the search
    service and the LLM providers do, no exception escapes. *)
Theorem daily_review_returns {X : Externals} {MD : MarginData} (self : MarketAnalyzer)
    (search_service : option SearchService) :
  clock_in_range ->
  yields_report (PkgReview.run_daily_review self search_service).
Proof.
  intros Hclock w. unfold PkgReview.run_daily_review.
  erewrite bind_ok; [|apply log_step].
  match goal with |- context [bind _ _ ?w0] => set (w1 := w0) end.
  destruct (@market_overview_total X 9 w1) as (overview & w2 & Hov).
  rewrite (bind_ok _ Hov).
  destruct (search_market_news_total search_service w2) as (news & w3 & Hnews).
  rewrite (bind_ok _ Hnews).
  assert (Hrev : yields_report (PkgReview.generate_market_review self overview news)).
  { apply Pkg_generate_market_review_yields. intros ov nw.
    apply build_review_prompt_total. exact Hclock. }
  destruct (Hrev w3) as (report & w4 & Hrun & Hne).
  rewrite (bind_ok _ Hrun).
  erewrite bind_ok; [|apply log_step].
  eexists. eexists. split; [reflexivity|exact Hne].
Qed.

Lemma daily_review_returns_witness :
  yields_report (PkgReview.run_daily_review (X:=SampleMargin.steady) (MD:=SampleMargin.margin_up)
                   (mkMarketAnalyzer (Some Sample.openai_analyzer)) None).
Proof.
  apply (@daily_review_returns SampleMargin.steady SampleMargin.margin_up
           (mkMarketAnalyzer (Some Sample.openai_analyzer)) None).
  intros x. vm_compute. discriminate.
Defined.

Section ReviewCost.
Context {X : Externals}.

(** [within_bind] and [within_catch] with the sums left to arithmetic. *)
Lemma within_seq {A B} (n1 s1 n2 s2 n s : Z) (c : M A) (k : A -> M B) :
  within n1 s1 c -> (forall a, within n2 s2 (k a)) ->
  0 <= n2 -> 0 <= s2 -> n1 + n2 <= n -> s1 + s2 <= s ->
  within n s (bind c k).
Proof.
  intros Hc Hk Hn Hs Hn' Hs'.
  apply (@within_weaken _ _ (n1 + n2) (s1 + s2)); [|exact Hn'|exact Hs'].
  apply within_bind; assumption.
Qed.

Lemma within_handle {A} (n1 s1 n2 s2 n s : Z) (c : M A) (h : exn -> M A) :
  within n1 s1 c -> (forall e, within n2 s2 (h e)) ->
  0 <= n2 -> 0 <= s2 -> n1 + n2 <= n -> s1 + s2 <= s ->
  within n s (catch c h).
Proof.
  intros Hc Hk Hn Hs Hn' Hs'.
  apply (@within_weaken _ _ (n1 + n2) (s1 + s2)); [|exact Hn'|exact Hs'].
  apply within_catch; assumption.
Qed.

Lemma within_lift {A} (r : result A) : within 0 0 (lift r).
Proof.
  intros w. exists []. unfold world_after, lift. destruct r; cbn; rewrite app_nil_r;
    repeat split; reflexivity || lia.
Qed.

(** One pass of the OpenAI loop: one call, and a wait of at most 60
    seconds, none at the first pass. *)
Lemma openai_try_bounded (self : GeminiAnalyzer.t) prompt generation_config base_delay attempt :
  within 1 (if 0 <? attempt then 60 else 0)
    (_call_openai_api_try self prompt generation_config base_delay attempt).
Proof.
  unfold _call_openai_api_try.
  apply (@within_seq _ _ 0 (if 0 <? attempt then 60 else 0) 1 0).
  - destruct (0 <? attempt).
    + cbv zeta. apply (@within_seq _ _ 0 0 0 60); [apply within_log| |lia..].
      intros _. apply within_sleep; [apply Z.le_min_r|lia].
    + apply within_ret.
  - intros _. apply (@within_seq _ _ 0 0 1 0); [| |lia..].
    + destruct (_openai_client self); [apply within_ret|apply within_raise].
    + intros client. apply (@within_seq _ _ 1 0 0 0); [apply within_invoke| |lia..].
      intros response. destruct (completion_content response);
        [apply within_ret|apply within_raise].
  - lia.
  - lia.
  - lia.
  - destruct (0 <? attempt); lia.
Qed.

Lemma openai_loop_bounded (self : GeminiAnalyzer.t) prompt generation_config
    max_retries base_delay :
  forall remaining attempt,
    within (Z.of_nat remaining)
      (60 * Z.of_nat remaining - (if 0 <? attempt then 0 else Z.min 60 (60 * Z.of_nat remaining)))
      (_call_openai_api_loop self prompt generation_config max_retries base_delay
         remaining attempt).
Proof.
  induction remaining as [|n IH]; intros attempt.
  - cbn [_call_openai_api_loop]. eapply within_weaken; [apply within_raise|lia|].
    destruct (0 <? attempt); cbn; lia.
  - cbn [_call_openai_api_loop].
    eapply within_handle; [apply openai_try_bounded| | | | |].
    + intros e. eapply within_seq.
      * destruct (is_rate_limit e); apply within_log.
      * intros _. destruct (attempt =? max_retries - 1).
        -- eapply within_weaken; [apply within_raise| |].
           ++ apply (Nat2Z.is_nonneg n).
           ++ instantiate (1 := 60 * Z.of_nat n). lia.
        -- eapply within_weaken; [apply (IH (attempt + 1))|lia|].
           destruct (0 <? attempt + 1); lia.
      * lia.
      * lia.
      * apply Z.le_refl.
      * apply Z.le_refl.
    + lia.
    + lia.
    + lia.
    + rewrite Nat2Z.inj_succ. destruct (0 <? attempt); lia.
Qed.

(** [_call_openai_api]: at most [max_retries] calls and 60 seconds of
    waiting before each pass but the first. *)
Lemma openai_call_bounded (self : GeminiAnalyzer.t) prompt generation_config :
  within (Z.max 0 (gemini_max_retries get_config))
          (60 * Z.max 0 (gemini_max_retries get_config - 1))
    (_call_openai_api self prompt generation_config).
Proof.
  unfold _call_openai_api. cbv zeta.
  eapply within_weaken; [apply openai_loop_bounded| |].
  - lia.
  - change (0 <? 0) with false. cbv iota. lia.
Qed.

Variable class_attributes : list string.
Variable _build_review_prompt : MarketOverview.t -> list SearchResult -> M string.
Variable _generate_template_review : MarketOverview.t -> list SearchResult -> M string.
Variables prompt_calls prompt_wait : Z.
Hypothesis prompt_bounded :
  forall overview news, within prompt_calls prompt_wait (_build_review_prompt overview news).
Hypothesis template_bounded :
  forall overview news, within 0 0 (_generate_template_review overview news).
Hypothesis prompt_calls_nonneg : 0 <= prompt_calls.
Hypothesis prompt_wait_nonneg : 0 <= prompt_wait.

Lemma within_getattr {A B} name (value : A) (k : A -> M B) (n s : Z) :
  within n s (k value) -> 0 <= n -> 0 <= s ->
  within n s (f <- getattr_self class_attributes name value ;; k f).
Proof.
  intros Hk Hn Hs. unfold getattr_self. destruct (existsb _ _).
  - intros w. exact (Hk w).
  - eapply within_weaken; [|exact Hn|exact Hs].
    intros w. exists []. cbn. rewrite app_nil_r. repeat split; reflexivity || lia.
Qed.

Lemma template_review_within overview news :
  within 0 0 (template_review class_attributes _generate_template_review overview news).
Proof.
  unfold template_review. apply within_getattr; [apply template_bounded|lia|lia].
Qed.

Lemma gemini_review_within response : within 0 0 (gemini_review response).
Proof.
  unfold gemini_review. destruct response as [|text]; [apply within_ret|].
  apply (@within_seq _ _ 0 0 0 0); [apply within_lift| |lia..].
  intros [s|]; [|apply within_ret]. destruct (nonempty s); apply within_ret.
Qed.

Lemma log_then_template_within lvl subject err overview news :
  within 0 0 (log lvl subject err ;;
              template_review class_attributes _generate_template_review overview news).
Proof.
  apply (@within_seq _ _ 0 0 0 0); [apply within_log| |lia..].
  intros _. apply template_review_within.
Qed.

(** [generate_market_review]: the calls and waits of the prompt, and one
    call of Gemini or the calls and waits of the OpenAI loop. *)
Lemma generate_market_review_within (self : MarketAnalyzer) overview news :
  within (prompt_calls + Z.max 1 (gemini_max_retries get_config))
         (prompt_wait + 60 * Z.max 0 (gemini_max_retries get_config - 1))
    (generate_market_review class_attributes _build_review_prompt
       _generate_template_review self overview news).
Proof.
  set (R := gemini_max_retries get_config).
  assert (Hskip : within (prompt_calls + Z.max 1 R) (prompt_wait + 60 * Z.max 0 (R - 1))
                    (log WARNING "[大盘] AI分析器未配置或不可用，使用模板生成报告" None ;;
                     template_review class_attributes _generate_template_review overview news)).
  { eapply within_weaken; [apply log_then_template_within|lia|lia]. }
  unfold generate_market_review. destruct (analyzer self) as [llm|]; [|exact Hskip].
  destruct (negb (is_available llm)); [exact Hskip|].
  apply within_getattr; [|lia|lia].
  apply (@within_seq _ _ prompt_calls prompt_wait (Z.max 1 R) (60 * Z.max 0 (R - 1)));
    [apply prompt_bounded| |lia..].
  intros prompt.
  apply (@within_handle _ (Z.max 1 R) (60 * Z.max 0 (R - 1)) 0 0);
    [|intros e; apply log_then_template_within|lia..].
  apply (@within_seq _ _ 0 0 (Z.max 1 R) (60 * Z.max 0 (R - 1))); [apply within_log| |lia..].
  intros _. cbv zeta.
  apply (@within_seq _ _ (Z.max 1 R) (60 * Z.max 0 (R - 1)) 0 0); [| |lia..].
  - destruct (_use_openai llm).
    + apply (@within_seq _ _ (Z.max 0 R) (60 * Z.max 0 (R - 1)) 0 0);
        [apply openai_call_bounded|intros; apply within_ret|lia..].
    + apply (@within_seq _ _ 0 0 1 0); [| |lia..].
      * destruct (_model llm); [apply within_ret|apply within_raise].
      * intros model. apply (@within_seq _ _ 1 0 0 0);
          [apply within_invoke|intros; apply gemini_review_within|lia..].
  - intros [r|]; [|apply log_then_template_within].
    destruct (nonempty r); [|apply log_then_template_within].
    apply (@within_seq _ _ 0 0 0 0); [apply within_log|intros; apply within_ret|lia..].
Qed.

End ReviewCost.

Section DailyCost.
Context {X : Externals} {MD : MarginData}.

Lemma margin_data_within : within 18 198 PkgReview.get_margin_data.
Proof.
  intros w. destruct (margin_data_run w) as (r & w' & evs & Hrun & Htr & Hc & Hs & _).
  exists evs. unfold world_after. rewrite Hrun. cbn [snd].
  split; [exact Htr|]. split; [exact Hc|lia].
Qed.

Lemma search_market_news_within (search_service : option SearchService) :
  within 3 0 (search_market_news search_service).
Proof.
  intros w. destruct search_service as [search|]; unfold world_after;
    cbn [search_market_news].
  - rewrite (@bind_ok _ _ _ now _ w (datetime_now (ext w)) w eq_refl). cbv zeta.
    erewrite bind_ok; [|apply log_step].
    set (w0 := mkWorld (ext w) (trace w ++ [Log INFO "[大盘] 开始搜索市场新闻..." None])).
    destruct (search_loop_run search (search_queries (datetime_now (ext w))) [] w0)
      as (stopped & w1 & evs & Hrun & Htr & Hc & Hs & _).
    rewrite (bind_ok _ Hrun). cbn [search_queries List.length] in Hc.
    destruct stopped as [e|]; (erewrite bind_ok; [|apply log_step]); cbn [snd trace];
      rewrite Htr; cbn [trace w0]; rewrite <- !app_assoc;
      eexists; (split; [reflexivity|]);
      rewrite !calls_app, !slept_app, Hs; unfold calls at 1 3; cbn; lia.
  - eexists. cbn [snd]. split; [reflexivity|]. cbn. lia.
Qed.

End DailyCost.

(** X20 ([run_daily_review]).  One run of the daily review makes at
    most 48 calls of the data and search services plus the LLM calls, one
    for Gemini or one per configured retry for OpenAI, and sleeps at most
    318 seconds plus 60 seconds for every OpenAI retry after the first
    pass. *)
Theorem daily_review_cost {X : Externals} {MD : MarginData} (self : MarketAnalyzer)
    (search_service : option SearchService) (w : World) :
  exists evs,
    trace (world_after (PkgReview.run_daily_review self search_service) w) = (trace w ++ evs)%list
    /\ calls evs <= 48 + Z.max 1 (gemini_max_retries get_config)
    /\ slept evs <= 318 + 60 * Z.max 0 (gemini_max_retries get_config - 1).
Proof.
  revert w. change (within (48 + Z.max 1 (gemini_max_retries get_config))
                      (318 + 60 * Z.max 0 (gemini_max_retries get_config - 1))
                      (PkgReview.run_daily_review self search_service)).
  set (R := gemini_max_retries get_config).
  unfold PkgReview.run_daily_review.
  apply (@within_seq _ _ _ 0 0 (48 + Z.max 1 R) (318 + 60 * Z.max 0 (R - 1)));
    [apply within_log| |lia..].
  intros _.
  apply (@within_seq _ _ _ 27 120 (21 + Z.max 1 R) (198 + 60 * Z.max 0 (R - 1)));
    [apply (@within_weaken _ _ _ _ _ _ _ (@market_overview_bounded X 9)); lia| |lia..].
  intros overview.
  apply (@within_seq _ _ _ 3 0 (18 + Z.max 1 R) (198 + 60 * Z.max 0 (R - 1)));
    [apply search_market_news_within| |lia..].
  intros news.
  apply (@within_seq _ _ _ (18 + Z.max 1 R) (198 + 60 * Z.max 0 (R - 1)) 0 0); [| |lia..].
  - apply generate_market_review_within; [| |lia|lia].
    + intros ov nw. unfold PkgReview._build_review_prompt.
      apply (@within_seq _ _ _ 18 198 0 0);
        [apply margin_data_within|intros; apply within_ret|lia..].
    + intros ov nw. unfold Pkg._generate_template_review.
      apply (@within_seq _ _ _ 0 0 0 0); [apply within_now|intros; apply within_ret|lia..].
  - intros report. apply within_log_ret.
Qed.
